(** * Contact directory (main.py): fields, records, address book, upcoming birthdays

    A shallow embedding of [main.py] and of the parts of Python's [str],
    [datetime] and [_strptime] that the program calls, followed by the
    properties of the program.

    Conventions.
    - A Python [str] is a [string]; each [ascii] stands for the code point of
      the same number, so the strings of this file are the Python strings over
      U+0000..U+00FF.
    - An integer is a [Z].
    - A call that can raise returns a [result]; a method that mutates its
      object is a state transformer returning the outcome together with the
      object as the call leaves it, also when the call raises.
    - [datetime.now()] is an input of [get_upcoming_birthdays]. *)

From Stdlib Require Import ZArith List String Ascii Bool Lia.
Import ListNotations.
Local Open Scope string_scope.
Local Open Scope list_scope.
Local Open Scope Z_scope.

(** ** Exceptions and results *)

Inductive exn : Type :=
| ValueError (msg : string)
| UnboundLocalError (msg : string)
| OverflowError (msg : string).

Inductive result (A : Type) : Type :=
| Ok (a : A)
| Raise (e : exn).
Arguments Ok {A} a.
Arguments Raise {A} e.

Definition rbind {A B} (r : result A) (k : A -> result B) : result B :=
  match r with
  | Ok a => k a
  | Raise e => Raise e
  end.

Declare Scope res_scope.
Delimit Scope res_scope with res.
Notation "x <- c ;; k" := (rbind c (fun x => k))
  (at level 61, c at next level, right associativity) : res_scope.

(** ** The proleptic Gregorian calendar of [datetime] *)

Module Calendar.

Definition MINYEAR : Z := 1.
Definition MAXYEAR : Z := 9999.
(** [date(9999, 12, 31).toordinal()] *)
Definition MAXORDINAL : Z := 3652059.

Definition is_leap (y : Z) : bool :=
  (y mod 4 =? 0) && (negb (y mod 100 =? 0) || (y mod 400 =? 0)).

(** [_DAYS_IN_MONTH] *)
Definition DAYS_IN_MONTH (m : Z) : Z :=
  match m with
  | 1 => 31
  | 2 => 28
  | 3 => 31
  | 4 => 30
  | 5 => 31
  | 6 => 30
  | 7 => 31
  | 8 => 31
  | 9 => 30
  | 10 => 31
  | 11 => 30
  | 12 => 31
  | _ => 0
  end.

Definition days_in_month (y m : Z) : Z :=
  if (m =? 2) && is_leap y then 29 else DAYS_IN_MONTH m.

(** [_DAYS_BEFORE_MONTH] *)
Definition DAYS_BEFORE_MONTH (m : Z) : Z :=
  match m with
  | 1 => 0
  | 2 => 31
  | 3 => 59
  | 4 => 90
  | 5 => 120
  | 6 => 151
  | 7 => 181
  | 8 => 212
  | 9 => 243
  | 10 => 273
  | 11 => 304
  | 12 => 334
  | _ => 0
  end.

Definition days_before_year (y : Z) : Z :=
  let p := y - 1 in
  p * 365 + p / 4 - p / 100 + p / 400.

Definition days_before_month (y m : Z) : Z :=
  DAYS_BEFORE_MONTH m + (if (2 <? m) && is_leap y then 1 else 0).

Definition ymd2ord (y m d : Z) : Z :=
  days_before_year y + days_before_month y m + d.

Definition DI400Y : Z := 146097.
Definition DI100Y : Z := 36524.
Definition DI4Y : Z := 1461.

(** The month and day of the [n]-th day (from 0) of a year. *)
Definition month_day (leapyear : bool) (n : Z) : Z * Z :=
  let month := Z.shiftr (n + 50) 5 in
  let preceding :=
    DAYS_BEFORE_MONTH month + (if (2 <? month) && leapyear then 1 else 0) in
  if n <? preceding then
    let month' := month - 1 in
    let preceding' :=
      preceding
      - (DAYS_IN_MONTH month' + (if (month' =? 2) && leapyear then 1 else 0)) in
    (month', n - preceding' + 1)
  else (month, n - preceding + 1).

Definition ord2ymd (ordinal : Z) : Z * Z * Z :=
  let n := ordinal - 1 in
  let n400 := n / DI400Y in
  let n := n mod DI400Y in
  let n100 := n / DI100Y in
  let n := n mod DI100Y in
  let n4 := n / DI4Y in
  let n := n mod DI4Y in
  let n1 := n / 365 in
  let n := n mod 365 in
  let y := n400 * 400 + 1 + n100 * 100 + n4 * 4 + n1 in
  if (n1 =? 4) || (n100 =? 4) then (y - 1, 12, 31)
  else
    let leapyear := (n1 =? 3) && (negb (n4 =? 24) || (n100 =? 3)) in
    let '(m, d) := month_day leapyear n in
    (y, m, d).

(** What the constructors of [date] and [datetime] accept. *)
Definition valid_date (y m d : Z) : bool :=
  (MINYEAR <=? y) && (y <=? MAXYEAR) &&
  (1 <=? m) && (m <=? 12) &&
  (1 <=? d) && (d <=? days_in_month y m).

End Calendar.

(** ** The methods of [str] the program calls *)

Module Str.

Definition code (c : ascii) : Z := Z.of_N (N_of_ascii c).

Definition len (s : string) : Z := Z.of_nat (String.length s).

(** The decimal digits [0-9]; over U+0000..U+00FF they are also the
    characters a regular expression's [\d] matches. *)
Definition is_decimal (c : ascii) : bool :=
  (48 <=? code c) && (code c <=? 57).

(** The characters [str.isdigit] accepts: over U+0000..U+00FF the decimal
    digits and the superscripts U+00B2, U+00B3 and U+00B9, whose Unicode
    numeric type is Digit. *)
Definition isdigit_char (c : ascii) : bool :=
  is_decimal c || (code c =? 178) || (code c =? 179) || (code c =? 185).

Fixpoint all_chars (p : ascii -> bool) (s : string) : bool :=
  match s with
  | EmptyString => true
  | String c s' => p c && all_chars p s'
  end.

(** [s.isdigit()]: every character is a digit and there is at least one. *)
Definition isdigit (s : string) : bool :=
  negb (len s =? 0) && all_chars isdigit_char s.

Definition digit_char (k : Z) : ascii := ascii_of_N (Z.to_N (48 + k)).

(** [n] in [w] decimal digits, zero-filled. *)
Fixpoint zfill (w : nat) (n : Z) : string :=
  match w with
  | O => EmptyString
  | S w' => (zfill w' (n / 10) ++ String (digit_char (n mod 10)) EmptyString)%string
  end.

(** The decimal digits of [n >= 0], the first one not zero unless [n] is 0;
    [fuel] is at least their number. *)
Fixpoint decimal_fuel (fuel : nat) (n : Z) : string :=
  match fuel with
  | O => EmptyString
  | S fuel' =>
      if n <? 10 then String (digit_char n) EmptyString
      else (decimal_fuel fuel' (n / 10)
            ++ String (digit_char (n mod 10)) EmptyString)%string
  end.

Definition decimal (n : Z) : string :=
  decimal_fuel (S (Z.to_nat (Z.log2 n))) n.

(** [str(n)] *)
Definition of_int (n : Z) : string :=
  if n <? 0 then String "-" (decimal (- n)) else decimal n.

Fixpoint lstrip (s : string) : string :=
  match s with
  | String " " s' => lstrip s'
  | _ => s
  end.

Fixpoint digits_value (acc : Z) (s : string) : Z :=
  match s with
  | EmptyString => acc
  | String c s' => digits_value (acc * 10 + (code c - 48)) s'
  end.

(** [int(s)] for the texts the groups of [strptime] capture: decimal
    digits, after blanks for a blank-filled day. *)
Definition int (s : string) : Z := digits_value 0 (lstrip s).

End Str.

(** ** [datetime], [timedelta] *)

Record timedelta : Type := mk_timedelta {
  days : Z;
  seconds : Z;
  microseconds : Z
}.

Record datetime : Type := mk_datetime {
  year : Z;
  month : Z;
  day : Z;
  hour : Z;
  minute : Z;
  second : Z;
  microsecond : Z
}.

Module Datetime.
Import Calendar.

Definition US_PER_SECOND : Z := 1000000.
Definition US_PER_DAY : Z := 86400 * US_PER_SECOND.

(** [timedelta(days, seconds, microseconds)]: the fields are normalised,
    [0 <= seconds < 86400] and [0 <= microseconds < 1000000], the carry
    going to [days]. *)
Definition timedelta_new (d s us : Z) : timedelta :=
  let total := (d * 86400 + s) * US_PER_SECOND + us in
  let r := total mod US_PER_DAY in
  mk_timedelta (total / US_PER_DAY) (r / US_PER_SECOND) (r mod US_PER_SECOND).

(** The constructor and its check of the date, with the texts of CPython's
    [datetime]. The time fields of every call of this program come from a
    [datetime] and are in range. *)
Definition datetime_new (y m d h mi s us : Z) : result datetime :=
  if negb ((MINYEAR <=? y) && (y <=? MAXYEAR)) then
    Raise (ValueError ("year " ++ Str.of_int y ++ " is out of range")%string)
  else if negb ((1 <=? m) && (m <=? 12)) then
    Raise (ValueError "month must be in 1..12")
  else if negb ((1 <=? d) && (d <=? days_in_month y m)) then
    Raise (ValueError "day is out of range for month")
  else Ok (mk_datetime y m d h mi s us).

(** The values a [datetime] can hold. *)
Definition valid_time (dt : datetime) : bool :=
  (0 <=? hour dt) && (hour dt <? 24) &&
  (0 <=? minute dt) && (minute dt <? 60) &&
  (0 <=? second dt) && (second dt <? 60) &&
  (0 <=? microsecond dt) && (microsecond dt <? US_PER_SECOND).

Definition valid (dt : datetime) : bool :=
  valid_date (year dt) (month dt) (day dt) && valid_time dt.

(** The microseconds since midnight. *)
Definition time_of_day (dt : datetime) : Z :=
  (second dt + minute dt * 60 + hour dt * 3600) * US_PER_SECOND
  + microsecond dt.

(** [dt.replace(year=y)] *)
Definition replace_year (dt : datetime) (y : Z) : result datetime :=
  datetime_new y (month dt) (day dt)
               (hour dt) (minute dt) (second dt) (microsecond dt).

Definition toordinal (dt : datetime) : Z :=
  ymd2ord (year dt) (month dt) (day dt).

(** Monday is 0, Sunday is 6. *)
Definition weekday (dt : datetime) : Z := (toordinal dt + 6) mod 7.

(** The comparison of two tuples of integers. *)
Fixpoint tuple_cmp (a b : list Z) : comparison :=
  match a, b with
  | [], [] => Eq
  | [], _ :: _ => Lt
  | _ :: _, [] => Gt
  | x :: a', y :: b' =>
      match x ?= y with
      | Eq => tuple_cmp a' b'
      | c => c
      end
  end.

Definition fields (dt : datetime) : list Z :=
  [year dt; month dt; day dt; hour dt; minute dt; second dt; microsecond dt].

(** [a < b] on naive datetimes *)
Definition lt (a b : datetime) : bool :=
  match tuple_cmp (fields a) (fields b) with
  | Lt => true
  | _ => false
  end.

Definition day_seconds (dt : datetime) : Z :=
  second dt + minute dt * 60 + hour dt * 3600.

(** [a - b] *)
Definition sub (a b : datetime) : timedelta :=
  timedelta_new (toordinal a - toordinal b)
                (day_seconds a - day_seconds b)
                (microsecond a - microsecond b).

(** [dt + td] *)
Definition add (dt : datetime) (td : timedelta) : result datetime :=
  let delta :=
    timedelta_new (toordinal dt + days td)
                  (day_seconds dt + seconds td)
                  (microsecond dt + microseconds td) in
  let h := seconds delta / 3600 in
  let rem := seconds delta mod 3600 in
  if (0 <? days delta) && (days delta <=? MAXORDINAL) then
    let '(y, m, d) := ord2ymd (days delta) in
    Ok (mk_datetime y m d h (rem / 60) (rem mod 60) (microseconds delta))
  else Raise (OverflowError "date value out of range").

(** [dt.strftime("%d.%m.%Y")], which CPython hands to the [strftime] of the
    C library: the day and the month in two digits, and the year, with
    glibc, in as many digits as it has, so without zeros before a year below
    1000. *)
Definition strftime_dmY (dt : datetime) : string :=
  (Str.zfill 2 (day dt) ++ "." ++ Str.zfill 2 (month dt) ++ "."
   ++ Str.decimal (year dt))%string.


(** *** [datetime.strptime(s, "%d.%m.%Y")]

    [_strptime] turns the format into a regular expression, matches it at
    the start of the data, and refuses data left over. The expression is a
    backtracking one: [re_match] lists the ways a prefix can match, the
    preferred one first. *)
Inductive regex : Type :=
| Cls (p : ascii -> bool)
| Seq (r1 r2 : regex)
| Alt (r1 r2 : regex).

Fixpoint re_match (r : regex) (s : string) : list (string * string) :=
  match r with
  | Cls p =>
      match s with
      | String c s' => if p c then [(String c EmptyString, s')] else []
      | EmptyString => []
      end
  | Seq r1 r2 =>
      flat_map (fun '(a, s1) =>
                  map (fun '(b, s2) => ((a ++ b)%string, s2)) (re_match r2 s1))
               (re_match r1 s)
  | Alt r1 r2 => re_match r1 s ++ re_match r2 s
  end.


Definition chr (c : ascii) : regex := Cls (Ascii.eqb c).
Definition rng (lo hi : ascii) : regex :=
  Cls (fun c => (Str.code lo <=? Str.code c) && (Str.code c <=? Str.code hi)).
Definition dig : regex := Cls Str.is_decimal.

(** [%d]: [3[0-1]|[1-2]\d|0[1-9]|[1-9]| [1-9]] *)
Definition re_d : regex :=
  Alt (Seq (chr "3") (rng "0" "1"))
 (Alt (Seq (rng "1" "2") dig)
 (Alt (Seq (chr "0") (rng "1" "9"))
 (Alt (rng "1" "9")
      (Seq (chr " ") (rng "1" "9"))))).

(** [%m]: [1[0-2]|0[1-9]|[1-9]] *)
Definition re_m : regex :=
  Alt (Seq (chr "1") (rng "0" "2"))
 (Alt (Seq (chr "0") (rng "1" "9"))
      (rng "1" "9")).

(** [%Y]: [\d\d\d\d] *)
Definition re_Y : regex := Seq dig (Seq dig (Seq dig dig)).

(** The groups of every match of [%d\.%m\.%Y] at the start of [s], with the
    text left after it: what can follow a day [d] and a month [m], what can
    follow a day, and the whole. *)
Definition after_m (d m s3 : string) : list (string * string * string * string) :=
  flat_map (fun '(_, s4) =>
              map (fun '(Y, s5) => (d, m, Y, s5)) (re_match re_Y s4))
           (re_match (chr ".") s3).

Definition after_d (d s1 : string) : list (string * string * string * string) :=
  flat_map (fun '(_, s2) =>
              flat_map (fun '(m, s3) => after_m d m s3) (re_match re_m s2))
           (re_match (chr ".") s1).

Definition format_matches (s : string) : list (string * string * string * string) :=
  flat_map (fun '(d, s1) => after_d d s1) (re_match re_d s).

(** The text of the first [ValueError] stands for the library's, which also
    quotes the data; [Birthday], the only caller, replaces it. *)
Definition strptime_dmY (s : string) : result datetime :=
  match format_matches s with
  | [] => Raise (ValueError "time data does not match format '%d.%m.%Y'")
  | (d, m, Y, rest) :: _ =>
      if negb (Str.len rest =? 0) then
        Raise (ValueError ("unconverted data remains: " ++ rest)%string)
      else
        datetime_new (Str.int Y) (Str.int m) (Str.int d) 0 0 0 0
  end.

End Datetime.

(** ** Methods that mutate their object

    [M S A] is a method on an object of state [S]: it returns or raises, and
    leaves the object in the state paired with the outcome. *)

Definition M (S A : Type) : Type := S -> result A * S.

Definition ret {S A} (a : A) : M S A := fun s => (Ok a, s).

Definition raise {S A} (e : exn) : M S A := fun s => (Raise e, s).

Definition bind {S A B} (c : M S A) (k : A -> M S B) : M S B :=
  fun s =>
    match c s with
    | (Ok a, s') => k a s'
    | (Raise e, s') => (Raise e, s')
    end.

Definition lift {S A} (r : result A) : M S A := fun s => (r, s).

Definition gets {S A} (f : S -> A) : M S A := fun s => (Ok (f s), s).

Definition modify {S} (f : S -> S) : M S unit := fun s => (Ok tt, f s).

Declare Scope meth_scope.
Delimit Scope meth_scope with meth.
Notation "x <- c ;; k" := (bind c (fun x => k))
  (at level 61, c at next level, right associativity) : meth_scope.
Notation "c ;; k" := (bind c (fun _ => k))
  (at level 61, right associativity) : meth_scope.

(** ** Fields *)

Record Field (A : Type) : Type := mk_Field { value : A }.
Arguments mk_Field {A} value.
Arguments value {A} f.

(** [Field.__str__] of a field holding a string *)
Definition Field_str (f : Field string) : string := value f.


Definition Name (v : string) : Field string := mk_Field v.

Definition BIRTHDAY_ERROR : string := "Invalid date format. Use DD.MM.YYYY".

(** [Birthday.__init__]: every [ValueError] of [strptime] is replaced by the
    program's own; the datetime [strptime] returns is true in a condition. *)
Definition Birthday (v : string) : result (Field datetime) :=
  match Datetime.strptime_dmY v with
  | Ok parsed_date => Ok (mk_Field parsed_date)
  | Raise (ValueError _) => Raise (ValueError BIRTHDAY_ERROR)
  | Raise e => Raise e
  end.

Definition PHONE_ERROR : string :=
  "The phone number must be a string of 10 digits".

(** [Phone.__init__] *)
Definition Phone (number : string) : result (Field string) :=
  if negb (Str.isdigit number) || negb (Str.len number =? 10) then
    Raise (ValueError PHONE_ERROR)
  else Ok (mk_Field number).

(** ** Record *)

Record record : Type := mk_record {
  name : Field string;
  phones : list (Field string);
  birthday : option (Field datetime)
}.

Definition set_phones (l : list (Field string)) (self : record) : record :=
  mk_record (name self) l (birthday self).

Definition set_birthday (b : Field datetime) (self : record) : record :=
  mk_record (name self) (phones self) (Some b).

(** [Record.__init__] *)
Definition Record_ (n : string) : record := mk_record (Name n) [] None.

Definition add_phone (number : string) : M record unit :=
  (phone <- lift (Phone number) ;;
   modify (fun self => set_phones (phones self ++ [phone]) self))%meth.

Definition add_birthday (b : string) : M record unit :=
  (bd <- lift (Birthday b) ;;
   modify (set_birthday bd))%meth.

(** The loop of [remove_phone] over a list of phones: the list without the
    first phone of value [number], if there is one. [self.phones.remove(phone)]
    removes the first element that is the object [phone]; the phones of a
    record are distinct objects, one made by each [add_phone], so that is the
    element the loop stands at. *)
Fixpoint remove_first (number : string) (l : list (Field string))
  : option (list (Field string)) :=
  match l with
  | [] => None
  | phone :: l' =>
      if String.eqb (value phone) number then Some l'
      else option_map (cons phone) (remove_first number l')
  end.

Definition remove_phone (number : string) : M record bool :=
  fun self =>
    match remove_first number (phones self) with
    | Some l => (Ok true, set_phones l self)
    | None => (Ok false, self)
    end.

Fixpoint find_phone_in (number : string) (l : list (Field string))
  : option (Field string) :=
  match l with
  | [] => None
  | phone :: l' =>
      if String.eqb (value phone) number then Some phone
      else find_phone_in number l'
  end.

Definition find_phone (number : string) (self : record)
  : option (Field string) :=
  find_phone_in number (phones self).

(** A [Phone] object is true in a condition, [None] is false. *)
Definition edit_phone (old_number new_number : string) : M record bool :=
  fun self =>
    match find_phone old_number self with
    | Some _ =>
        (add_phone new_number ;;
         remove_phone old_number ;;
         ret true)%meth self
    | None =>
        raise (ValueError ("Old number " ++ old_number ++ " not found")%string)
              self
    end.

(** ** AddressBook

    [data] is the dict of the [UserDict]: the keys in insertion order, each
    once. *)

Definition AddressBook : Type := list (string * record).

Fixpoint dict_get {V} (k : string) (d : list (string * V)) : option V :=
  match d with
  | [] => None
  | (k', v) :: d' => if String.eqb k' k then Some v else dict_get k d'
  end.

Definition dict_contains {V} (k : string) (d : list (string * V)) : bool :=
  match dict_get k d with
  | Some _ => true
  | None => false
  end.

(** [d[k] = v]: a key already there keeps its place. *)
Fixpoint dict_set {V} (k : string) (v : V) (d : list (string * V))
  : list (string * V) :=
  match d with
  | [] => [(k, v)]
  | (k', v') :: d' =>
      if String.eqb k' k then (k', v) :: d' else (k', v') :: dict_set k v d'
  end.

(** [del d[k]] *)
Definition dict_del {V} (k : string) (d : list (string * V))
  : list (string * V) :=
  filter (fun kv => negb (String.eqb (fst kv) k)) d.

Definition dict_values {V} (d : list (string * V)) : list V := map snd d.

Definition add_record (r : record) : M AddressBook unit :=
  modify (dict_set (value (name r)) r).

Definition find (n : string) (self : AddressBook) : option record :=
  dict_get n self.

Definition delete (n : string) : M AddressBook unit :=
  fun self =>
    if dict_contains n self then modify (dict_del n) self
    else raise (ValueError ("Record with name " ++ n ++ " not found.")%string)
               self.

(** An element of the list [get_upcoming_birthdays] returns: the dict with
    the keys [name] and [birthday]. *)
Record upcoming : Type := mk_upcoming {
  u_name : string;
  u_birthday : string
}.

(** The text of the [UnboundLocalError] for [this_year_birthday], as Python
    3.11 and later word it. *)
Definition UNBOUND_ERROR : string :=
  "cannot access local variable 'this_year_birthday' where it is not associated with a value".

(** The locals of [get_upcoming_birthdays] that live across the iterations
    of its loop: [this_year_birthday], unbound until its first assignment,
    and [upcoming_birthdays]. *)
Definition loop_state : Type := option datetime * list upcoming.

(** Lines 90 to 93: the value of [this_year_birthday] after the two [if]s. *)
Definition candidate (today : datetime) (r : record)
           (this_year_birthday : option datetime) : result datetime :=
  (v <- match birthday r with
        | Some b =>
            c <- Datetime.replace_year (value b) (year today) ;; Ok (Some c)
        | None => Ok this_year_birthday
        end ;;
   c <- match v with
        | Some c => Ok c
        | None => Raise (UnboundLocalError UNBOUND_ERROR)
        end ;;
   if Datetime.lt c today then Datetime.replace_year c (year today + 1)
   else Ok c)%res.

Definition days_until_birthday (today this_year_birthday : datetime) : Z :=
  days (Datetime.sub this_year_birthday today).

(** [dt.weekday() in (5, 6)] *)
Definition is_weekend (dt : datetime) : bool :=
  (Datetime.weekday dt =? 5) || (Datetime.weekday dt =? 6).

(** Lines 98 and 99: the weekend shift, by [timedelta(days=7 - weekday)]. *)
Definition shift_weekend (this_year_birthday : datetime) : result datetime :=
  if is_weekend this_year_birthday then
    Datetime.add this_year_birthday
                 (Datetime.timedelta_new
                    (7 - Datetime.weekday this_year_birthday) 0 0)
  else Ok this_year_birthday.

(** One iteration of the loop. *)
Definition loop_body (today : datetime) (st : loop_state) (r : record)
  : result loop_state :=
  let '(this_year_birthday, upcoming_birthdays) := st in
  (c <- candidate today r this_year_birthday ;;
   let d := days_until_birthday today c in
   if (0 <=? d) && (d <=? 7) then
     c' <- shift_weekend c ;;
     Ok (Some c',
         upcoming_birthdays
           ++ [mk_upcoming (value (name r)) (Datetime.strftime_dmY c')])
   else Ok (Some c, upcoming_birthdays))%res.

Fixpoint loop (today : datetime) (st : loop_state) (rs : list record)
  : result loop_state :=
  match rs with
  | [] => Ok st
  | r :: rs' => (st' <- loop_body today st r ;; loop today st' rs')%res
  end.

(** [today] is what [datetime.now()] returns. *)
Definition get_upcoming_birthdays (today : datetime) (self : AddressBook)
  : result (list upcoming) :=
  (st <- loop today (None, []) (dict_values self) ;; Ok (snd st))%res.

(** ** Handlers *)

(** [str(e)] *)
Definition exn_str (e : exn) : string :=
  match e with
  | ValueError msg => msg
  | UnboundLocalError msg => msg
  | OverflowError msg => msg
  end.

(** The decorator [input_error]: the handler's text, or the text for what it
    raised. The handlers modelled here raise no [IndexError] or [KeyError]. *)
Definition input_error {S} (func : M S string) : S -> string * S :=
  fun s =>
    match func s with
    | (Ok text, s') => (text, s')
    | (Raise (ValueError msg), s') => (("ValueError: " ++ msg)%string, s')
    | (Raise e, s') => (exn_str e, s')
    end.

(** [name, phone = args] *)
Definition unpack2 {S} (args : list string) : M S (string * string) :=
  match args with
  | [a; b] => ret (a, b)
  | [] => raise (ValueError "not enough values to unpack (expected 2, got 0)")
  | [_] => raise (ValueError "not enough values to unpack (expected 2, got 1)")
  | _ => raise (ValueError "too many values to unpack (expected 2)")
  end.

(** The body of [add_contact]. The new record is a local object until
    [add_record] stores it. *)
Definition add_contact_body (args : list string) : M AddressBook string :=
  (np <- unpack2 args ;;
   let '(n, phone) := np in
   present <- gets (dict_contains n) ;;
   if (present : bool) then
     raise (ValueError ("Contact with name " ++ n ++ " already exists.")%string)
   else
     let r := Record_ n in
     match add_phone phone r with
     | (Raise e, _) => raise e
     | (Ok _, r') => add_record r' ;; ret "Contact added."
     end)%meth.

Definition add_contact (args : list string) : AddressBook -> string * AddressBook :=
  input_error (add_contact_body args).

Fixpoint join (sep : string) (l : list string) : string :=
  match l with
  | [] => EmptyString
  | [x] => x
  | x :: l' => (x ++ sep ++ join sep l')%string
  end.

Definition LF : string := String (ascii_of_nat 10) EmptyString.

(** [show_upcoming_birthdays], with the clock reading [today]. *)
Definition show_upcoming_birthdays (today : datetime)
  : AddressBook -> string * AddressBook :=
  input_error (fun book =>
    match get_upcoming_birthdays today book with
    | Raise e => (Raise e, book)
    | Ok [] => (Ok "No upcoming birthdays.", book)
    | Ok l =>
        (Ok (join LF (map (fun item =>
                             (u_name item ++ ": " ++ u_birthday item)%string)
                          l)),
         book)
    end).

(** ** Predicates of the properties, and the books and records of the examples *)

Import Calendar.

(** The check of one day of a year against [month_day]: a month and a day of
    that month, the [n + 1]-th of the year. *)
Definition month_day_ok (leap : bool) (n : Z) : bool :=
  let '(m, d) := month_day leap n in
  (1 <=? m) && (m <=? 12) && (1 <=? d)
  && (d <=? DAYS_IN_MONTH m + (if (m =? 2) && leap then 1 else 0))
  && (DAYS_BEFORE_MONTH m + (if (2 <? m) && leap then 1 else 0) + d =? n + 1).

(** The text of a date as DD.MM.YYYY. *)
Definition DDMMYYYY (d m y : Z) : string :=
  (Str.zfill 2 d ++ "." ++ Str.zfill 2 m ++ "." ++ Str.zfill 4 y)%string.





Definition one_phone : record := mk_record (Name "Ann") [mk_Field "1112223333"] None.

Definition two_phones : record :=
  mk_record (Name "Ann") [mk_Field "1112223333"; mk_Field "4445556666"] None.

Definition ann_book : AddressBook := [("Ann", one_phone)].

(** Exactly ten characters, each one of [0-9]. *)
Definition ten_ascii_digits (raw : string) : bool :=
  (Str.len raw =? 10) && Str.all_chars Str.is_decimal raw.

(** Ten times the superscript two, U+00B2. *)
Definition SUPERSCRIPT_TWO : ascii := ascii_of_nat 178.
Definition ten_superscripts : string :=
  string_of_list_ascii (repeat SUPERSCRIPT_TWO 10).

(** A contact made by [Record] and [add_birthday]. *)
Definition contact (n b : string) : record := snd (add_birthday b (Record_ n)).

(** The book after [add_record] of each record in turn. *)
Definition book_of (rs : list record) : AddressBook :=
  fold_left (fun book r => snd (add_record r book)) rs [].

Definition ann : record := contact "Ann" "12.06.1990".
Definition bob : record := contact "Bob" "15.06.1985".
Definition cid : record := contact "Cid" "20.06.1992".
Definition dee : record := Record_ "Dee".
Definition eve : record := contact "Eve" "10.06.1990".
Definition fay : record := contact "Fay" "18.06.1990".
Definition gus : record := contact "Gus" "16.06.1991".

(** Monday 10 June 2024, at midnight and at 09:30. *)
Definition monday_midnight : datetime := mk_datetime 2024 6 10 0 0 0 0.
Definition monday_morning : datetime := mk_datetime 2024 6 10 9 30 0 0.

(** ** [str.split], [str.strip], [str.lower] *)

Module Text.

(** The characters [str.isspace] accepts, which [split] and [strip] take
    as blanks: over U+0000..U+00FF the controls U+0009 to U+000D and U+001C
    to U+001F, the space, U+0085 and U+00A0. *)
Definition is_space (c : ascii) : bool :=
  let n := Str.code c in
  ((9 <=? n) && (n <=? 13)) || ((28 <=? n) && (n <=? 31)) || (n =? 32)
  || (n =? 133) || (n =? 160).

Fixpoint lstrip (s : string) : string :=
  match s with
  | String c s' => if is_space c then lstrip s' else s
  | EmptyString => EmptyString
  end.

Fixpoint rstrip (s : string) : string :=
  match s with
  | String c s' =>
      match rstrip s' with
      | EmptyString => if is_space c then EmptyString else String c EmptyString
      | t => String c t
      end
  | EmptyString => EmptyString
  end.

(** [s.strip()] *)
Definition strip (s : string) : string := lstrip (rstrip s).

(** [s.split()]: the maximal runs of characters that are no blanks. *)
Fixpoint split (s : string) : list string :=
  match s with
  | EmptyString => []
  | String c s' =>
      if is_space c then split s'
      else
        match s' with
        | EmptyString => [String c EmptyString]
        | String c' _ =>
            if is_space c' then String c EmptyString :: split s'
            else
              match split s' with
              | w :: ws => String c w :: ws
              | [] => [String c EmptyString]
              end
        end
  end.

(** The first run of characters that are no blanks, and what follows it. *)
Fixpoint span_word (s : string) : string * string :=
  match s with
  | EmptyString => (EmptyString, EmptyString)
  | String c s' =>
      if is_space c then (EmptyString, s)
      else let '(w, r) := span_word s' in (String c w, r)
  end.

(** [s.split(maxsplit=1)]: the first word, and the text after the blanks
    that follow it, if there is any. *)
Definition split1 (s : string) : list string :=
  match lstrip s with
  | EmptyString => []
  | s1 =>
      let '(w, r) := span_word s1 in
      match lstrip r with
      | EmptyString => [w]
      | r' => [w; r']
      end
  end.

(** [c.lower()]: over U+0000..U+00FF the capitals are [A-Z] and U+00C0 to
    U+00DE without the multiplication sign U+00D7, each 32 before its
    small letter. *)
Definition lower_char (c : ascii) : ascii :=
  let n := Str.code c in
  if ((65 <=? n) && (n <=? 90))
     || ((192 <=? n) && (n <=? 222) && negb (n =? 215))
  then ascii_of_N (Z.to_N (n + 32))
  else c.

Fixpoint lower (s : string) : string :=
  match s with
  | EmptyString => EmptyString
  | String c s' => String (lower_char c) (lower s')
  end.

(** A word: a string that is not empty and has no blank. *)
Definition is_word (w : string) : bool :=
  negb (Str.len w =? 0) && Str.all_chars (fun c => negb (is_space c)) w.

End Text.

(** ** The texts of a record and of the book *)

(** [Record.__str__] *)
Definition Record_str (self : record) : string :=
  ("Contact name: " ++ value (name self) ++ ", phones: "
   ++ join "; " (map value (phones self)))%string.

(** [AddressBook.__str__] *)
Definition AddressBook_str (self : AddressBook) : string :=
  match self with
  | [] => "The address book is empty."
  | _ => join LF (map Record_str (dict_values self))
  end.

(** ** The other handlers, and the loop of [main] *)

Module Handlers.

(** What a handler can raise: the exceptions of the classes above, and the
    [KeyError] and [IndexError] the decorator has texts for. *)
Inductive raised : Type :=
| Builtin (e : exn)
| KeyError (msg : string)
| IndexError (msg : string).

Inductive outcome (A : Type) : Type :=
| Returns (a : A)
| Raises (e : raised).
Arguments Returns {A} a.
Arguments Raises {A} e.

Definition of_result {A} (r : result A) : outcome A :=
  match r with
  | Ok a => Returns a
  | Raise e => Raises (Builtin e)
  end.

Definition NOT_FOUND : string := "Contact not found.".
Definition WRONG_ARGS : string :=
  "Please provide the correct number of arguments.".

(** The decorator [input_error], with its four [except] clauses in their
    order. *)
Definition input_error {S} (func : S -> outcome string * S)
  : S -> string * S :=
  fun s =>
    match func s with
    | (Returns text, s') => (text, s')
    | (Raises (Builtin (ValueError msg)), s') =>
        (("ValueError: " ++ msg)%string, s')
    | (Raises (IndexError _), s') => (WRONG_ARGS, s')
    | (Raises (KeyError _), s') => (NOT_FOUND, s')
    | (Raises (Builtin e), s') => (exn_str e, s')
    end.

(** [name, old_phone, new_phone = args] *)
Definition unpack3 (args : list string) : result (string * string * string) :=
  match args with
  | [a; b; c] => Ok (a, b, c)
  | [] => Raise (ValueError "not enough values to unpack (expected 3, got 0)")
  | [_] => Raise (ValueError "not enough values to unpack (expected 3, got 1)")
  | [_; _] =>
      Raise (ValueError "not enough values to unpack (expected 3, got 2)")
  | _ => Raise (ValueError "too many values to unpack (expected 3)")
  end.

(** A method called on the record the book holds at the key [n]: the record
    in the book is the object the method mutates, so the book holds the
    record as the method leaves it, at the same place. *)
Definition on_record {A} (n : string) (r : record) (m : M record A)
  : AddressBook -> outcome A * AddressBook :=
  fun book =>
    let '(res, r') := m r in (of_result res, dict_set n r' book).

(** The body of [change_contact]; a [Record] is true in a condition. *)
Definition change_contact_body (args : list string)
  : AddressBook -> outcome string * AddressBook :=
  fun book =>
    match unpack3 args with
    | Raise e => (Raises (Builtin e), book)
    | Ok (n, old_phone, new_phone) =>
        match find n book with
        | Some r =>
            match on_record n r (edit_phone old_phone new_phone) book with
            | (Returns _, book') => (Returns "Contact updated.", book')
            | (Raises e, book') => (Raises e, book')
            end
        | None =>
            (Raises (KeyError ("Contact with name " ++ n ++ " not found.")%string),
             book)
        end
    end.

Definition change_contact (args : list string)
  : AddressBook -> string * AddressBook :=
  input_error (change_contact_body args).

(** The body of [show_phone]: [args[0]], and the other arguments unused. *)
Definition show_phone_body (args : list string)
  : AddressBook -> outcome string * AddressBook :=
  fun book =>
    match args with
    | [] => (Raises (IndexError "list index out of range"), book)
    | n :: _ =>
        match find n book with
        | Some r =>
            (Returns ("Phone(s) for " ++ n ++ ": "
                      ++ join ", " (map value (phones r)))%string,
             book)
        | None => (Raises (KeyError EmptyString), book)
        end
    end.

Definition show_phone (args : list string)
  : AddressBook -> string * AddressBook :=
  input_error (show_phone_body args).

Definition show_all_phones_body
  : AddressBook -> outcome string * AddressBook :=
  fun book =>
    match book with
    | [] => (Returns "No contacts available.", book)
    | _ => (Returns (join LF (map Record_str (dict_values book))), book)
    end.

Definition show_all_phones : AddressBook -> string * AddressBook :=
  input_error show_all_phones_body.

(** The body of the handler [add_birthday]. *)
Definition add_birthday_body (args : list string)
  : AddressBook -> outcome string * AddressBook :=
  fun book =>
    match unpack2 args book with
    | (Raise e, _) => (Raises (Builtin e), book)
    | (Ok (n, b), _) =>
        match find n book with
        | None =>
            (Raises (Builtin (ValueError ("Contact " ++ n ++ " not found.")%string)),
             book)
        | Some r =>
            match on_record n r (add_birthday b) book with
            | (Returns _, book') =>
                (Returns ("Birthday " ++ b ++ " added to contact " ++ n ++ ".")%string,
                 book')
            | (Raises e, book') => (Raises e, book')
            end
        end
    end.

Definition add_birthday (args : list string)
  : AddressBook -> string * AddressBook :=
  input_error (add_birthday_body args).

(** The body of [show_birthday]; a [Birthday] is true in a condition. *)
Definition show_birthday_body (args : list string)
  : AddressBook -> outcome string * AddressBook :=
  fun book =>
    match args with
    | [] => (Raises (IndexError "list index out of range"), book)
    | n :: _ =>
        match find n book with
        | Some (mk_record _ _ (Some b)) =>
            (Returns ("Birthday of " ++ n ++ ": "
                      ++ Datetime.strftime_dmY (value b))%string,
             book)
        | _ =>
            (Raises (Builtin (ValueError
                                ("No birthday found for contact " ++ n ++ ".")%string)),
             book)
        end
    end.

Definition show_birthday (args : list string)
  : AddressBook -> string * AddressBook :=
  input_error (show_birthday_body args).

(** [parse_input]: the command and its arguments, or the text the decorator
    makes of the [ValueError] of [cmd, *args = []]. *)
Definition parse_input (user_input : string)
  : (string * list string) + string :=
  match Text.split user_input with
  | [] =>
      inr "ValueError: not enough values to unpack (expected at least 1, got 0)"
  | cmd :: args => inl (Text.lower (Text.strip cmd), args)
  end.

(** One turn of the loop of [main]: the loop ends, or prints a text and goes
    on with the book, or an exception leaves [main]. *)
Inductive turn : Type :=
| Stop
| Printed (text : string) (book : AddressBook)
| Uncaught (e : raised).

(** The call [handler(args[0].split(), book)] of a branch. *)
Definition with_args (args : list string)
           (handler : list string -> AddressBook -> string * AddressBook)
           (book : AddressBook) : turn :=
  match args with
  | [] => Uncaught (IndexError "list index out of range")
  | a :: _ => let '(text, book') := handler (Text.split a) book in
              Printed text book'
  end.

(** The body of the [while] of [main] after [input] returned [user_input],
    up to the [print]; [now] is what the clock reads in this turn. *)
Definition main_turn (now : datetime) (user_input : string)
           (book : AddressBook) : turn :=
  match Text.split1 user_input with
  | [] =>
      Uncaught (Builtin (ValueError
        "not enough values to unpack (expected at least 1, got 0)"))
  | command :: args =>
      if String.eqb command "close" || String.eqb command "exit" then Stop
      else if String.eqb command "hello" then
        Printed "How can I help you?" book
      else if String.eqb command "add" then with_args args add_contact book
      else if String.eqb command "change" then
        with_args args change_contact book
      else if String.eqb command "phone" then with_args args show_phone book
      else if String.eqb command "all" then
        let '(text, book') := show_all_phones book in Printed text book'
      else if String.eqb command "add-birthday" then
        with_args args add_birthday book
      else if String.eqb command "show-birthday" then
        with_args args show_birthday book
      else if String.eqb command "birthdays" then
        let '(text, book') := show_upcoming_birthdays now book in
        Printed text book'
      else Printed "Invalid command." book
  end.

(** A run of [main] over the lines typed, each with the reading of the
    clock in its turn: the texts printed, one for each call of [print] (a
    text may hold several lines), and how the run stands. *)
Inductive standing : Type :=
| Ended
| Waiting (book : AddressBook)
| Crashed (e : raised).

Fixpoint main_loop (inputs : list (datetime * string)) (book : AddressBook)
  : list string * standing :=
  match inputs with
  | [] => ([], Waiting book)
  | (now, user_input) :: rest =>
      match main_turn now user_input book with
      | Stop => (["Good bye!"], Ended)
      | Printed text book' =>
          let '(out, st) := main_loop rest book' in (text :: out, st)
      | Uncaught e => ([], Crashed e)
      end
  end.

Definition main (inputs : list (datetime * string)) : list string * standing :=
  let '(out, st) := main_loop inputs [] in
  ("Welcome to the assistant bot!" :: out, st).

End Handlers.

(** ** Predicates and examples of the further properties *)

(** [l1] is [l2] without some of its elements, in the order of [l2]. *)
Inductive subseq {A : Type} : list A -> list A -> Prop :=
| subseq_nil : subseq [] []
| subseq_take x l1 l2 : subseq l1 l2 -> subseq (x :: l1) (x :: l2)
| subseq_skip x l1 l2 : subseq l1 l2 -> subseq l1 (x :: l2).

(** The birthdays of the records are what [Birthday] makes: midnights of
    the calendar. *)
Definition birthdays_midnight (rs : list record) : Prop :=
  forall r b,
    In r rs -> birthday r = Some b ->
    Datetime.valid (value b) = true /\ Datetime.time_of_day (value b) = 0.

Definition midnight_if_bound (v : option datetime) : Prop :=
  forall c, v = Some c ->
            Datetime.valid c = true /\ Datetime.time_of_day c = 0.

Definition leap_day_child : record := contact "Leo" "29.02.2000".

Definition with_prefix (acc : list upcoming) (r : result loop_state)
  : result loop_state :=
  match r with
  | Ok (v, l) => Ok (v, acc ++ l)
  | Raise e => Raise e
  end.

(** A text of blanks only; the empty text is one. *)
Definition blank (s : string) : bool := Str.all_chars Text.is_space s.

(** A text without a blank. *)
Definition no_blank (s : string) : bool :=
  Str.all_chars (fun c => negb (Text.is_space c)) s.

Definition SPACE : string := String (ascii_of_nat 32) EmptyString.

(** The turn that prints the answer of a handler. *)
Definition printed (answer : string * AddressBook) : Handlers.turn :=
  let '(text, book) := answer in Handlers.Printed text book.

(** The commands whose branch of [main] reads [args[0]]. *)
Definition COMMANDS_WITH_ARGS : list string :=
  ["add"; "change"; "phone"; "add-birthday"; "show-birthday"].

Definition NO_COMMAND : Handlers.raised :=
  Handlers.Builtin
    (ValueError "not enough values to unpack (expected at least 1, got 0)").

Definition NO_ARGS : Handlers.raised :=
  Handlers.IndexError "list index out of range".

(** A line typed as a command word and arguments with one space between
    them. *)
Definition command_line (cmd : string) (args : list string) : string :=
  (cmd ++ SPACE ++ join SPACE args)%string.

(** The keys of the book are distinct, and each record is at the key that
    is its name. *)
Definition well_keyed (book : AddressBook) : Prop :=
  NoDup (map fst book)
  /\ forall k r, In (k, r) book -> value (name r) = k.

(** How a turn can change the book: by a record for a new name at the end,
    or by a record of the book replaced at its place by one of the same
    name. *)
Inductive book_change (book : AddressBook) : AddressBook -> Prop :=
| change_none : book_change book book
| change_new n phone :
    ~ In n (map fst book) ->
    book_change book (book ++ [(n, mk_record (Name n) [mk_Field phone] None)])
| change_record n r r' :
    find n book = Some r -> name r' = name r ->
    book_change book (dict_set n r' book).

Definition SUCCESS (text : string) : Prop :=
  text = "Contact added." \/ text = "Contact updated."
  \/ exists b n,
      text = ("Birthday " ++ b ++ " added to contact " ++ n ++ ".")%string.

Definition session : list (datetime * string) :=
  [(monday_morning, "add Ann 1112223333");
   (monday_morning, "add Bob 4445556666");
   (monday_morning, "add-birthday Ann 12.06.1990");
   (monday_morning, "change Bob 4445556666 7778889999");
   (monday_morning, "add Ann 0000000000")].

(** * Properties *)

(** ** The calendar *)

Lemma forallb_range (P : Z -> bool) (k : nat) :
  forallb P (map Z.of_nat (seq 0 k)) = true ->
  forall n, 0 <= n < Z.of_nat k -> P n = true.
Proof.
  intros H n Hn.
  rewrite forallb_forall in H.
  apply H. apply in_map_iff. exists (Z.to_nat n). split; [lia|].
  apply in_seq. lia.
Qed.

Lemma month_day_ok_all (leap : bool) (n : Z) :
  0 <= n < (if leap then 366 else 365) -> month_day_ok leap n = true.
Proof.
  destruct leap; intros Hn.
  - apply (forallb_range (month_day_ok true) 366); [vm_compute; reflexivity | lia].
  - apply (forallb_range (month_day_ok false) 365); [vm_compute; reflexivity | lia].
Qed.

Lemma is_leap_spec y :
  is_leap y = true <-> (y mod 4 = 0 /\ (y mod 100 <> 0 \/ y mod 400 = 0)).
Proof.
  unfold is_leap. rewrite andb_true_iff, orb_true_iff, negb_true_iff.
  rewrite !Z.eqb_eq, Z.eqb_neq. tauto.
Qed.

(** The tables of the months, computed. *)
Ltac cal_simpl :=
  cbn [DAYS_BEFORE_MONTH DAYS_IN_MONTH Z.eqb Z.ltb Z.leb Z.compare Pos.compare
       Pos.compare_cont Pos.eqb andb orb negb] in *.

(** [ord2ymd] gives a date of the calendar, and [ymd2ord] takes it back to
    the ordinal. *)
Lemma ymd2ord_ord2ymd n :
  1 <= n <= MAXORDINAL ->
  let '(y, m, d) := ord2ymd n in
  valid_date y m d = true /\ ymd2ord y m d = n.
Proof.
  intros Hn. unfold ord2ymd, MAXORDINAL, DI400Y, DI100Y, DI4Y in *.
  set (n0 := n - 1).
  set (q400 := n0 / 146097). set (r400 := n0 mod 146097).
  set (q100 := r400 / 36524). set (r100 := r400 mod 36524).
  set (q4 := r100 / 1461). set (r4 := r100 mod 1461).
  set (q1 := r4 / 365). set (r1 := r4 mod 365).
  assert (E400 : n0 = 146097 * q400 + r400 /\ 0 <= r400 < 146097)
    by (subst q400 r400; split; [apply Z.div_mod; lia | apply Z.mod_pos_bound; lia]).
  assert (E100 : r400 = 36524 * q100 + r100 /\ 0 <= r100 < 36524)
    by (subst q100 r100; split; [apply Z.div_mod; lia | apply Z.mod_pos_bound; lia]).
  assert (E4 : r100 = 1461 * q4 + r4 /\ 0 <= r4 < 1461)
    by (subst q4 r4; split; [apply Z.div_mod; lia | apply Z.mod_pos_bound; lia]).
  assert (E1 : r4 = 365 * q1 + r1 /\ 0 <= r1 < 365)
    by (subst q1 r1; split; [apply Z.div_mod; lia | apply Z.mod_pos_bound; lia]).
  clearbody q400 r400 q100 r100 q4 r4 q1 r1. subst n0.
  destruct ((q1 =? 4) || (q100 =? 4)) eqn:Hsp.
  - set (y := q400 * 400 + 1 + q100 * 100 + q4 * 4 + q1 - 1).
    assert (Hy : y = q400 * 400 + 1 + q100 * 100 + q4 * 4 + q1 - 1) by reflexivity.
    clearbody y.
    apply orb_true_iff in Hsp. rewrite !Z.eqb_eq in Hsp.
    assert (Hleap : is_leap y = true).
    { apply is_leap_spec.
      assert (Hc : (q1 = 4 /\ r1 = 0 /\ 0 <= q4 <= 23 /\ 0 <= q100 <= 3)
                   \/ (q100 = 4 /\ q4 = 0 /\ q1 = 0)) by lia.
      destruct Hc as [(-> & -> & Hq4 & Hq100) | (-> & -> & ->)].
      - assert (y mod 4 = 0).
        { replace y with (0 + (q400 * 100 + q100 * 25 + q4 + 1) * 4) by lia.
          rewrite Z.mod_add by lia. reflexivity. }
        assert (y mod 100 = 4 * q4 + 4).
        { replace y with (4 * q4 + 4 + (q400 * 4 + q100) * 100) by lia.
          rewrite Z.mod_add by lia. apply Z.mod_small. lia. }
        lia.
      - assert (y mod 4 = 0).
        { replace y with (0 + (q400 * 100 + 100) * 4) by lia.
          rewrite Z.mod_add by lia. reflexivity. }
        assert (y mod 400 = 0).
        { replace y with (0 + (q400 + 1) * 400) by lia.
          rewrite Z.mod_add by lia. reflexivity. }
        lia. }
    unfold valid_date, ymd2ord, days_before_month, days_in_month, days_before_year,
      MINYEAR, MAXYEAR.
    rewrite Hleap. cal_simpl.
    split.
    + rewrite !andb_true_iff, !Z.leb_le. lia.
    + Z.div_mod_to_equations. lia.
  - set (y := q400 * 400 + 1 + q100 * 100 + q4 * 4 + q1).
    assert (Hy : y = q400 * 400 + 1 + q100 * 100 + q4 * 4 + q1) by reflexivity.
    clearbody y.
    apply orb_false_iff in Hsp. rewrite !Z.eqb_neq in Hsp.
    set (leap := (q1 =? 3) && (negb (q4 =? 24) || (q100 =? 3))).
    assert (Hleap : is_leap y = leap).
    { subst leap. apply eq_true_iff_eq. rewrite is_leap_spec.
      rewrite andb_true_iff, orb_true_iff, negb_true_iff, !Z.eqb_eq, Z.eqb_neq.
      Z.div_mod_to_equations. lia. }
    pose proof (month_day_ok_all leap r1) as Hmd.
    unfold month_day_ok in Hmd.
    destruct (month_day leap r1) as [m d].
    assert (Hr1 : 0 <= r1 < (if leap then 366 else 365)) by (destruct leap; lia).
    specialize (Hmd Hr1).
    rewrite !andb_true_iff, !Z.leb_le, Z.eqb_eq in Hmd.
    unfold valid_date, ymd2ord, days_before_month, days_in_month, days_before_year,
      MINYEAR, MAXYEAR.
    rewrite Hleap.
    split.
    + rewrite !andb_true_iff, !Z.leb_le.
      assert (DAYS_IN_MONTH m + (if (m =? 2) && leap then 1 else 0)
              = (if (m =? 2) && leap then 29 else DAYS_IN_MONTH m)).
      { destruct (m =? 2) eqn:Em; destruct leap; cbn; try lia.
        apply Z.eqb_eq in Em. subst m. reflexivity. }
      lia.
    + Z.div_mod_to_equations. lia.
Qed.

Lemma day_of_year_bounds (leap : bool) m d :
  1 <= m <= 12 ->
  1 <= d <= (if (m =? 2) && leap then 29 else DAYS_IN_MONTH m) ->
  1 <= DAYS_BEFORE_MONTH m + (if (2 <? m) && leap then 1 else 0) + d
    <= 365 + (if leap then 1 else 0).
Proof.
  intros Hm.
  assert (Hc : m = 1 \/ m = 2 \/ m = 3 \/ m = 4 \/ m = 5 \/ m = 6 \/ m = 7
               \/ m = 8 \/ m = 9 \/ m = 10 \/ m = 11 \/ m = 12) by lia.
  clear Hm.
  repeat (destruct Hc as [-> | Hc]); try subst m; destruct leap; cal_simpl; lia.
Qed.

Lemma days_before_year_bounds y :
  1 <= y <= 9999 ->
  0 <= days_before_year y /\
  days_before_year y + 365 + (if is_leap y then 1 else 0) <= MAXORDINAL.
Proof.
  intros Hy. unfold days_before_year, MAXORDINAL.
  destruct (is_leap y) eqn:E.
  - apply is_leap_spec in E. destruct E as [E4 _].
    Z.div_mod_to_equations. lia.
  - clear E. Z.div_mod_to_equations. lia.
Qed.

Lemma ymd2ord_bounds y m d :
  valid_date y m d = true -> 1 <= ymd2ord y m d <= MAXORDINAL.
Proof.
  unfold valid_date, ymd2ord, days_before_month, days_in_month, MINYEAR, MAXYEAR.
  rewrite !andb_true_iff, !Z.leb_le. intros [[[[[Hy1 Hy2] Hm1] Hm2] Hd1] Hd2].
  pose proof (days_before_year_bounds y (conj Hy1 Hy2)) as [H0 H1].
  pose proof (day_of_year_bounds (is_leap y) m d (conj Hm1 Hm2) (conj Hd1 Hd2)).
  lia.
Qed.

(** ** Datetimes *)

Section DatetimeFacts.
Import Datetime.

Lemma valid_iff dt :
  valid dt = true <->
  valid_date (year dt) (month dt) (day dt) = true /\
  0 <= hour dt < 24 /\ 0 <= minute dt < 60 /\ 0 <= second dt < 60 /\
  0 <= microsecond dt < 1000000.
Proof.
  unfold valid, valid_time, US_PER_SECOND.
  rewrite !andb_true_iff, !Z.leb_le, !Z.ltb_lt. tauto.
Qed.

Lemma toordinal_bounds dt :
  valid dt = true -> 1 <= toordinal dt <= MAXORDINAL.
Proof.
  intros H. apply valid_iff in H. apply ymd2ord_bounds, H.
Qed.

Lemma time_of_day_bounds dt :
  valid dt = true -> 0 <= time_of_day dt < US_PER_DAY.
Proof.
  intros H. apply valid_iff in H.
  unfold time_of_day, US_PER_DAY, US_PER_SECOND. lia.
Qed.

(** The whole days from [b] to a midnight [a]. *)
Lemma days_sub_midnight a b :
  time_of_day a = 0 -> valid a = true -> valid b = true ->
  days (sub a b) =
  toordinal a - toordinal b - (if time_of_day b =? 0 then 0 else 1).
Proof.
  intros Ha Va Vb.
  pose proof (time_of_day_bounds b Vb) as Hb.
  apply valid_iff in Va, Vb.
  unfold sub, timedelta_new, day_seconds, time_of_day, US_PER_DAY,
    US_PER_SECOND in *. cbn [days].
  destruct (Z.eqb_spec ((second b + minute b * 60 + hour b * 3600) * 1000000
                        + microsecond b) 0) as [E | E].
  - symmetry. apply Z.div_unique with (r := 0); lia.
  - symmetry.
    apply Z.div_unique
      with (r := 86400 * 1000000
                 - ((second b + minute b * 60 + hour b * 3600) * 1000000
                    + microsecond b)); lia.
Qed.

Lemma time_of_day_zero dt :
  valid dt = true ->
  time_of_day dt = 0 <->
  hour dt = 0 /\ minute dt = 0 /\ second dt = 0 /\ microsecond dt = 0.
Proof.
  intros V. apply valid_iff in V. unfold time_of_day, US_PER_SECOND. lia.
Qed.

(** A midnight is before [b] when its date is before the date of [b], or
    is the date of [b] and [b] is past midnight. *)
Lemma lt_midnight a b :
  time_of_day a = 0 -> valid a = true -> valid b = true ->
  lt a b =
  match tuple_cmp [year a; month a; day a] [year b; month b; day b] with
  | Lt => true
  | Eq => negb (time_of_day b =? 0)
  | Gt => false
  end.
Proof.
  intros Ha Va Vb.
  apply (time_of_day_zero a Va) in Ha. destruct Ha as (Hh & Hmi & Hs & Hus).
  pose proof (time_of_day_zero b Vb) as Hb.
  apply valid_iff in Vb.
  unfold lt, fields. cbn [tuple_cmp]. rewrite Hh, Hmi, Hs, Hus.
  destruct (year a ?= year b); try reflexivity.
  destruct (month a ?= month b); try reflexivity.
  destruct (day a ?= day b); try reflexivity.
  destruct (Z.eqb_spec (time_of_day b) 0) as [E | E]; cbn [negb].
  - apply Hb in E. destruct E as (-> & -> & -> & ->). reflexivity.
  - repeat match goal with
           | |- context [0 ?= ?x] => destruct (Z.compare_spec 0 x)
           end; first [reflexivity | exfalso; lia].
Qed.

Lemma timedelta_new_normal d s us :
  0 <= s < 86400 -> 0 <= us < 1000000 ->
  timedelta_new d s us = mk_timedelta d s us.
Proof.
  intros Hs Hus. unfold timedelta_new, US_PER_DAY, US_PER_SECOND.
  f_equal; Z.div_mod_to_equations; lia.
Qed.

(** Adding whole days keeps the time of day and moves the ordinal. *)
Lemma add_days dt k :
  valid dt = true -> 0 <= k -> toordinal dt + k <= MAXORDINAL ->
  exists dt',
    add dt (timedelta_new k 0 0) = Ok dt' /\ valid dt' = true /\
    toordinal dt' = toordinal dt + k /\
    hour dt' = hour dt /\ minute dt' = minute dt /\ second dt' = second dt /\
    microsecond dt' = microsecond dt.
Proof.
  intros V Hk Hmax.
  pose proof (toordinal_bounds dt V) as Hord.
  apply valid_iff in V. destruct V as (Vd & Hh & Hmi & Hs & Hus).
  unfold add.
  rewrite (timedelta_new_normal k 0 0) by lia. cbn [days seconds microseconds].
  rewrite timedelta_new_normal by (unfold day_seconds; lia).
  cbn [days seconds microseconds].
  replace ((0 <? toordinal dt + k) && (toordinal dt + k <=? MAXORDINAL))
    with true by (symmetry; apply andb_true_iff; split;
                  [apply Z.ltb_lt | apply Z.leb_le]; lia).
  pose proof (ymd2ord_ord2ymd (toordinal dt + k)) as Hrt.
  destruct (ord2ymd (toordinal dt + k)) as [[y m] d].
  destruct Hrt as [Hv Ho]; [lia|].
  assert (Eh : (day_seconds dt + 0) / 3600 = hour dt)
    by (unfold day_seconds; Z.div_mod_to_equations; lia).
  assert (Em : ((day_seconds dt + 0) mod 3600) / 60 = minute dt)
    by (unfold day_seconds; Z.div_mod_to_equations; lia).
  assert (Es : ((day_seconds dt + 0) mod 3600) mod 60 = second dt)
    by (unfold day_seconds; Z.div_mod_to_equations; lia).
  rewrite Eh, Em, Es, Z.add_0_r.
  eexists. split; [reflexivity|]. cbn.
  repeat split; try reflexivity; try exact Ho.
  apply valid_iff. cbn. repeat split; try lia. exact Hv.
Qed.

Lemma weekday_range dt : 0 <= weekday dt < 7.
Proof. unfold weekday. apply Z.mod_pos_bound. lia. Qed.

End DatetimeFacts.

(** The weekend shift never leaves the calendar: it keeps a weekday, and
    moves a Saturday or a Sunday to the Monday after it. *)
Lemma shift_weekend_spec c :
  Datetime.valid c = true ->
  exists c',
    shift_weekend c = Ok c' /\ Datetime.valid c' = true /\
    Datetime.toordinal c' =
      Datetime.toordinal c + (if is_weekend c then 7 - Datetime.weekday c else 0) /\
    (is_weekend c = true -> Datetime.weekday c' = 0) /\
    (is_weekend c = false -> c' = c) /\
    hour c' = hour c /\ minute c' = minute c /\ second c' = second c /\
    microsecond c' = microsecond c.
Proof.
  intros V. unfold shift_weekend, is_weekend.
  pose proof (weekday_range c) as Hw.
  pose proof (toordinal_bounds c V) as Hord.
  destruct ((Datetime.weekday c =? 5) || (Datetime.weekday c =? 6)) eqn:E.
  - assert (Hw56 : Datetime.weekday c = 5 \/ Datetime.weekday c = 6).
    { apply orb_true_iff in E. rewrite !Z.eqb_eq in E. exact E. }
    assert (Hmax : Datetime.toordinal c + (7 - Datetime.weekday c) <= MAXORDINAL).
    { unfold Datetime.weekday, MAXORDINAL in *. Z.div_mod_to_equations. lia. }
    destruct (add_days c (7 - Datetime.weekday c) V) as (c' & Hadd & V' & Ho & Ht);
      [lia | exact Hmax |].
    exists c'. repeat split; try tauto.
    + intros _. unfold Datetime.weekday in *. rewrite Ho.
      Z.div_mod_to_equations. lia.
    + discriminate.
  - exists c. repeat split; auto; lia.
Qed.

Lemma replace_year_ok dt y c :
  Datetime.replace_year dt y = Ok c ->
  c = mk_datetime y (month dt) (day dt) (hour dt) (minute dt) (second dt)
                  (microsecond dt)
  /\ valid_date y (month dt) (day dt) = true.
Proof.
  unfold Datetime.replace_year, Datetime.datetime_new, valid_date.
  destruct ((MINYEAR <=? y) && (y <=? MAXYEAR)) eqn:Ey; cbn [negb]; [|discriminate].
  destruct ((1 <=? month dt) && (month dt <=? 12)) eqn:Em; cbn [negb]; [|discriminate].
  destruct ((1 <=? day dt) && (day dt <=? days_in_month y (month dt))) eqn:Ed;
    cbn [negb]; [|discriminate].
  intros H. inversion H. split; [reflexivity|].
  cbn [andb]. apply andb_true_iff in Em, Ed.
  destruct Em as [-> ->], Ed as [-> ->]. reflexivity.
Qed.

Lemma replace_year_valid dt y c :
  Datetime.valid_time dt = true -> Datetime.replace_year dt y = Ok c ->
  Datetime.valid c = true /\ Datetime.time_of_day c = Datetime.time_of_day dt.
Proof.
  intros Vt H. apply replace_year_ok in H. destruct H as [-> Vd].
  unfold Datetime.valid, Datetime.valid_time, Datetime.time_of_day in *. cbn.
  rewrite Vd, Vt. split; reflexivity.
Qed.

(** ** [strptime] and [strftime] *)

Lemma append_assoc (a b c : string) : ((a ++ b) ++ c = a ++ (b ++ c))%string.
Proof. induction a as [|x a IH]; cbn; [reflexivity | rewrite IH; reflexivity]. Qed.


Lemma code_digit_char k : 0 <= k <= 9 -> Str.code (Str.digit_char k) = 48 + k.
Proof.
  intros Hk. unfold Str.code, Str.digit_char.
  rewrite N_ascii_embedding; lia.
Qed.

Lemma is_decimal_digit_char k :
  0 <= k <= 9 -> Str.is_decimal (Str.digit_char k) = true.
Proof.
  intros Hk. unfold Str.is_decimal. rewrite code_digit_char by exact Hk.
  apply andb_true_iff. rewrite !Z.leb_le. lia.
Qed.

Lemma digit_cases k :
  0 <= k <= 9 ->
  k = 0 \/ k = 1 \/ k = 2 \/ k = 3 \/ k = 4 \/ k = 5 \/ k = 6 \/ k = 7 \/ k = 8
  \/ k = 9.
Proof. lia. Qed.

Lemma mod10_digit n : 0 <= n mod 10 <= 9.
Proof. pose proof (Z.mod_pos_bound n 10). lia. Qed.

Section Strptime.
Import Datetime.

(** The four digits of a year. *)
Lemma zfill4 y :
  Str.zfill 4 y =
  String (Str.digit_char (y / 10 / 10 / 10 mod 10))
    (String (Str.digit_char (y / 10 / 10 mod 10))
       (String (Str.digit_char (y / 10 mod 10))
          (String (Str.digit_char (y mod 10)) EmptyString))).
Proof. reflexivity. Qed.

Lemma re_match_Y y :
  re_match re_Y (Str.zfill 4 y) = [(Str.zfill 4 y, EmptyString)].
Proof.
  rewrite zfill4. unfold re_Y, dig.
  repeat (cbn [re_match flat_map map List.app String.append];
          rewrite is_decimal_digit_char by apply mod10_digit).
  reflexivity.
Qed.

Lemma lstrip_digit k s :
  0 <= k <= 9 ->
  Str.lstrip (String (Str.digit_char k) s) = String (Str.digit_char k) s.
Proof.
  intros Hk. destruct (digit_cases k Hk) as
    [-> | [-> | [-> | [-> | [-> | [-> | [-> | [-> | [-> | ->]]]]]]]]];
    reflexivity.
Qed.

Lemma int_zfill4 y : 0 <= y <= 9999 -> Str.int (Str.zfill 4 y) = y.
Proof.
  intros Hy. rewrite zfill4. unfold Str.int.
  rewrite lstrip_digit by apply mod10_digit.
  cbn [Str.digits_value].
  rewrite !code_digit_char by apply mod10_digit.
  Z.div_mod_to_equations. lia.
Qed.

Lemma after_m_year d m y :
  after_m d m (String "." (Str.zfill 4 y)) = [(d, m, Str.zfill 4 y, EmptyString)].
Proof.
  unfold after_m. cbn [re_match chr]. cbn [Ascii.eqb Bool.eqb].
  cbn [flat_map]. rewrite re_match_Y. reflexivity.
Qed.

Ltac month_cases m H :=
  let Hc := fresh "Hc" in
  assert (Hc : m = 1 \/ m = 2 \/ m = 3 \/ m = 4 \/ m = 5 \/ m = 6 \/ m = 7
               \/ m = 8 \/ m = 9 \/ m = 10 \/ m = 11 \/ m = 12) by lia;
  clear H;
  repeat (destruct Hc as [-> | Hc]); [.. | subst m].

Lemma after_d_month d m rest :
  1 <= m <= 12 ->
  after_d d (String "." (Str.zfill 2 m ++ rest)) = after_m d (Str.zfill 2 m) rest.
Proof.
  intros Hm. month_cases m Hm; cbn; rewrite ?app_nil_r; reflexivity.
Qed.

Lemma int_zfill2_month m : 1 <= m <= 12 -> Str.int (Str.zfill 2 m) = m.
Proof. intros Hm. month_cases m Hm; reflexivity. Qed.

Lemma day_cases d :
  1 <= d <= 31 ->
  d = 1 \/ d = 2 \/ d = 3 \/ d = 4 \/ d = 5 \/ d = 6 \/ d = 7 \/ d = 8 \/ d = 9
  \/ d = 10 \/ d = 11 \/ d = 12 \/ d = 13 \/ d = 14 \/ d = 15 \/ d = 16
  \/ d = 17 \/ d = 18 \/ d = 19 \/ d = 20 \/ d = 21 \/ d = 22 \/ d = 23
  \/ d = 24 \/ d = 25 \/ d = 26 \/ d = 27 \/ d = 28 \/ d = 29 \/ d = 30
  \/ d = 31.
Proof. lia. Qed.

Lemma format_matches_day d rest :
  1 <= d <= 31 ->
  format_matches (Str.zfill 2 d ++ rest) = after_d (Str.zfill 2 d) rest.
Proof.
  intros Hd. pose proof (day_cases d Hd) as Hc. clear Hd.
  repeat (destruct Hc as [-> | Hc]); [.. | subst d];
    cbn; rewrite ?app_nil_r; reflexivity.
Qed.

Lemma int_zfill2_day d : 1 <= d <= 31 -> Str.int (Str.zfill 2 d) = d.
Proof.
  intros Hd. pose proof (day_cases d Hd) as Hc. clear Hd.
  repeat (destruct Hc as [-> | Hc]); [.. | subst d]; reflexivity.
Qed.

Lemma days_in_month_le_31 y m : days_in_month y m <= 31.
Proof.
  unfold days_in_month.
  destruct ((m =? 2) && is_leap y); [lia|].
  destruct m as [|p|p]; cbn; try lia.
  do 4 (destruct p as [p|p|]; cbn; try lia).
Qed.

(** [strptime] reads the DD.MM.YYYY text of a date of the calendar. *)
Lemma strptime_DDMMYYYY y m d :
  valid_date y m d = true ->
  strptime_dmY (DDMMYYYY d m y) = Ok (mk_datetime y m d 0 0 0 0).
Proof.
  intros V. pose proof V as V'. unfold valid_date, MINYEAR, MAXYEAR in V'.
  rewrite !andb_true_iff, !Z.leb_le in V'.
  destruct V' as [[[[[Hy1 Hy2] Hm1] Hm2] Hd1] Hd2].
  pose proof (days_in_month_le_31 y m) as H31.
  unfold strptime_dmY, DDMMYYYY.
  rewrite format_matches_day by lia.
  change ("." ++ Str.zfill 2 m ++ "." ++ Str.zfill 4 y)%string
    with (String "." (Str.zfill 2 m ++ String "." (Str.zfill 4 y))).
  rewrite after_d_month by lia.
  rewrite after_m_year. cbn [Str.len String.length Z.of_nat Z.eqb negb].
  rewrite int_zfill4, int_zfill2_month, int_zfill2_day by lia.
  unfold datetime_new. fold (valid_date y m d).
  unfold valid_date in V.
  rewrite !andb_true_iff in V. destruct V as [[[[[-> ->] ->] ->] ->] ->].
  reflexivity.
Qed.

Lemma decimal_fuel_digit f n :
  0 <= n < 10 -> Str.decimal_fuel (S f) n = String (Str.digit_char n) EmptyString.
Proof.
  intros Hn. cbn [Str.decimal_fuel].
  destruct (Z.ltb_spec n 10); [reflexivity | lia].
Qed.

Lemma decimal_fuel_more f n :
  10 <= n ->
  Str.decimal_fuel (S f) n
  = (Str.decimal_fuel f (n / 10)
     ++ String (Str.digit_char (n mod 10)) EmptyString)%string.
Proof.
  intros Hn. cbn [Str.decimal_fuel].
  destruct (Z.ltb_spec n 10); [lia | reflexivity].
Qed.

Lemma decimal_fuel_enough n k :
  0 < n -> Z.log2 k <= Z.log2 n ->
  exists f, S (Z.to_nat (Z.log2 n)) = (S (Z.to_nat (Z.log2 k)) + f)%nat.
Proof.
  intros Hn Hk. pose proof (Z.log2_nonneg k).
  exists (Z.to_nat (Z.log2 n) - Z.to_nat (Z.log2 k))%nat. lia.
Qed.

(** The year as [strftime] writes it: four digits from the year 1000 on,
    and three, two or one before. *)
Lemma decimal_year y :
  1 <= y <= 9999 ->
  Str.decimal y
  = if 1000 <=? y then Str.zfill 4 y
    else if 100 <=? y then Str.zfill 3 y
         else if 10 <=? y then Str.zfill 2 y else Str.zfill 1 y.
Proof.
  intros Hy. unfold Str.decimal.
  destruct (Z.leb_spec 1000 y) as [H4 | H4].
  - destruct (decimal_fuel_enough y 1000) as [f ->];
      [lia | apply Z.log2_le_mono; lia |].
    change (S (Z.to_nat (Z.log2 1000)) + f)%nat with (S (S (S (S (6 + f))))).
    rewrite !decimal_fuel_more
      by (pose proof (Z.div_le_lower_bound y 10 100);
          pose proof (Z.div_le_lower_bound (y / 10) 10 10); lia).
    rewrite decimal_fuel_digit
      by (split; [apply Z.div_pos; [apply Z.div_pos; [apply Z.div_pos|]|]; lia
                 | repeat (apply Z.div_lt_upper_bound; [lia|]); lia]).
    rewrite zfill4. cbn [String.append].
    rewrite (Z.mod_small (y / 10 / 10 / 10) 10)
      by (split; [apply Z.div_pos; [apply Z.div_pos; [apply Z.div_pos|]|]; lia
                 | repeat (apply Z.div_lt_upper_bound; [lia|]); lia]).
    reflexivity.
  - destruct (Z.leb_spec 100 y) as [H3 | H3].
    + destruct (decimal_fuel_enough y 100) as [f ->];
        [lia | apply Z.log2_le_mono; lia |].
      change (S (Z.to_nat (Z.log2 100)) + f)%nat with (S (S (S (4 + f)))).
      rewrite !decimal_fuel_more
        by (pose proof (Z.div_le_lower_bound y 10 10); lia).
      rewrite decimal_fuel_digit
        by (split; [apply Z.div_pos; [apply Z.div_pos|]; lia
                   | repeat (apply Z.div_lt_upper_bound; [lia|]); lia]).
      cbn [Str.zfill String.append].
      rewrite (Z.mod_small (y / 10 / 10) 10)
        by (split; [apply Z.div_pos; [apply Z.div_pos|]; lia
                   | repeat (apply Z.div_lt_upper_bound; [lia|]); lia]).
      reflexivity.
    + destruct (Z.leb_spec 10 y) as [H2 | H2].
      * destruct (decimal_fuel_enough y 10) as [f ->];
          [lia | apply Z.log2_le_mono; lia |].
        change (S (Z.to_nat (Z.log2 10)) + f)%nat with (S (S (2 + f))).
        rewrite decimal_fuel_more by lia.
        rewrite decimal_fuel_digit
          by (split; [apply Z.div_pos; lia | apply Z.div_lt_upper_bound; lia]).
        cbn [Str.zfill String.append].
        rewrite (Z.mod_small (y / 10) 10)
          by (split; [apply Z.div_pos; lia | apply Z.div_lt_upper_bound; lia]).
        reflexivity.
      * rewrite decimal_fuel_digit by lia.
        cbn [Str.zfill String.append].
        rewrite (Z.mod_small y 10) by lia. reflexivity.
Qed.

(** From the year 1000 on, [strftime] writes the DD.MM.YYYY text. *)
Lemma strftime_DDMMYYYY y m d h mi s us :
  1000 <= y <= 9999 ->
  strftime_dmY (mk_datetime y m d h mi s us) = DDMMYYYY d m y.
Proof.
  intros Hy. unfold strftime_dmY, DDMMYYYY. cbn [year month day].
  rewrite decimal_year by lia.
  destruct (Z.leb_spec 1000 y); [reflexivity | lia].
Qed.
End Strptime.

(** ** Record *)

(** *** Phones of a record *)


Lemma remove_first_split raw l1 p l2 :
  (forall q, In q l1 -> value q <> raw) -> value p = raw ->
  remove_first raw (l1 ++ p :: l2) = Some (l1 ++ l2).
Proof.
  intros H Hp. induction l1 as [|x l1 IH]; cbn.
  - rewrite Hp, String.eqb_refl. reflexivity.
  - destruct (String.eqb_spec (value x) raw) as [E | _].
    + exfalso. apply (H x); [left; reflexivity | exact E].
    + rewrite IH; [reflexivity|]. intros q Hq. apply H. right. exact Hq.
Qed.

Lemma find_phone_in_none raw l :
  (forall q, In q l -> value q <> raw) -> find_phone_in raw l = None.
Proof.
  induction l as [|p l IH]; intros H; cbn; [reflexivity|].
  destruct (String.eqb_spec (value p) raw) as [E | _].
  - exfalso. apply (H p); [left; reflexivity | exact E].
  - apply IH. intros q Hq. apply H. right. exact Hq.
Qed.

Lemma find_phone_in_some raw l p :
  In p l -> value p = raw -> exists q, find_phone_in raw l = Some q.
Proof.
  intros Hin Hp. induction l as [|x l IH]; [destruct Hin|]. cbn.
  destruct (String.eqb_spec (value x) raw) as [_ | N]; [eexists; reflexivity|].
  destruct Hin as [-> | Hin]; [contradiction | exact (IH Hin)].
Qed.

Lemma Phone_invalid number :
  Str.isdigit number = false \/ Str.len number <> 10 ->
  Phone number = Raise (ValueError PHONE_ERROR).
Proof.
  intros H. unfold Phone.
  destruct (Str.isdigit number); cbn [negb orb]; [|reflexivity].
  destruct H as [H | H]; [discriminate|].
  apply Z.eqb_neq in H. rewrite H. reflexivity.
Qed.

Lemma Phone_valid number :
  Str.isdigit number = true -> Str.len number = 10 ->
  Phone number = Ok (mk_Field number).
Proof.
  intros H1 H2. unfold Phone. rewrite H1, H2. reflexivity.
Qed.

Lemma Phone_raises number e :
  Phone number = Raise e -> e = ValueError PHONE_ERROR.
Proof.
  unfold Phone.
  destruct (negb (Str.isdigit number) || negb (Str.len number =? 10));
    intros H; inversion H; reflexivity.
Qed.

Lemma add_phone_raises number self e self' :
  add_phone number self = (Raise e, self') ->
  self' = self /\ e = ValueError PHONE_ERROR.
Proof.
  unfold add_phone, bind, lift, modify.
  destruct (Phone number) as [p | e'] eqn:E; intros H; inversion H; subst.
  split; [reflexivity | exact (Phone_raises _ _ E)].
Qed.

(** C3. [edit_phone] raises the not-found [ValueError] when no phone of the
    record has the old number, and whenever it raises, for the old number
    missing or the new one refused by [Phone], the record is as it was. *)
Theorem edit_phone_failure (old_number new_number : string) (self : record) :
  ((forall p, In p (phones self) -> value p <> old_number) ->
   edit_phone old_number new_number self
   = (Raise (ValueError ("Old number " ++ old_number ++ " not found")), self))
  /\ ((exists p, In p (phones self) /\ value p = old_number) ->
      (Str.isdigit new_number = false \/ Str.len new_number <> 10) ->
      edit_phone old_number new_number self
      = (Raise (ValueError PHONE_ERROR), self))
  /\ (forall e self',
        edit_phone old_number new_number self = (Raise e, self') ->
        self' = self /\ phones self' = phones self).
Proof.
  split; [|split].
  - intros H. unfold edit_phone, find_phone.
    rewrite (find_phone_in_none _ _ H). reflexivity.
  - intros (p & Hin & Hp) Hbad. unfold edit_phone, find_phone.
    destruct (find_phone_in_some _ _ _ Hin Hp) as [q ->].
    unfold bind, add_phone, lift. rewrite (Phone_invalid _ Hbad). reflexivity.
  - intros e self'. unfold edit_phone, find_phone.
    destruct (find_phone_in old_number (phones self)).
    + unfold bind at 1.
      destruct (add_phone new_number self) as [[[] | e1] s1] eqn:Ea.
      * unfold bind, remove_phone, ret.
        destruct (remove_first old_number (phones s1)); discriminate.
      * intros H. inversion H; subst.
        apply add_phone_raises in Ea. destruct Ea as [-> _]. auto.
    + unfold raise. intros H. inversion H. auto.
Qed.

Lemma edit_phone_failure_witness :
  edit_phone "9999999999" "4445556666" one_phone
  = (Raise (ValueError "Old number 9999999999 not found"), one_phone)
  /\ edit_phone "1112223333" "bad" one_phone
     = (Raise (ValueError PHONE_ERROR), one_phone).
Proof.
  split.
  - apply (proj1 (edit_phone_failure "9999999999" "4445556666" one_phone)).
    intros p [<- | []]. discriminate.
  - apply (proj1 (proj2 (edit_phone_failure "1112223333" "bad" one_phone))).
    + exists (mk_Field "1112223333"). split; [left|]; reflexivity.
    + left. reflexivity.
Defined.





(** ** AddressBook *)

(** *** The dict of the address book *)

Lemma dict_get_none {V} k (d : list (string * V)) :
  dict_get k d = None <-> ~ In k (map fst d).
Proof.
  induction d as [|[k' v] d IH]; cbn.
  - tauto.
  - destruct (String.eqb_spec k' k) as [E | N].
    + split; [discriminate | intros H; exfalso; apply H; left; exact E].
    + rewrite IH. tauto.
Qed.

Lemma dict_contains_in {V} k (d : list (string * V)) :
  dict_contains k d = true <-> In k (map fst d).
Proof.
  unfold dict_contains. pose proof (dict_get_none k d) as H.
  destruct (dict_get k d).
  - split; [intros _ | reflexivity].
    destruct (in_dec string_dec k (map fst d)) as [Hin | Hn]; [exact Hin|].
    apply H in Hn. discriminate.
  - split; [discriminate | intros Hin]. exfalso. apply (proj1 H); auto.
Qed.

Lemma dict_get_del_same {V} k (d : list (string * V)) :
  dict_get k (dict_del k d) = None.
Proof.
  unfold dict_del. induction d as [|[k' v] d IH]; cbn; [reflexivity|].
  destruct (String.eqb_spec k' k) as [E | N]; cbn; [exact IH|].
  destruct (String.eqb_spec k' k); [contradiction | exact IH].
Qed.

Lemma dict_get_del_other {V} k k' (d : list (string * V)) :
  k' <> k -> dict_get k' (dict_del k d) = dict_get k' d.
Proof.
  intros N. unfold dict_del. induction d as [|[k0 v] d IH]; cbn; [reflexivity|].
  destruct (String.eqb_spec k0 k) as [E | N0]; cbn.
  - destruct (String.eqb_spec k0 k'); [congruence | exact IH].
  - destruct (String.eqb_spec k0 k'); [reflexivity | exact IH].
Qed.

Lemma dict_set_keys_in {V} k (v : V) d x :
  In x (map fst (dict_set k v d)) -> x = k \/ In x (map fst d).
Proof.
  induction d as [|[k0 v0] d IH]; cbn.
  - intros [<- | []]. left; reflexivity.
  - destruct (String.eqb_spec k0 k); cbn.
    + intros Hx. right. exact Hx.
    + intros [<- | Hx]; [right; left; reflexivity|].
      destruct (IH Hx); auto.
Qed.

(** The keys of a dict stay distinct. *)
Lemma dict_set_keys {V} k (v : V) d :
  NoDup (map fst d) -> NoDup (map fst (dict_set k v d)).
Proof.
  induction d as [|[k0 v0] d IH]; cbn; intros H.
  - constructor; [intros [] | constructor].
  - inversion H as [|? ? Hnin Hnd]; subst.
    destruct (String.eqb_spec k0 k) as [E | N]; cbn.
    + constructor; assumption.
    + constructor; [|exact (IH Hnd)].
      intros Hin. destruct (dict_set_keys_in _ _ _ _ Hin); [congruence | contradiction].
Qed.

Lemma dict_del_keys {V} k (d : list (string * V)) :
  NoDup (map fst d) -> NoDup (map fst (dict_del k d)).
Proof.
  unfold dict_del. induction d as [|[k0 v0] d IH]; cbn; intros H; [constructor|].
  inversion H as [|? ? Hnin Hnd]; subst.
  destruct (String.eqb k0 k); cbn; [exact (IH Hnd)|].
  constructor; [|exact (IH Hnd)].
  intros Hin. apply Hnin. apply in_map_iff in Hin. destruct Hin as ([k1 v1] & E & Hin).
  apply filter_In in Hin. apply in_map_iff. exists (k1, v1). tauto.
Qed.

(** C8. [delete] raises the not-found [ValueError] for a name that is not a
    key and leaves the book as it was; for a key it removes the entry, so
    that [find] of the name is [None] afterwards, the other entries staying. *)
Theorem delete_spec (n : string) (self : AddressBook) :
  (~ In n (map fst self) ->
   delete n self
   = (Raise (ValueError ("Record with name " ++ n ++ " not found.")), self))
  /\ (In n (map fst self) ->
      exists self',
        delete n self = (Ok tt, self') /\ find n self' = None /\
        ~ In n (map fst self') /\
        forall n', n' <> n -> find n' self' = find n' self).
Proof.
  unfold delete, find, modify, raise. split.
  - intros H. destruct (dict_contains n self) eqn:E; [|reflexivity].
    apply dict_contains_in in E. contradiction.
  - intros H. apply dict_contains_in in H. rewrite H.
    exists (dict_del n self). split; [reflexivity|].
    split; [apply dict_get_del_same|].
    split; [apply dict_get_none, dict_get_del_same|].
    intros n' Hn. apply dict_get_del_other. exact Hn.
Qed.

Lemma delete_spec_witness :
  delete "Bob" ann_book
  = (Raise (ValueError "Record with name Bob not found."), ann_book)
  /\ exists self',
       delete "Ann" ann_book = (Ok tt, self') /\ find "Ann" self' = None /\
       ~ In "Ann" (map fst self') /\
       forall n', n' <> "Ann" -> find n' self' = find n' ann_book.
Proof.
  split.
  - apply (proj1 (delete_spec "Bob" ann_book)).
    intros [H | []]. discriminate.
  - apply (proj2 (delete_spec "Ann" ann_book)). left. reflexivity.
Defined.

(** C10. [add_contact] with a name that is not in the book and a phone that
    [Phone] refuses raises the phone's [ValueError] before [add_record] is
    reached: the book is as it was, and the decorated handler returns the
    error text. *)
Theorem add_contact_invalid_phone (n phone : string) (book : AddressBook) :
  ~ In n (map fst book) ->
  Str.isdigit phone = false \/ Str.len phone <> 10 ->
  add_contact_body [n; phone] book = (Raise (ValueError PHONE_ERROR), book)
  /\ add_contact [n; phone] book = ("ValueError: " ++ PHONE_ERROR, book)%string
  /\ find n (snd (add_contact [n; phone] book)) = None.
Proof.
  intros Hn Hbad.
  assert (Hc : dict_contains n book = false).
  { destruct (dict_contains n book) eqn:E; [|reflexivity].
    apply dict_contains_in in E. contradiction. }
  assert (Hb : add_contact_body [n; phone] book
               = (Raise (ValueError PHONE_ERROR), book)).
  { unfold add_contact_body, unpack2, bind, ret, gets. rewrite Hc.
    unfold add_phone, bind, lift. rewrite (Phone_invalid _ Hbad). reflexivity. }
  split; [exact Hb|].
  unfold add_contact, input_error. rewrite Hb. cbn [snd].
  split; [reflexivity|]. apply dict_get_none. exact Hn.
Qed.

Lemma add_contact_invalid_phone_witness :
  add_contact_body ["Bob"; "12345"] ann_book
  = (Raise (ValueError PHONE_ERROR), ann_book)
  /\ add_contact ["Bob"; "12345"] ann_book
     = ("ValueError: The phone number must be a string of 10 digits", ann_book)
  /\ find "Bob" (snd (add_contact ["Bob"; "12345"] ann_book)) = None.
Proof.
  apply (add_contact_invalid_phone "Bob" "12345" ann_book).
  - intros [H | []]. discriminate.
  - right. discriminate.
Defined.

(** ** Fields *)

Lemma all_chars_weaken (p q : ascii -> bool) s :
  (forall c, p c = true -> q c = true) ->
  Str.all_chars p s = true -> Str.all_chars q s = true.
Proof.
  intros Hpq. induction s as [|c s IH]; cbn; [reflexivity|].
  rewrite !andb_true_iff. intros [Hc Hs]. auto.
Qed.

Lemma ten_ascii_digits_isdigit raw :
  ten_ascii_digits raw = true ->
  Str.len raw = 10 /\ Str.all_chars Str.isdigit_char raw = true.
Proof.
  unfold ten_ascii_digits. rewrite andb_true_iff, Z.eqb_eq. intros [Hl Hd].
  split; [exact Hl|].
  apply (all_chars_weaken Str.is_decimal); [|exact Hd].
  intros c Hc. unfold Str.isdigit_char. rewrite Hc. reflexivity.
Qed.

(** C5, as the claim has it, fails: ten superscript twos are no ASCII digits
    and [Phone] accepts them. *)
Lemma Phone_accepts_superscripts :
  ~ ((exists p, Phone ten_superscripts = Ok p)
     <-> ten_ascii_digits ten_superscripts = true).
Proof.
  intros [H _].
  assert (Hd : ten_ascii_digits ten_superscripts = false) by reflexivity.
  rewrite H in Hd; [discriminate|].
  eexists. reflexivity.
Qed.

(** C5, amended. [Phone] succeeds exactly on the strings of ten characters
    that [str.isdigit] accepts, among them every string of ten ASCII digits;
    the field then holds the string and renders as it; every other string
    raises the phone's [ValueError]. *)
Theorem Phone_spec (raw : string) :
  ((exists p, Phone raw = Ok p)
   <-> (Str.len raw = 10 /\ Str.all_chars Str.isdigit_char raw = true))
  /\ (forall p, Phone raw = Ok p -> value p = raw /\ Field_str p = raw)
  /\ (~ (Str.len raw = 10 /\ Str.all_chars Str.isdigit_char raw = true) ->
      Phone raw = Raise (ValueError PHONE_ERROR))
  /\ (ten_ascii_digits raw = true -> Phone raw = Ok (mk_Field raw)).
Proof.
  assert (Hiff : Str.isdigit raw = true /\ Str.len raw = 10
                 <-> Str.len raw = 10 /\ Str.all_chars Str.isdigit_char raw = true).
  { unfold Str.isdigit. rewrite andb_true_iff, negb_true_iff, Z.eqb_neq.
    intuition lia. }
  assert (Hok : Str.len raw = 10 /\ Str.all_chars Str.isdigit_char raw = true ->
                Phone raw = Ok (mk_Field raw)).
  { intros H. apply Hiff in H. destruct H. apply Phone_valid; assumption. }
  assert (Hbad : ~ (Str.len raw = 10 /\ Str.all_chars Str.isdigit_char raw = true) ->
                 Phone raw = Raise (ValueError PHONE_ERROR)).
  { intros H. apply Phone_invalid.
    destruct (Str.isdigit raw) eqn:Ed; [|left; reflexivity].
    right. intros Hl. apply H, Hiff. split; [reflexivity | exact Hl]. }
  split; [split|split; [|split]].
  - intros [p Hp].
    destruct (Z.eq_dec (Str.len raw) 10) as [Hl | Hl];
      [destruct (Str.all_chars Str.isdigit_char raw) eqn:Ea; [tauto|]|];
      rewrite Hbad in Hp by (intros [? ?]; congruence); discriminate.
  - intros H. eexists. apply Hok, H.
  - intros p Hp. unfold Phone in Hp.
    destruct (negb (Str.isdigit raw) || negb (Str.len raw =? 10));
      inversion Hp; subst. split; reflexivity.
  - exact Hbad.
  - intros H. apply Hok, ten_ascii_digits_isdigit, H.
Qed.

Lemma Phone_spec_witness :
  Phone "1112223333" = Ok (mk_Field "1112223333")
  /\ Phone "12345" = Raise (ValueError PHONE_ERROR)
  /\ exists p, Phone ten_superscripts = Ok p.
Proof.
  split; [|split].
  - apply (proj2 (proj2 (proj2 (Phone_spec "1112223333")))). reflexivity.
  - apply (proj1 (proj2 (proj2 (Phone_spec "12345")))).
    intros [H _]. discriminate.
  - apply (proj1 (Phone_spec ten_superscripts)). split; reflexivity.
Defined.

(** *** Birthday *)

Lemma strptime_raises s e :
  Datetime.strptime_dmY s = Raise e -> exists msg, e = ValueError msg.
Proof.
  unfold Datetime.strptime_dmY, Datetime.datetime_new.
  destruct (Datetime.format_matches s) as [|[[[d m] Y] rest] l].
  - intros H. inversion H. eexists; reflexivity.
  - repeat match goal with
           | |- context [if ?b then _ else _] => destruct b
           end; intros H; inversion H; eexists; reflexivity.
Qed.

Lemma Birthday_raises s e :
  Birthday s = Raise e -> e = ValueError BIRTHDAY_ERROR.
Proof.
  unfold Birthday.
  destruct (Datetime.strptime_dmY s) as [dt | e'] eqn:E; [discriminate|].
  destruct (strptime_raises _ _ E) as [msg ->].
  intros H. inversion H. reflexivity.
Qed.

(** The value of a [Birthday] is a midnight of the calendar. *)
Lemma Birthday_midnight s b :
  Birthday s = Ok b ->
  Datetime.valid (value b) = true /\ Datetime.time_of_day (value b) = 0.
Proof.
  unfold Birthday.
  destruct (Datetime.strptime_dmY s) as [dt | [msg | msg | msg]] eqn:E;
    try discriminate.
  intros H. inversion H; subst. cbn [value]. clear H.
  unfold Datetime.strptime_dmY in E.
  destruct (Datetime.format_matches s) as [|[[[d m] Y] rest] l]; [discriminate|].
  destruct (negb (Str.len rest =? 0)); [discriminate|].
  change (Datetime.replace_year
            (mk_datetime 0 (Str.int m) (Str.int d) 0 0 0 0) (Str.int Y) = Ok dt)
    in E.
  apply replace_year_valid in E; [exact E | reflexivity].
Qed.

(** *** The texts [Birthday] accepts *)



















(** ** Upcoming birthdays *)

(** A record with a birthday gets its candidate from that birthday alone,
    whatever [this_year_birthday] held before. *)
Lemma candidate_fresh today r b v :
  birthday r = Some b -> candidate today r v = candidate today r None.
Proof. intros H. unfold candidate. rewrite H. reflexivity. Qed.

Lemma candidate_valid today r b v c :
  birthday r = Some b -> Datetime.valid_time (value b) = true ->
  candidate today r v = Ok c ->
  Datetime.valid c = true
  /\ Datetime.time_of_day c = Datetime.time_of_day (value b).
Proof.
  intros Hb Vt. unfold candidate. rewrite Hb. unfold rbind.
  destruct (Datetime.replace_year (value b) (year today)) as [c0 | e] eqn:E0;
    [|discriminate].
  destruct (replace_year_valid _ _ _ Vt E0) as [V0 T0].
  destruct (Datetime.lt c0 today).
  - intros H1. 
    assert (Vt0 : Datetime.valid_time c0 = true).
    { unfold Datetime.valid in V0. apply andb_true_iff in V0. tauto. }
    destruct (replace_year_valid _ _ _ Vt0 H1) as [V1 T1].
    split; [exact V1 | congruence].
  - intros H. inversion H; subst. split; assumption.
Qed.

(** What lines 90 to 93 compute for a record with a birthday: the birthday
    in the year of [today], moved to the next year when its date is before
    the date of [today], and also when it is the date of [today] and the
    clock is past midnight. *)
Lemma candidate_midnight today r b v c0 :
  birthday r = Some b ->
  Datetime.valid today = true -> Datetime.valid_time (value b) = true ->
  Datetime.time_of_day (value b) = 0 ->
  Datetime.replace_year (value b) (year today) = Ok c0 ->
  candidate today r v =
  match Z.compare (month c0) (month today), Z.compare (day c0) (day today) with
  | Lt, _ | Eq, Lt => Datetime.replace_year c0 (year today + 1)
  | Eq, Eq =>
      if Datetime.time_of_day today =? 0 then Ok c0
      else Datetime.replace_year c0 (year today + 1)
  | _, _ => Ok c0
  end.
Proof.
  intros Hb Vt Vb Tb E0. unfold candidate. rewrite Hb. unfold rbind. rewrite E0.
  destruct (replace_year_valid _ _ _ Vb E0) as [V0 T0].
  rewrite lt_midnight by (congruence || assumption).
  apply replace_year_ok in E0. destruct E0 as [E0 _].
  assert (Ey : year c0 = year today) by (rewrite E0; reflexivity).
  cbn [Datetime.tuple_cmp]. rewrite Ey, Z.compare_refl.
  destruct (month c0 ?= month today); try reflexivity.
  destruct (day c0 ?= day today); try reflexivity.
  destruct (Datetime.time_of_day today =? 0); reflexivity.
Qed.

(** A record without a birthday takes the candidate the iteration before it
    left, and there is none in the first iteration. *)
Lemma candidate_without_birthday today r v :
  birthday r = None ->
  candidate today r v =
  match v with
  | Some c =>
      if Datetime.lt c today then Datetime.replace_year c (year today + 1)
      else Ok c
  | None => Raise (UnboundLocalError UNBOUND_ERROR)
  end.
Proof.
  intros H. unfold candidate. rewrite H. destruct v; reflexivity.
Qed.

Lemma first_record_without_birthday today k r book :
  birthday r = None ->
  get_upcoming_birthdays today ((k, r) :: book)
  = Raise (UnboundLocalError UNBOUND_ERROR).
Proof.
  intros H. unfold get_upcoming_birthdays. cbn [dict_values map snd loop].
  unfold loop_body. rewrite (candidate_without_birthday _ _ _ H). reflexivity.
Qed.

(** C1 fails on the code. Dee has no birthday. With Dee first in the book
    [get_upcoming_birthdays] raises [UnboundLocalError], which the handler
    prints; with Dee after Ann the list has an entry for Dee, with Ann's
    date. *)
Theorem birthdayless_record_not_skipped :
  birthday dee = None
  /\ get_upcoming_birthdays monday_morning (book_of [dee; ann])
     = Raise (UnboundLocalError UNBOUND_ERROR)
  /\ fst (show_upcoming_birthdays monday_morning (book_of [dee; ann]))
     = UNBOUND_ERROR
  /\ get_upcoming_birthdays monday_morning (book_of [ann; dee])
     = Ok [mk_upcoming "Ann" "12.06.2024"; mk_upcoming "Dee" "12.06.2024"].
Proof. repeat split; vm_compute; reflexivity. Qed.

(** C2 fails on the code. On Monday 10 June 2024 at 09:30 the candidate of a
    birthday on 10 June is before the clock's reading: it moves to 2025, 364
    whole days ahead, and the contact is left out; a birthday on 18 June,
    eight dates ahead, is 7 whole days ahead and is listed. At midnight the
    code does what the claim says. *)
Theorem birthday_today_not_listed :
  candidate monday_morning eve None = Ok (mk_datetime 2025 6 10 0 0 0 0)
  /\ days_until_birthday monday_morning (mk_datetime 2025 6 10 0 0 0 0) = 364
  /\ get_upcoming_birthdays monday_morning (book_of [eve]) = Ok []
  /\ get_upcoming_birthdays monday_morning (book_of [fay])
     = Ok [mk_upcoming "Fay" "18.06.2024"]
  /\ get_upcoming_birthdays monday_midnight (book_of [eve])
     = Ok [mk_upcoming "Eve" "10.06.2024"]
  /\ get_upcoming_birthdays monday_midnight (book_of [fay]) = Ok [].
Proof. repeat split; vm_compute; reflexivity. Qed.

(** C6. For a record with a birthday whose candidate is 0 to 7 whole days
    ahead, the iteration appends one entry: the record's name with the
    [strftime] text of a date of the calendar, the DD.MM.YYYY text of that
    date from the year 1000 on. For a candidate on a Saturday (weekday 5)
    the date is two days after it, for one on a Sunday (weekday 6) one day
    after it, in both cases a Monday at the candidate's time of day; for a
    candidate on a weekday 0 to 4 it is the candidate. Seen from any time
    of Monday 10 June 2024, Bob's Saturday 15 June and Gus's Sunday 16 June
    are listed as 17.06.2024, and Ann's Wednesday 12 June as 12.06.2024. *)
Theorem weekend_candidate_shifted :
  (forall today r b v acc c,
      birthday r = Some b ->
      Datetime.valid_time (value b) = true ->
      candidate today r v = Ok c ->
      0 <= days_until_birthday today c <= 7 ->
      exists c',
        loop_body today (v, acc) r
        = Ok (Some c',
              acc ++ [mk_upcoming (value (name r)) (Datetime.strftime_dmY c')])
        /\ Datetime.valid c' = true
        /\ hour c' = hour c /\ minute c' = minute c /\ second c' = second c
        /\ microsecond c' = microsecond c
        /\ 0 <= Datetime.weekday c <= 6
        /\ (Datetime.weekday c = 5 ->
            Datetime.toordinal c' = Datetime.toordinal c + 2
            /\ Datetime.weekday c' = 0)
        /\ (Datetime.weekday c = 6 ->
            Datetime.toordinal c' = Datetime.toordinal c + 1
            /\ Datetime.weekday c' = 0)
        /\ (0 <= Datetime.weekday c <= 4 -> c' = c)
        /\ (1000 <= year c' ->
            Datetime.strftime_dmY c' = DDMMYYYY (day c') (month c') (year c')))
  /\ (forall h mi s us,
         0 <= h < 24 -> 0 <= mi < 60 -> 0 <= s < 60 -> 0 <= us < 1000000 ->
         let today := mk_datetime 2024 6 10 h mi s us in
         Datetime.weekday today = 0
         /\ Datetime.weekday (mk_datetime 2024 6 15 0 0 0 0) = 5
         /\ get_upcoming_birthdays today (book_of [bob])
            = Ok [mk_upcoming "Bob" "17.06.2024"]
         /\ Datetime.weekday (mk_datetime 2024 6 16 0 0 0 0) = 6
         /\ get_upcoming_birthdays today (book_of [gus])
            = Ok [mk_upcoming "Gus" "17.06.2024"]
         /\ Datetime.weekday (mk_datetime 2024 6 12 0 0 0 0) = 2
         /\ get_upcoming_birthdays today (book_of [ann])
            = Ok [mk_upcoming "Ann" "12.06.2024"]).
Proof.
  split.
  - intros today r b v acc c Hb Vt Hc Hd.
    destruct (candidate_valid _ _ _ _ _ Hb Vt Hc) as [Vc _].
    destruct (shift_weekend_spec c Vc)
      as (c' & Hs & Vc' & Ho & Hmon & Hsame & Hh & Hmi & Hse & Hus).
    pose proof (weekday_range c) as Hw.
    exists c'.
    split; [|split; [exact Vc'|split; [exact Hh|split; [exact Hmi|
      split; [exact Hse|split; [exact Hus|split; [lia|
      split; [|split; [|split]]]]]]]]].
    + unfold loop_body. rewrite Hc. unfold rbind.
      replace ((0 <=? days_until_birthday today c)
               && (days_until_birthday today c <=? 7)) with true
        by (symmetry; apply andb_true_iff; rewrite !Z.leb_le; exact Hd).
      rewrite Hs. reflexivity.
    + intros H5. unfold is_weekend in Ho, Hmon. rewrite H5 in Ho, Hmon.
      split; [exact Ho | exact (Hmon eq_refl)].
    + intros H6. unfold is_weekend in Ho, Hmon. rewrite H6 in Ho, Hmon.
      split; [exact Ho | exact (Hmon eq_refl)].
    + intros H04. apply Hsame. unfold is_weekend.
      apply orb_false_iff. rewrite !Z.eqb_neq. lia.
    + intros Hy. destruct c' as [y' m' d' h' mi' s' us'].
      cbn [year month day] in *.
      apply valid_iff in Vc'. destruct Vc' as [Vd _].
      cbn [year month day] in Vd.
      unfold valid_date, MINYEAR, MAXYEAR in Vd.
      rewrite !andb_true_iff, !Z.leb_le in Vd.
      apply strftime_DDMMYYYY. lia.
  - intros h mi s us Hh Hmi Hsec Hus today.
    assert (Vtoday : Datetime.valid today = true).
    { apply valid_iff. cbn. repeat split; lia. }
    assert (Hday : forall r c,
               candidate today r None = Ok c ->
               Datetime.valid c = true -> Datetime.time_of_day c = 0 ->
               739048 <= Datetime.toordinal c <= 739054 ->
               get_upcoming_birthdays today (book_of [r])
               = (c' <- shift_weekend c ;;
                  Ok [mk_upcoming (value (name r)) (Datetime.strftime_dmY c')])%res).
    { intros r c Hc Vc Tc Hord.
      assert (Hd : 0 <= days_until_birthday today c <= 7).
      { unfold days_until_birthday.
        rewrite days_sub_midnight by assumption.
        change (Datetime.toordinal today) with 739047.
        destruct (Datetime.time_of_day today =? 0); lia. }
      unfold get_upcoming_birthdays.
      change (dict_values (book_of [r])) with [r].
      cbn [loop]. unfold loop_body. rewrite Hc. unfold rbind.
      replace ((0 <=? days_until_birthday today c)
               && (days_until_birthday today c <=? 7)) with true
        by (symmetry; apply andb_true_iff; rewrite !Z.leb_le; exact Hd).
      destruct (shift_weekend c); reflexivity. }
    split; [reflexivity|]. split; [reflexivity|].
    split.
    { rewrite (Hday bob (mk_datetime 2024 6 15 0 0 0 0));
        [reflexivity | reflexivity | reflexivity | reflexivity |].
      change (Datetime.toordinal (mk_datetime 2024 6 15 0 0 0 0)) with 739052.
      lia. }
    split; [reflexivity|].
    split.
    { rewrite (Hday gus (mk_datetime 2024 6 16 0 0 0 0));
        [reflexivity | reflexivity | reflexivity | reflexivity |].
      change (Datetime.toordinal (mk_datetime 2024 6 16 0 0 0 0)) with 739053.
      lia. }
    split; [reflexivity|].
    rewrite (Hday ann (mk_datetime 2024 6 12 0 0 0 0));
      [reflexivity | reflexivity | reflexivity | reflexivity |].
    change (Datetime.toordinal (mk_datetime 2024 6 12 0 0 0 0)) with 739049.
    lia.
Qed.

Lemma weekend_candidate_shifted_witness :
  (exists c',
      loop_body monday_morning (None, []) bob
      = Ok (Some c', [mk_upcoming "Bob" (Datetime.strftime_dmY c')])
      /\ Datetime.valid c' = true
      /\ Datetime.toordinal c'
         = Datetime.toordinal (mk_datetime 2024 6 15 0 0 0 0) + 2
      /\ Datetime.weekday c' = 0)
  /\ get_upcoming_birthdays monday_morning (book_of [gus])
     = Ok [mk_upcoming "Gus" "17.06.2024"].
Proof.
  split.
  - destruct (proj1 weekend_candidate_shifted monday_morning bob
                    (mk_Field (mk_datetime 1985 6 15 0 0 0 0)) None []
                    (mk_datetime 2024 6 15 0 0 0 0)
                    eq_refl eq_refl eq_refl)
      as (c' & Hl & V & _ & _ & _ & _ & _ & H5 & _).
    + vm_compute. split; discriminate.
    + exists c'. destruct (H5 eq_refl) as [Ho Hm].
      repeat split; assumption.
  - apply (proj2 weekend_candidate_shifted 9 30 0 0); lia.
Defined.

(** * Further properties *)

(** ** More on records *)

Lemma record_eta (self : record) :
  mk_record (name self) (phones self) (birthday self) = self.
Proof. destruct self; reflexivity. Qed.

Lemma find_phone_in_first number l p :
  find_phone_in number l = Some p ->
  exists l1 l2,
    l = l1 ++ p :: l2 /\ value p = number
    /\ forall q, In q l1 -> value q <> number.
Proof.
  induction l as [|x l IH]; cbn; [discriminate|].
  destruct (String.eqb_spec (value x) number) as [E | N].
  - intros H. inversion H; subst. exists [], l. repeat split. intros q [].
  - intros H. destruct (IH H) as (l1 & l2 & -> & Hp & Hl1).
    exists (x :: l1), l2. repeat split; [exact Hp|].
    intros q [<- | Hq]; [exact N | exact (Hl1 q Hq)].
Qed.

Lemma find_phone_in_none_inv number l :
  find_phone_in number l = None -> forall q, In q l -> value q <> number.
Proof.
  induction l as [|x l IH]; cbn; [intros _ q []|].
  destruct (String.eqb_spec (value x) number) as [E | N]; [discriminate|].
  intros H q [<- | Hq]; [exact N | exact (IH H q Hq)].
Qed.

(** X1. [find_phone] returns the first phone of the record whose value is
    the number, and [None] exactly when no phone has that value. *)
Theorem find_phone_first (number : string) (self : record) :
  (forall p,
      find_phone number self = Some p ->
      exists l1 l2,
        phones self = l1 ++ p :: l2 /\ value p = number
        /\ forall q, In q l1 -> value q <> number)
  /\ (find_phone number self = None
      <-> forall q, In q (phones self) -> value q <> number).
Proof.
  unfold find_phone. split.
  - intros p. apply find_phone_in_first.
  - split; [apply find_phone_in_none_inv | apply find_phone_in_none].
Qed.

Lemma find_phone_first_witness :
  exists l1 l2,
    phones two_phones = l1 ++ mk_Field "4445556666" :: l2
    /\ value (mk_Field "4445556666") = "4445556666"
    /\ forall q, In q l1 -> value q <> "4445556666".
Proof.
  apply (proj1 (find_phone_first "4445556666" two_phones)). reflexivity.
Defined.

Lemma find_phone_in_app_new number l :
  exists p, find_phone_in number (l ++ [mk_Field number]) = Some p
            /\ value p = number.
Proof.
  induction l as [|x l IH]; cbn.
  - rewrite String.eqb_refl. eexists; split; reflexivity.
  - destruct (String.eqb_spec (value x) number) as [E | N].
    + eexists; split; [reflexivity | exact E].
    + exact IH.
Qed.

(** X2. [add_phone] with a number [Phone] accepts appends one phone of
    that value, after which [find_phone] finds the number; with a number
    [Phone] refuses it raises and the record is as it was. *)
Theorem add_phone_spec (number : string) (self : record) :
  (Str.isdigit number = true -> Str.len number = 10 ->
   add_phone number self
   = (Ok tt, set_phones (phones self ++ [mk_Field number]) self)
   /\ exists p, find_phone number (snd (add_phone number self)) = Some p
                /\ value p = number)
  /\ (Str.isdigit number = false \/ Str.len number <> 10 ->
      add_phone number self = (Raise (ValueError PHONE_ERROR), self)).
Proof.
  split.
  - intros Hd Hl.
    assert (E : add_phone number self
                = (Ok tt, set_phones (phones self ++ [mk_Field number]) self)).
    { unfold add_phone, bind, lift, modify. rewrite (Phone_valid _ Hd Hl).
      reflexivity. }
    split; [exact E|]. rewrite E. cbn [snd]. unfold find_phone.
    cbn [phones set_phones]. apply find_phone_in_app_new.
  - intros H. unfold add_phone, bind, lift. rewrite (Phone_invalid _ H).
    reflexivity.
Qed.

Lemma add_phone_spec_witness :
  (add_phone "4445556666" one_phone
   = (Ok tt, set_phones (phones one_phone ++ [mk_Field "4445556666"]) one_phone)
   /\ exists p, find_phone "4445556666" (snd (add_phone "4445556666" one_phone))
                = Some p /\ value p = "4445556666")
  /\ add_phone "444" one_phone = (Raise (ValueError PHONE_ERROR), one_phone).
Proof.
  split.
  - apply (proj1 (add_phone_spec "4445556666" one_phone)); reflexivity.
  - apply (proj2 (add_phone_spec "444" one_phone)). right. discriminate.
Defined.

(** X3. Adding a number the record does not have and removing it again
    gives the record back. *)
Theorem add_phone_remove_phone (number : string) (self : record) :
  Str.isdigit number = true -> Str.len number = 10 ->
  (forall q, In q (phones self) -> value q <> number) ->
  (add_phone number ;; remove_phone number)%meth self = (Ok true, self).
Proof.
  intros Hd Hl Hnew. unfold add_phone, remove_phone, bind, lift, modify.
  rewrite (Phone_valid _ Hd Hl). cbn [phones set_phones].
  rewrite (remove_first_split number (phones self) (mk_Field number) [] Hnew eq_refl).
  rewrite app_nil_r. unfold set_phones. cbn [name birthday].
  rewrite record_eta. reflexivity.
Qed.

Lemma add_phone_remove_phone_witness :
  (add_phone "4445556666" ;; remove_phone "4445556666")%meth one_phone
  = (Ok true, one_phone).
Proof.
  apply (add_phone_remove_phone "4445556666" one_phone).
  - reflexivity.
  - reflexivity.
  - intros q [<- | []]. discriminate.
Defined.

(** What a call of [edit_phone] that returns has done. *)
Lemma edit_phone_returns old_number new_number self b self' :
  edit_phone old_number new_number self = (Ok b, self') ->
  exists l1 p l2,
    phones self = l1 ++ p :: l2 /\ value p = old_number
    /\ (forall q, In q l1 -> value q <> old_number)
    /\ self' = set_phones (l1 ++ l2 ++ [mk_Field new_number]) self
    /\ b = true.
Proof.
  unfold edit_phone, find_phone.
  destruct (find_phone_in old_number (phones self)) as [p|] eqn:Ef;
    [|discriminate].
  destruct (find_phone_in_first _ _ _ Ef) as (l1 & l2 & Hph & Hp & Hl1).
  unfold add_phone, remove_phone, bind, lift, modify, ret, Phone.
  destruct (negb (Str.isdigit new_number) || negb (Str.len new_number =? 10));
    [discriminate|].
  cbn [phones set_phones]. rewrite Hph, <- app_assoc. cbn [List.app].
  rewrite (remove_first_split old_number l1 p (l2 ++ [mk_Field new_number]) Hl1 Hp).
  intros H. inversion H. exists l1, p, l2. repeat split; assumption.
Qed.

Lemma edit_phone_raises_unchanged old_number new_number self e self' :
  edit_phone old_number new_number self = (Raise e, self') -> self' = self.
Proof.
  unfold edit_phone, find_phone.
  destruct (find_phone_in old_number (phones self)).
  - unfold bind at 1.
    destruct (add_phone new_number self) as [[[] | e1] s1] eqn:Ea.
    + unfold bind, remove_phone, ret.
      destruct (remove_first old_number (phones s1)); discriminate.
    + intros H. inversion H; subst.
      apply add_phone_raises in Ea. tauto.
  - unfold raise. intros H. inversion H. reflexivity.
Qed.

(** X4. A call of [edit_phone] that returns keeps the name, the birthday
    and the number of phones, and moves one phone from the old number to the
    new one: for every number, the phones of that value after the call, plus
    one if it is the old number, are those before, plus one if it is the new
    number. A number the record had twice is still there. *)
Theorem edit_phone_counts (old_number new_number : string)
        (self self' : record) (b : bool) :
  edit_phone old_number new_number self = (Ok b, self') ->
  name self' = name self /\ birthday self' = birthday self
  /\ List.length (phones self') = List.length (phones self)
  /\ forall x,
      (count_occ string_dec (map value (phones self')) x
       + (if string_dec old_number x then 1 else 0)
       = count_occ string_dec (map value (phones self)) x
         + (if string_dec new_number x then 1 else 0))%nat.
Proof.
  intros H.
  destruct (edit_phone_returns _ _ _ _ _ H) as (l1 & p & l2 & Hph & Hp & _ & -> & _).
  cbn [name birthday phones set_phones]. rewrite Hph.
  repeat split.
  - repeat (rewrite ?length_app; cbn [List.length]). lia.
  - intros x. repeat (rewrite ?map_app; cbn [map value]).
    repeat (rewrite ?count_occ_app; cbn [count_occ]). rewrite Hp.
    destruct (string_dec old_number x); destruct (string_dec new_number x); lia.
Qed.

Lemma edit_phone_counts_witness :
  name (mk_record (Name "Ann") [mk_Field "4445556666"] None) = name one_phone
  /\ birthday (mk_record (Name "Ann") [mk_Field "4445556666"] None)
     = birthday one_phone
  /\ List.length (phones (mk_record (Name "Ann") [mk_Field "4445556666"] None))
     = List.length (phones one_phone)
  /\ forall x,
      (count_occ string_dec
         (map value (phones (mk_record (Name "Ann") [mk_Field "4445556666"] None))) x
       + (if string_dec "1112223333" x then 1 else 0)
       = count_occ string_dec (map value (phones one_phone)) x
         + (if string_dec "4445556666" x then 1 else 0))%nat.
Proof.
  apply (edit_phone_counts "1112223333" "4445556666" one_phone _ true).
  reflexivity.
Defined.

Lemma join_snoc sep l x :
  l <> [] -> join sep (l ++ [x]) = (join sep l ++ sep ++ x)%string.
Proof.
  induction l as [|y l IH]; intros Hl; [contradiction|].
  destruct l as [|z l].
  - reflexivity.
  - change (join sep ((y :: z :: l) ++ [x]))
      with (y ++ sep ++ join sep ((z :: l) ++ [x]))%string.
    rewrite IH by discriminate.
    change (join sep (y :: z :: l)) with (y ++ sep ++ join sep (z :: l))%string.
    rewrite !append_assoc. reflexivity.
Qed.

(** X5. A second birthday replaces the first, the phones and the name
    staying; a text [Birthday] refuses raises and leaves the birthday the
    record had. *)
Theorem add_birthday_overwrites (b1 b2 : string) (self : record)
        (bd1 : Field datetime) :
  Birthday b1 = Ok bd1 ->
  let self1 := snd (add_birthday b1 self) in
  birthday self1 = Some bd1 /\ phones self1 = phones self
  /\ name self1 = name self
  /\ (forall bd2, Birthday b2 = Ok bd2 ->
                  add_birthday b2 self1 = add_birthday b2 self
                  /\ birthday (snd (add_birthday b2 self1)) = Some bd2)
  /\ (forall e, Birthday b2 = Raise e ->
                add_birthday b2 self1 = (Raise (ValueError BIRTHDAY_ERROR), self1)).
Proof.
  intros H1. unfold add_birthday, bind, lift, modify. rewrite H1. cbn [snd].
  repeat split.
  - rewrite H. reflexivity.
  - rewrite H. reflexivity.
  - intros e H. rewrite H. rewrite (Birthday_raises _ _ H). reflexivity.
Qed.

Lemma add_birthday_overwrites_witness :
  let self1 := snd (add_birthday "12.06.1990" one_phone) in
  birthday self1 = Some (mk_Field (mk_datetime 1990 6 12 0 0 0 0))
  /\ phones self1 = phones one_phone
  /\ name self1 = name one_phone
  /\ (forall bd2, Birthday "13.06.1990" = Ok bd2 ->
                  add_birthday "13.06.1990" self1
                  = add_birthday "13.06.1990" one_phone
                  /\ birthday (snd (add_birthday "13.06.1990" self1)) = Some bd2)
  /\ (forall e, Birthday "13.06.1990" = Raise e ->
                add_birthday "13.06.1990" self1
                = (Raise (ValueError BIRTHDAY_ERROR), self1)).
Proof.
  apply (add_birthday_overwrites "12.06.1990" "13.06.1990" one_phone).
  reflexivity.
Defined.

(** X6. The text of a record names it and lists its phones, with the
    separator between them: a record without phones ends after [phones: ],
    and one more phone adds the separator and the number. *)
Theorem Record_str_add_phone (number : string) (self : record) :
  Str.isdigit number = true -> Str.len number = 10 ->
  Record_str (snd (add_phone number self))
  = match phones self with
    | [] => (Record_str self ++ number)%string
    | _ => (Record_str self ++ "; " ++ number)%string
    end.
Proof.
  intros Hd Hl. unfold add_phone, bind, lift, modify.
  rewrite (Phone_valid _ Hd Hl). cbn [snd]. unfold Record_str.
  cbn [phones set_phones name]. rewrite map_app. cbn [map value].
  destruct (phones self) as [|p l] eqn:E.
  - cbn [map List.app join]. rewrite !append_assoc.
    change (EmptyString ++ number)%string with number. reflexivity.
  - rewrite join_snoc by discriminate. rewrite !append_assoc. reflexivity.
Qed.

Lemma Record_str_add_phone_witness :
  Record_str (snd (add_phone "4445556666" one_phone))
  = "Contact name: Ann, phones: 1112223333; 4445556666"
  /\ Record_str (snd (add_phone "4445556666" (Record_ "Bob")))
     = "Contact name: Bob, phones: 4445556666".
Proof.
  split.
  - apply (Record_str_add_phone "4445556666" one_phone); reflexivity.
  - apply (Record_str_add_phone "4445556666" (Record_ "Bob")); reflexivity.
Defined.

(** ** More on the address book *)

Lemma dict_get_set_same {V} k (v : V) d : dict_get k (dict_set k v d) = Some v.
Proof.
  induction d as [|[k0 v0] d IH]; cbn.
  - rewrite String.eqb_refl. reflexivity.
  - destruct (String.eqb_spec k0 k) as [E | N]; cbn.
    + rewrite E, String.eqb_refl. reflexivity.
    + destruct (String.eqb_spec k0 k); [contradiction | exact IH].
Qed.

Lemma dict_get_set_other {V} k k' (v : V) d :
  k' <> k -> dict_get k' (dict_set k v d) = dict_get k' d.
Proof.
  intros N. induction d as [|[k0 v0] d IH]; cbn.
  - destruct (String.eqb_spec k k'); [congruence | reflexivity].
  - destruct (String.eqb_spec k0 k) as [E | N0]; cbn.
    + destruct (String.eqb_spec k0 k'); [congruence | reflexivity].
    + destruct (String.eqb_spec k0 k'); [reflexivity | exact IH].
Qed.

Lemma dict_set_new {V} k (v : V) d :
  ~ In k (map fst d) -> dict_set k v d = d ++ [(k, v)].
Proof.
  induction d as [|[k0 v0] d IH]; cbn; intros H; [reflexivity|].
  destruct (String.eqb_spec k0 k) as [E | N]; [tauto|].
  rewrite IH by tauto. reflexivity.
Qed.

Lemma dict_set_keys_same {V} k (v : V) d :
  In k (map fst d) -> map fst (dict_set k v d) = map fst d.
Proof.
  induction d as [|[k0 v0] d IH]; cbn; intros H; [contradiction|].
  destruct (String.eqb_spec k0 k) as [E | N]; cbn; [reflexivity|].
  rewrite IH; [reflexivity|]. destruct H; [contradiction | assumption].
Qed.

Lemma dict_set_same {V} k (v : V) d :
  dict_get k d = Some v -> dict_set k v d = d.
Proof.
  induction d as [|[k0 v0] d IH]; cbn; [discriminate|].
  destruct (String.eqb_spec k0 k) as [E | N].
  - intros H. inversion H. reflexivity.
  - intros H. rewrite (IH H). reflexivity.
Qed.

Lemma dict_del_absent {V} k (d : list (string * V)) :
  ~ In k (map fst d) -> dict_del k d = d.
Proof.
  unfold dict_del. induction d as [|[k0 v0] d IH]; cbn; intros H; [reflexivity|].
  destruct (String.eqb_spec k0 k) as [E | N]; [tauto|]. cbn.
  rewrite IH by tauto. reflexivity.
Qed.

Lemma dict_del_app {V} k (d1 d2 : list (string * V)) :
  dict_del k (d1 ++ d2) = dict_del k d1 ++ dict_del k d2.
Proof. unfold dict_del. apply filter_app. Qed.

(** X7. After [add_record] the book holds the record at its name, the other
    names are as before, and the keys stay distinct: a name already there
    keeps its place in the book, a new name goes to the end. *)
Theorem add_record_find (r : record) (book : AddressBook) :
  let book' := snd (add_record r book) in
  find (value (name r)) book' = Some r
  /\ (forall n, n <> value (name r) -> find n book' = find n book)
  /\ (In (value (name r)) (map fst book) -> map fst book' = map fst book)
  /\ (~ In (value (name r)) (map fst book) ->
      book' = book ++ [(value (name r), r)])
  /\ (NoDup (map fst book) -> NoDup (map fst book')).
Proof.
  unfold add_record, modify, find. cbn [snd]. repeat split.
  - apply dict_get_set_same.
  - intros n Hn. apply dict_get_set_other. exact Hn.
  - apply dict_set_keys_same.
  - apply dict_set_new.
  - apply dict_set_keys.
Qed.

Lemma add_record_find_witness :
  map fst (snd (add_record two_phones ann_book)) = map fst ann_book
  /\ snd (add_record (Record_ "Bob") ann_book)
     = ann_book ++ [("Bob", Record_ "Bob")]
  /\ NoDup (map fst (snd (add_record (Record_ "Bob") ann_book))).
Proof.
  split; [|split].
  - apply (proj1 (proj2 (proj2 (add_record_find two_phones ann_book)))).
    left. reflexivity.
  - apply (proj1 (proj2 (proj2 (proj2 (add_record_find (Record_ "Bob") ann_book))))).
    intros [H | []]. discriminate.
  - apply (proj2 (proj2 (proj2 (proj2 (add_record_find (Record_ "Bob") ann_book))))).
    constructor; [intros [] | constructor].
Defined.

(** X8. [delete] takes the entry of the name out of the book and leaves
    the others in their order, the keys staying distinct; adding a record
    of a new name and deleting that name gives the book back. *)
Theorem delete_removes_entry (n : string) (r : record)
        (l1 l2 : list (string * record)) :
  NoDup (map fst (l1 ++ (n, r) :: l2)) ->
  delete n (l1 ++ (n, r) :: l2) = (Ok tt, l1 ++ l2)
  /\ NoDup (map fst (l1 ++ l2))
  /\ (value (name r) = n ->
      (add_record r ;; delete n)%meth (l1 ++ l2) = (Ok tt, l1 ++ l2)).
Proof.
  intros Hnd.
  assert (Hn : ~ In n (map fst (l1 ++ l2))).
  { rewrite map_app in *. cbn [map fst] in Hnd.
    apply NoDup_remove_2 in Hnd. exact Hnd. }
  assert (Hin : dict_contains n (l1 ++ (n, r) :: l2) = true).
  { apply dict_contains_in. rewrite map_app. apply in_or_app. right. left.
    reflexivity. }
  assert (Hdel : dict_del n (l1 ++ (n, r) :: l2) = l1 ++ l2).
  { rewrite map_app in Hn.
    rewrite dict_del_app. change ((n, r) :: l2) with ([(n, r)] ++ l2).
    rewrite dict_del_app. unfold dict_del at 2. cbn [filter fst].
    rewrite String.eqb_refl. cbn [negb List.app].
    rewrite !dict_del_absent; [reflexivity | |];
      intros H; apply Hn, in_or_app; tauto. }
  split; [|split].
  - unfold delete, modify. rewrite Hin, Hdel. reflexivity.
  - rewrite map_app in *. cbn [map fst] in Hnd.
    apply NoDup_remove_1 in Hnd. exact Hnd.
  - intros Hname. unfold bind, add_record, modify, delete. rewrite Hname.
    rewrite (dict_set_new n r (l1 ++ l2) Hn).
    assert (Hin' : dict_contains n ((l1 ++ l2) ++ [(n, r)]) = true).
    { apply dict_contains_in. rewrite map_app. apply in_or_app. right. left.
      reflexivity. }
    rewrite Hin'. unfold modify.
    rewrite dict_del_app, (dict_del_absent n (l1 ++ l2) Hn).
    unfold dict_del. cbn [filter fst]. rewrite String.eqb_refl.
    cbn [negb]. rewrite app_nil_r. reflexivity.
Qed.

Lemma delete_removes_entry_witness :
  delete "Ann" ([] ++ ("Ann", one_phone) :: [("Bob", Record_ "Bob")])
  = (Ok tt, [] ++ [("Bob", Record_ "Bob")])
  /\ NoDup (map fst ([] ++ [("Bob", Record_ "Bob")]))
  /\ (value (name one_phone) = "Ann" ->
      (add_record one_phone ;; delete "Ann")%meth ([] ++ [("Bob", Record_ "Bob")])
      = (Ok tt, [] ++ [("Bob", Record_ "Bob")])).
Proof.
  apply (delete_removes_entry "Ann" one_phone [] [("Bob", Record_ "Bob")]).
  constructor.
  - intros [H | []]. discriminate.
  - constructor; [intros [] | constructor].
Defined.

(** ** More on the upcoming birthdays *)

Lemma valid_valid_time dt :
  Datetime.valid dt = true -> Datetime.valid_time dt = true.
Proof. unfold Datetime.valid. rewrite andb_true_iff. tauto. Qed.

Lemma candidate_midnight_valid today r v c :
  midnight_if_bound v ->
  (forall b, birthday r = Some b ->
             Datetime.valid (value b) = true
             /\ Datetime.time_of_day (value b) = 0) ->
  candidate today r v = Ok c ->
  Datetime.valid c = true /\ Datetime.time_of_day c = 0.
Proof.
  intros Hv Hb. destruct (birthday r) as [b|] eqn:Eb.
  - intros Hc. destruct (Hb b eq_refl) as [Vb Tb].
    destruct (candidate_valid today r b v c Eb (valid_valid_time _ Vb) Hc)
      as [Vc Tc].
    split; [exact Vc | congruence].
  - rewrite (candidate_without_birthday _ _ _ Eb).
    destruct v as [c0|]; [|discriminate].
    destruct (Hv c0 eq_refl) as [V0 T0].
    destruct (Datetime.lt c0 today).
    + intros H. destruct (replace_year_valid _ _ _ (valid_valid_time _ V0) H).
      split; [assumption | congruence].
    + intros H. inversion H; subst. split; assumption.
Qed.

(** What an iteration that does not raise has done. *)
Lemma loop_body_returns today r v acc v' acc' :
  midnight_if_bound v ->
  (forall b, birthday r = Some b ->
             Datetime.valid (value b) = true
             /\ Datetime.time_of_day (value b) = 0) ->
  loop_body today (v, acc) r = Ok (v', acc') ->
  exists c c',
    candidate today r v = Ok c
    /\ Datetime.valid c = true /\ Datetime.time_of_day c = 0
    /\ v' = Some c' /\ Datetime.valid c' = true
    /\ Datetime.time_of_day c' = 0
    /\ ((acc' = acc /\ c' = c
         /\ ~ (0 <= days_until_birthday today c <= 7))
        \/ (acc' = acc ++ [mk_upcoming (value (name r)) (Datetime.strftime_dmY c')]
            /\ 0 <= days_until_birthday today c <= 7
            /\ is_weekend c' = false
            /\ Datetime.toordinal c <= Datetime.toordinal c'
               <= Datetime.toordinal c + 2)).
Proof.
  intros Hv Hb. unfold loop_body, rbind.
  destruct (candidate today r v) as [c|e] eqn:Ec; [|discriminate].
  destruct (candidate_midnight_valid _ _ _ _ Hv Hb Ec) as [Vc Tc].
  destruct ((0 <=? days_until_birthday today c)
            && (days_until_birthday today c <=? 7)) eqn:Ew.
  - apply andb_true_iff in Ew. rewrite !Z.leb_le in Ew.
    destruct (shift_weekend_spec c Vc)
      as (c' & Hs & Vc' & Ho & Hmon & Hsame & Hh & Hmi & Hse & Hus).
    rewrite Hs. intros H. inversion H; subst. exists c, c'.
    assert (Hord : Datetime.toordinal c <= Datetime.toordinal c'
                   <= Datetime.toordinal c + 2).
    { unfold is_weekend in Ho.
      destruct ((Datetime.weekday c =? 5) || (Datetime.weekday c =? 6)) eqn:E;
        [|lia].
      apply orb_true_iff in E. rewrite !Z.eqb_eq in E. lia. }
    assert (Hwe : is_weekend c' = false).
    { destruct (is_weekend c) eqn:E.
      - unfold is_weekend. rewrite (Hmon eq_refl). reflexivity.
      - rewrite (Hsame eq_refl). exact E. }
    repeat split; try assumption.
    + unfold Datetime.time_of_day in *. rewrite Hh, Hmi, Hse, Hus. exact Tc.
    + right. tauto.
  - intros H. inversion H; subst. exists c, c.
    repeat split; try assumption. left. repeat split.
    intros Hw. apply andb_false_iff in Ew. rewrite !Z.leb_gt in Ew. lia.
Qed.

Lemma loop_body_bound today r v acc v' acc' :
  midnight_if_bound v ->
  (forall b, birthday r = Some b ->
             Datetime.valid (value b) = true
             /\ Datetime.time_of_day (value b) = 0) ->
  loop_body today (v, acc) r = Ok (v', acc') -> midnight_if_bound v'.
Proof.
  intros Hv Hb H.
  destruct (loop_body_returns _ _ _ _ _ _ Hv Hb H)
    as (c & c' & _ & _ & _ & -> & V & T & _).
  intros x Hx. inversion Hx; subst. split; assumption.
Qed.

(** The entries the loop adds, each with the record and the date it comes
    from. *)
Lemma loop_entries today rs :
  birthdays_midnight rs ->
  forall v acc v' acc',
    midnight_if_bound v ->
    loop today (v, acc) rs = Ok (v', acc') ->
    exists added,
      acc' = acc ++ added
      /\ subseq (map u_name added) (map (fun r => value (name r)) rs)
      /\ Forall (fun e =>
                   exists r c',
                     In r rs /\ u_name e = value (name r)
                     /\ u_birthday e = Datetime.strftime_dmY c'
                     /\ Datetime.valid c' = true /\ is_weekend c' = false
                     /\ exists c,
                         Datetime.valid c = true
                         /\ Datetime.time_of_day c = 0
                         /\ 0 <= days_until_birthday today c <= 7
                         /\ Datetime.toordinal c <= Datetime.toordinal c'
                            <= Datetime.toordinal c + 2)
                added.
Proof.
  induction rs as [|r rs IH]; intros Hb v acc v' acc' Hv; cbn [loop].
  - intros H. inversion H; subst. exists []. rewrite app_nil_r.
    repeat split; constructor.
  - unfold rbind.
    destruct (loop_body today (v, acc) r) as [[v1 acc1]|e] eqn:E1; [|discriminate].
    assert (Hbr : forall b, birthday r = Some b ->
                            Datetime.valid (value b) = true
                            /\ Datetime.time_of_day (value b) = 0).
    { intros b. apply Hb. left. reflexivity. }
    assert (Hbrs : birthdays_midnight rs).
    { intros x b Hx. apply Hb. right. exact Hx. }
    pose proof (loop_body_bound _ _ _ _ _ _ Hv Hbr E1) as Hv1.
    destruct (loop_body_returns _ _ _ _ _ _ Hv Hbr E1)
      as (c & c' & Hc & Vc & Tc & -> & Vc' & Tc' & Hcase).
    intros H. destruct (IH Hbrs _ _ _ _ Hv1 H) as (added & -> & Hsub & Hall).
    assert (Hall' : Forall (fun e =>
                   exists r0 c'0,
                     In r0 (r :: rs) /\ u_name e = value (name r0)
                     /\ u_birthday e = Datetime.strftime_dmY c'0
                     /\ Datetime.valid c'0 = true /\ is_weekend c'0 = false
                     /\ exists c0,
                         Datetime.valid c0 = true
                         /\ Datetime.time_of_day c0 = 0
                         /\ 0 <= days_until_birthday today c0 <= 7
                         /\ Datetime.toordinal c0 <= Datetime.toordinal c'0
                            <= Datetime.toordinal c0 + 2)
                added).
    { eapply Forall_impl; [|exact Hall].
      intros e (r0 & c0 & Hin & Hrest). exists r0, c0.
      split; [right; exact Hin | exact Hrest]. }
    destruct Hcase as [(-> & _ & _) | (-> & Hw & Hwe & Ho)].
    + exists added. repeat split; [|exact Hall'].
      cbn [map]. apply subseq_skip. exact Hsub.
    + exists (mk_upcoming (value (name r)) (Datetime.strftime_dmY c') :: added).
      rewrite <- app_assoc. repeat split.
      * cbn [map u_name]. apply subseq_take. exact Hsub.
      * constructor; [|exact Hall'].
        exists r, c'. repeat split; try assumption; [left; reflexivity|].
        exists c. repeat split; tauto.
Qed.

Lemma loop_body_appends today r v acc v' acc' :
  loop_body today (v, acc) r = Ok (v', acc') ->
  acc' = acc \/ exists text, acc' = acc ++ [mk_upcoming (value (name r)) text].
Proof.
  unfold loop_body, rbind.
  destruct (candidate today r v) as [c|e]; [|discriminate].
  destruct ((0 <=? days_until_birthday today c)
            && (days_until_birthday today c <=? 7)).
  - destruct (shift_weekend c) as [c'|e]; [|discriminate].
    intros H. inversion H. right. eexists. reflexivity.
  - intros H. inversion H. left. reflexivity.
Qed.

Lemma loop_names today rs :
  forall v acc v' acc',
    loop today (v, acc) rs = Ok (v', acc') ->
    exists added,
      acc' = acc ++ added
      /\ subseq (map u_name added) (map (fun r => value (name r)) rs).
Proof.
  induction rs as [|r rs IH]; intros v acc v' acc'; cbn [loop].
  - intros H. inversion H. exists []. rewrite app_nil_r. split; constructor.
  - unfold rbind.
    destruct (loop_body today (v, acc) r) as [[v1 acc1]|e] eqn:E1; [|discriminate].
    intros H. destruct (IH _ _ _ _ H) as (added & -> & Hsub).
    destruct (loop_body_appends _ _ _ _ _ _ E1) as [-> | [text ->]].
    + exists added. split; [reflexivity|]. cbn [map]. apply subseq_skip, Hsub.
    + exists (mk_upcoming (value (name r)) text :: added).
      rewrite <- app_assoc. split; [reflexivity|].
      cbn [map u_name]. apply subseq_take, Hsub.
Qed.

(** X9. The list [get_upcoming_birthdays] returns names records of the
    book in the order of the book, each record at most once. *)
Theorem upcoming_names_in_order (today : datetime) (book : AddressBook)
        (out : list upcoming) :
  get_upcoming_birthdays today book = Ok out ->
  subseq (map u_name out)
         (map (fun r => value (name r)) (dict_values book)).
Proof.
  unfold get_upcoming_birthdays, rbind.
  destruct (loop today (None, []) (dict_values book)) as [[v acc]|e] eqn:E;
    [|discriminate].
  intros H. inversion H; subst. cbn [snd].
  destruct (loop_names _ _ _ _ _ _ E) as (added & -> & Hsub). exact Hsub.
Qed.

Lemma upcoming_names_in_order_witness :
  subseq (map u_name [mk_upcoming "Ann" "12.06.2024"; mk_upcoming "Bob" "17.06.2024"])
         (map (fun r => value (name r)) (dict_values (book_of [ann; bob; cid]))).
Proof.
  apply (upcoming_names_in_order monday_morning (book_of [ann; bob; cid])).
  reflexivity.
Defined.

(** X10. With the birthdays [Birthday] makes, every date that
    [get_upcoming_birthdays] lists is a date of the calendar from Monday to
    Friday, not before the day of [today] and at most ten days after it. *)
Theorem upcoming_dates_weekdays (today : datetime) (book : AddressBook)
        (out : list upcoming) :
  Datetime.valid today = true ->
  birthdays_midnight (dict_values book) ->
  get_upcoming_birthdays today book = Ok out ->
  Forall (fun e =>
            exists d,
              u_birthday e = Datetime.strftime_dmY d
              /\ Datetime.valid d = true
              /\ 0 <= Datetime.weekday d <= 4
              /\ Datetime.toordinal today <= Datetime.toordinal d
                 <= Datetime.toordinal today + 10)
         out.
Proof.
  intros Vt Hb. unfold get_upcoming_birthdays, rbind.
  destruct (loop today (None, []) (dict_values book)) as [[v acc]|e] eqn:E;
    [|discriminate].
  intros H. inversion H; subst. cbn [snd].
  assert (Hv : midnight_if_bound None) by (intros c Hc; discriminate).
  destruct (loop_entries today _ Hb _ _ _ _ Hv E) as (added & -> & _ & Hall).
  cbn [List.app]. eapply Forall_impl; [|exact Hall].
  intros e (r & d & _ & _ & Htext & Vd & Hwe & c & Vc & Tc & Hw & Ho).
  exists d. split; [exact Htext|]. split; [exact Vd|]. split.
  - pose proof (weekday_range d) as Hr. unfold is_weekend in Hwe.
    apply orb_false_iff in Hwe. rewrite !Z.eqb_neq in Hwe. lia.
  - unfold days_until_birthday in Hw.
    rewrite (days_sub_midnight c today Tc Vc Vt) in Hw.
    destruct (Datetime.time_of_day today =? 0); lia.
Qed.

Lemma upcoming_dates_weekdays_witness :
  Forall (fun e =>
            exists d,
              u_birthday e = Datetime.strftime_dmY d
              /\ Datetime.valid d = true
              /\ 0 <= Datetime.weekday d <= 4
              /\ Datetime.toordinal monday_morning <= Datetime.toordinal d
                 <= Datetime.toordinal monday_morning + 10)
         [mk_upcoming "Ann" "12.06.2024"; mk_upcoming "Bob" "17.06.2024"].
Proof.
  apply (upcoming_dates_weekdays monday_morning (book_of [ann; bob; cid])).
  - reflexivity.
  - intros r b [<- | [<- | [<- | []]]] H; inversion H; split; reflexivity.
  - reflexivity.
Defined.

Lemma loop_raises_first today st r rs e :
  loop_body today st r = Raise e -> loop today st (r :: rs) = Raise e.
Proof. intros H. cbn [loop]. rewrite H. reflexivity. Qed.

Lemma loop_reaches today rs1 :
  forall st r rs2,
    (forall st1, exists e, loop_body today st1 r = Raise e) ->
    exists e, loop today st (rs1 ++ r :: rs2) = Raise e.
Proof.
  induction rs1 as [|x rs1 IH]; intros st r rs2 Hr; cbn [List.app loop].
  - destruct (Hr st) as [e He]. exists e. rewrite He. reflexivity.
  - destruct (loop_body today st x) as [st1|e]; cbn [rbind].
    + apply IH. exact Hr.
    + exists e. reflexivity.
Qed.

(** X11. In a year that is no leap year, one record whose birthday is a 29
    February makes [get_upcoming_birthdays] raise, whatever else the book
    holds: [replace(year=today.year)] finds no such day. *)
Theorem leap_day_birthday_raises (today : datetime) (book : AddressBook)
        (r : record) (b : Field datetime) :
  is_leap (year today) = false ->
  In r (dict_values book) ->
  birthday r = Some b -> month (value b) = 2 -> day (value b) = 29 ->
  exists e, get_upcoming_birthdays today book = Raise e.
Proof.
  intros Hleap Hin Hb Hm Hd.
  apply in_split in Hin. destruct Hin as (rs1 & rs2 & Hrs).
  unfold get_upcoming_birthdays. rewrite Hrs.
  destruct (loop_reaches today rs1 (None, []) r rs2) as [e He].
  - intros [v acc]. unfold loop_body, candidate. rewrite Hb.
    unfold Datetime.replace_year, Datetime.datetime_new, days_in_month.
    rewrite Hm, Hd, Hleap.
    destruct (negb ((MINYEAR <=? year today) && (year today <=? MAXYEAR)));
      eexists; reflexivity.
  - exists e. rewrite He. reflexivity.
Qed.

Lemma leap_day_birthday_raises_witness :
  exists e,
    get_upcoming_birthdays (mk_datetime 2023 2 27 9 30 0 0)
                           (book_of [ann; leap_day_child; bob])
    = Raise e.
Proof.
  apply (leap_day_birthday_raises (mk_datetime 2023 2 27 9 30 0 0)
           (book_of [ann; leap_day_child; bob]) leap_day_child
           (mk_Field (mk_datetime 2000 2 29 0 0 0 0))).
  - reflexivity.
  - right. left. reflexivity.
  - reflexivity.
  - reflexivity.
  - reflexivity.
Defined.

Lemma replace_year_raises dt y e :
  Datetime.valid dt = true -> Datetime.replace_year dt y = Raise e ->
  exists msg, e = ValueError msg.
Proof.
  intros V. apply valid_iff in V. destruct V as [Vd _].
  unfold valid_date in Vd. rewrite !andb_true_iff in Vd.
  destruct Vd as [[[[_ Hm1] Hm2] _] _].
  unfold Datetime.replace_year, Datetime.datetime_new. rewrite Hm1, Hm2.
  cbn [andb negb].
  destruct (negb ((MINYEAR <=? y) && (y <=? MAXYEAR)));
    [intros H; inversion H; eexists; reflexivity|].
  destruct (negb ((1 <=? day dt) && (day dt <=? days_in_month y (month dt))));
    [intros H; inversion H; eexists; reflexivity | discriminate].
Qed.

Lemma candidate_raises today r v e :
  midnight_if_bound v ->
  (forall b, birthday r = Some b ->
             Datetime.valid (value b) = true
             /\ Datetime.time_of_day (value b) = 0) ->
  candidate today r v = Raise e ->
  (e = UnboundLocalError UNBOUND_ERROR /\ v = None /\ birthday r = None)
  \/ exists msg, e = ValueError msg.
Proof.
  intros Hv Hb. destruct (birthday r) as [b|] eqn:Eb.
  - destruct (Hb b eq_refl) as [Vb _]. unfold candidate. rewrite Eb.
    unfold rbind.
    destruct (Datetime.replace_year (value b) (year today)) as [c0|e0] eqn:E0.
    + destruct (replace_year_valid _ _ _ (valid_valid_time _ Vb) E0) as [V0 _].
      destruct (Datetime.lt c0 today); [|discriminate].
      intros H. right. exact (replace_year_raises _ _ _ V0 H).
    + intros H. inversion H; subst. right.
      exact (replace_year_raises _ _ _ Vb E0).
  - rewrite (candidate_without_birthday _ _ _ Eb). destruct v as [c0|].
    + destruct (Hv c0 eq_refl) as [V0 _].
      destruct (Datetime.lt c0 today); [|discriminate].
      intros H. right. exact (replace_year_raises _ _ _ V0 H).
    + intros H. inversion H. left. repeat split.
Qed.

Lemma loop_body_raises today r v acc e :
  midnight_if_bound v ->
  (forall b, birthday r = Some b ->
             Datetime.valid (value b) = true
             /\ Datetime.time_of_day (value b) = 0) ->
  loop_body today (v, acc) r = Raise e ->
  (e = UnboundLocalError UNBOUND_ERROR /\ v = None /\ birthday r = None)
  \/ exists msg, e = ValueError msg.
Proof.
  intros Hv Hb. unfold loop_body, rbind.
  destruct (candidate today r v) as [c|e0] eqn:Ec.
  - destruct (candidate_midnight_valid _ _ _ _ Hv Hb Ec) as [Vc _].
    destruct (shift_weekend_spec c Vc) as (c' & -> & _).
    destruct ((0 <=? days_until_birthday today c)
              && (days_until_birthday today c <=? 7)); discriminate.
  - intros H. inversion H; subst. exact (candidate_raises _ _ _ _ Hv Hb Ec).
Qed.

Lemma loop_raises today rs :
  birthdays_midnight rs ->
  forall v acc e,
    midnight_if_bound v ->
    loop today (v, acc) rs = Raise e ->
    (e = UnboundLocalError UNBOUND_ERROR /\ v = None
     /\ exists r rs', rs = r :: rs' /\ birthday r = None)
    \/ exists msg, e = ValueError msg.
Proof.
  induction rs as [|r rs IH]; intros Hb v acc e Hv; cbn [loop];
    [discriminate|].
  assert (Hbr : forall b, birthday r = Some b ->
                          Datetime.valid (value b) = true
                          /\ Datetime.time_of_day (value b) = 0).
  { intros b. apply Hb. left. reflexivity. }
  assert (Hbrs : birthdays_midnight rs).
  { intros x b Hx. apply Hb. right. exact Hx. }
  unfold rbind.
  destruct (loop_body today (v, acc) r) as [[v1 acc1]|e1] eqn:E1.
  - intros H.
    destruct (loop_body_returns _ _ _ _ _ _ Hv Hbr E1)
      as (c & c' & _ & _ & _ & -> & V & T & _).
    assert (Hv1 : midnight_if_bound (Some c')).
    { intros x Hx. inversion Hx; subst. split; assumption. }
    destruct (IH Hbrs _ _ _ Hv1 H) as [(_ & Hnone & _) | Hrest];
      [discriminate | right; exact Hrest].
  - intros H. inversion H; subst.
    destruct (loop_body_raises _ _ _ _ _ Hv Hbr E1) as [(-> & -> & Hn) | Hrest];
      [|right; exact Hrest].
    left. repeat split. exists r, rs. split; [reflexivity | exact Hn].
Qed.

(** X12. With the birthdays [Birthday] makes, [get_upcoming_birthdays]
    raises in two ways only: [UnboundLocalError], and then the first record
    of the book has no birthday, or the [ValueError] of a [replace]. The
    weekend shift never raises. *)
Theorem upcoming_raises_only (today : datetime) (book : AddressBook)
        (e : exn) :
  birthdays_midnight (dict_values book) ->
  get_upcoming_birthdays today book = Raise e ->
  (e = UnboundLocalError UNBOUND_ERROR
   /\ exists k r rest, book = (k, r) :: rest /\ birthday r = None)
  \/ exists msg, e = ValueError msg.
Proof.
  intros Hb. unfold get_upcoming_birthdays, rbind.
  destruct (loop today (None, []) (dict_values book)) as [st|e0] eqn:E;
    [discriminate|].
  intros H. inversion H; subst.
  assert (Hv : midnight_if_bound None) by (intros c Hc; discriminate).
  destruct (loop_raises today _ Hb _ _ _ Hv E)
    as [(-> & _ & r & rs' & Hrs & Hn) | Hmsg];
    [|right; exact Hmsg].
  left. split; [reflexivity|].
  destruct book as [|[k r0] rest]; [discriminate|].
  cbn in Hrs. inversion Hrs; subst. exists k, r, rest. split; [reflexivity | exact Hn].
Qed.

Lemma upcoming_raises_only_witness :
  (UnboundLocalError UNBOUND_ERROR = UnboundLocalError UNBOUND_ERROR
   /\ exists k r rest, book_of [dee; ann] = (k, r) :: rest /\ birthday r = None)
  \/ exists msg, UnboundLocalError UNBOUND_ERROR = ValueError msg.
Proof.
  apply (upcoming_raises_only monday_morning (book_of [dee; ann])).
  - intros r b [<- | [<- | []]] H; inversion H; split; reflexivity.
  - reflexivity.
Defined.

(** *** The listing of a book in two parts *)

Lemma loop_body_acc today v acc r :
  loop_body today (v, acc) r = with_prefix acc (loop_body today (v, []) r).
Proof.
  unfold loop_body, rbind.
  destruct (candidate today r v) as [c|e]; [|reflexivity].
  destruct ((0 <=? days_until_birthday today c)
            && (days_until_birthday today c <=? 7)).
  - destruct (shift_weekend c); reflexivity.
  - cbn. rewrite app_nil_r. reflexivity.
Qed.

Lemma loop_acc today rs :
  forall v acc,
    loop today (v, acc) rs = with_prefix acc (loop today (v, []) rs).
Proof.
  induction rs as [|r rs IH]; intros v acc; cbn [loop].
  - cbn. rewrite app_nil_r. reflexivity.
  - rewrite (loop_body_acc today v acc r).
    destruct (loop_body today (v, []) r) as [[v1 l1]|e]; cbn; [|reflexivity].
    rewrite (IH v1 (acc ++ l1)), (IH v1 l1).
    destruct (loop today (v1, []) rs) as [[v2 l2]|e]; cbn; [|reflexivity].
    rewrite app_assoc. reflexivity.
Qed.

Lemma loop_app today rs1 :
  forall st rs2,
    loop today st (rs1 ++ rs2)
    = (st1 <- loop today st rs1 ;; loop today st1 rs2)%res.
Proof.
  induction rs1 as [|r rs1 IH]; intros st rs2; cbn [List.app loop rbind];
    [reflexivity|].
  destruct (loop_body today st r) as [st1|e]; cbn [rbind]; [apply IH | reflexivity].
Qed.

Lemma loop_fresh today v acc r rs b :
  birthday r = Some b ->
  loop today (v, acc) (r :: rs) = loop today (None, acc) (r :: rs).
Proof.
  intros Hb. cbn [loop]. unfold loop_body.
  rewrite (candidate_fresh today r b v Hb). reflexivity.
Qed.

(** X13. When a record with a birthday stands at a place of the book, the
    listing of the book is the listing of the records before that place
    followed by the listing of the records from it on, errors included: what
    [this_year_birthday] held does not pass a record that has a birthday. *)
Theorem upcoming_in_two_parts (today : datetime) (book1 book2 : AddressBook)
        (k : string) (r : record) (b : Field datetime) :
  birthday r = Some b ->
  get_upcoming_birthdays today (book1 ++ (k, r) :: book2)
  = (l1 <- get_upcoming_birthdays today book1 ;;
     l2 <- get_upcoming_birthdays today ((k, r) :: book2) ;;
     Ok (l1 ++ l2))%res.
Proof.
  intros Hb. unfold get_upcoming_birthdays, dict_values.
  rewrite map_app, loop_app. cbn [map snd].
  destruct (loop today (None, []) (map snd book1)) as [[v1 acc1]|e];
    cbn [rbind snd]; [|reflexivity].
  rewrite (loop_fresh today v1 acc1 r (map snd book2) b Hb).
  rewrite (loop_acc today (r :: map snd book2) None acc1).
  destruct (loop today (None, []) (r :: map snd book2)) as [[v2 l2]|e];
    reflexivity.
Qed.

Lemma upcoming_in_two_parts_witness :
  get_upcoming_birthdays monday_morning ([("Ann", ann)] ++ ("Bob", bob) :: [("Dee", dee)])
  = (l1 <- get_upcoming_birthdays monday_morning [("Ann", ann)] ;;
     l2 <- get_upcoming_birthdays monday_morning (("Bob", bob) :: [("Dee", dee)]) ;;
     Ok (l1 ++ l2))%res.
Proof.
  apply (upcoming_in_two_parts monday_morning [("Ann", ann)] [("Dee", dee)]
           "Bob" bob (mk_Field (mk_datetime 1985 6 15 0 0 0 0))).
  reflexivity.
Defined.

(** ** The handlers *)

Lemma dict_contains_false {V} k (d : list (string * V)) :
  ~ In k (map fst d) -> dict_contains k d = false.
Proof.
  intros H. destruct (dict_contains k d) eqn:E; [|reflexivity].
  apply dict_contains_in in E. contradiction.
Qed.

(** X14. [add_contact] with a new name and a phone [Phone] accepts answers
    [Contact added.] and puts a record with that one phone and no birthday at
    the end of the book, where [find] and [show_phone] then get it. *)
Theorem add_contact_new (n phone : string) (book : AddressBook) :
  ~ In n (map fst book) ->
  Str.isdigit phone = true -> Str.len phone = 10 ->
  let r := mk_record (Name n) [mk_Field phone] None in
  add_contact [n; phone] book = ("Contact added.", book ++ [(n, r)])
  /\ find n (snd (add_contact [n; phone] book)) = Some r
  /\ Handlers.show_phone [n] (snd (add_contact [n; phone] book))
     = (("Phone(s) for " ++ n ++ ": " ++ phone)%string, book ++ [(n, r)]).
Proof.
  intros Hn Hd Hl r.
  assert (E : add_contact [n; phone] book = ("Contact added.", book ++ [(n, r)])).
  { unfold add_contact, input_error, add_contact_body, unpack2, bind, ret, gets.
    rewrite (dict_contains_false _ _ Hn).
    unfold add_phone, bind, lift, modify. rewrite (Phone_valid _ Hd Hl).
    unfold add_record, modify. cbn [phones set_phones name value Record_ Name].
    rewrite (dict_set_new n _ book Hn). reflexivity. }
  assert (F : find n (book ++ [(n, r)]) = Some r).
  { unfold find. rewrite <- (dict_set_new n r book Hn). apply dict_get_set_same. }
  rewrite E. cbn [snd]. repeat split; [exact F|].
  unfold Handlers.show_phone, Handlers.input_error, Handlers.show_phone_body.
  rewrite F. reflexivity.
Qed.

Lemma add_contact_new_witness :
  let r := mk_record (Name "Bob") [mk_Field "4445556666"] None in
  add_contact ["Bob"; "4445556666"] ann_book
  = ("Contact added.", ann_book ++ [("Bob", r)])
  /\ find "Bob" (snd (add_contact ["Bob"; "4445556666"] ann_book)) = Some r
  /\ Handlers.show_phone ["Bob"] (snd (add_contact ["Bob"; "4445556666"] ann_book))
     = ("Phone(s) for Bob: 4445556666", ann_book ++ [("Bob", r)]).
Proof.
  apply (add_contact_new "Bob" "4445556666" ann_book).
  - intros [H | []]. discriminate.
  - reflexivity.
  - reflexivity.
Defined.

(** X15. [add_contact] never touches a record that is there: with a name
    of the book it answers that the contact exists, with other than two
    arguments it answers with the [ValueError] of the unpacking, and whenever
    its answer is not [Contact added.] the book is as it was. *)
Theorem add_contact_rejects (args : list string) (book : AddressBook) :
  (forall n phone,
      args = [n; phone] -> In n (map fst book) ->
      add_contact args book
      = (("ValueError: Contact with name " ++ n ++ " already exists.")%string,
         book))
  /\ (List.length args <> 2%nat ->
      exists msg,
        add_contact args book = (("ValueError: " ++ msg)%string, book))
  /\ (fst (add_contact args book) <> "Contact added." ->
      snd (add_contact args book) = book).
Proof.
  split; [|split].
  - intros n phone -> Hin. apply dict_contains_in in Hin.
    unfold add_contact, input_error, add_contact_body, unpack2, bind, ret, gets.
    rewrite Hin. reflexivity.
  - intros Hlen. unfold add_contact, input_error, add_contact_body, unpack2.
    destruct args as [|a [|b [|c l]]]; try (eexists; reflexivity).
    contradiction Hlen. reflexivity.
  - unfold add_contact, input_error, add_contact_body, unpack2.
    destruct args as [|a [|b [|c l]]]; try reflexivity.
    unfold bind, ret, gets.
    destruct (dict_contains a book); [reflexivity|].
    unfold add_phone, bind, lift, modify.
    destruct (Phone b) as [p|e] eqn:Ep.
    + cbn. intros H. contradiction H. reflexivity.
    + rewrite (Phone_raises _ _ Ep). reflexivity.
Qed.

Lemma add_contact_rejects_witness :
  add_contact ["Ann"; "4445556666"] ann_book
  = ("ValueError: Contact with name Ann already exists.", ann_book)
  /\ (exists msg, add_contact ["Ann"] ann_book
                  = (("ValueError: " ++ msg)%string, ann_book))
  /\ snd (add_contact ["Bob"; "12"] ann_book) = ann_book.
Proof.
  split; [|split].
  - apply (proj1 (add_contact_rejects ["Ann"; "4445556666"] ann_book)
                 "Ann" "4445556666"); [reflexivity | left; reflexivity].
  - apply (proj1 (proj2 (add_contact_rejects ["Ann"] ann_book))). discriminate.
  - apply (proj2 (proj2 (add_contact_rejects ["Bob"; "12"] ann_book))).
    discriminate.
Defined.



Lemma on_record_unchanged {A} n r (m : M record A) book res r' :
  find n book = Some r -> m r = (res, r') -> r' = r ->
  Handlers.on_record n r m book = (Handlers.of_result res, book).
Proof.
  intros Hf Hm ->. unfold Handlers.on_record. rewrite Hm.
  rewrite (dict_set_same n r book Hf). reflexivity.
Qed.

(** X17. [change_contact] answers [Contact not found.] for a name that is
    not in the book, and the text of the [ValueError] for a number the
    contact has not, for a new number [Phone] refuses, and for other than
    three arguments; whenever its answer is not [Contact updated.] the book
    is as it was. *)
Theorem change_contact_failures (args : list string) (book : AddressBook) :
  (forall n old_phone new_phone,
      args = [n; old_phone; new_phone] -> find n book = None ->
      Handlers.change_contact args book = (Handlers.NOT_FOUND, book))
  /\ (forall n old_phone new_phone r,
         args = [n; old_phone; new_phone] -> find n book = Some r ->
         (forall q, In q (phones r) -> value q <> old_phone) ->
         Handlers.change_contact args book
         = (("ValueError: Old number " ++ old_phone ++ " not found")%string,
            book))
  /\ (forall n old_phone new_phone r p,
         args = [n; old_phone; new_phone] -> find n book = Some r ->
         In p (phones r) -> value p = old_phone ->
         Str.isdigit new_phone = false \/ Str.len new_phone <> 10 ->
         Handlers.change_contact args book
         = (("ValueError: " ++ PHONE_ERROR)%string, book))
  /\ (List.length args <> 3%nat ->
      exists msg,
        Handlers.change_contact args book
        = (("ValueError: " ++ msg)%string, book))
  /\ (fst (Handlers.change_contact args book) <> "Contact updated." ->
      snd (Handlers.change_contact args book) = book).
Proof.
  unfold Handlers.change_contact, Handlers.input_error,
    Handlers.change_contact_body.
  split; [|split; [|split; [|split]]].
  - intros n o w -> Hf. cbn [Handlers.unpack3]. rewrite Hf. reflexivity.
  - intros n o w r -> Hf Hno. cbn [Handlers.unpack3]. rewrite Hf.
    rewrite (on_record_unchanged n r (edit_phone o w) book
               (Raise (ValueError ("Old number " ++ o ++ " not found")%string)) r Hf);
      [reflexivity | | reflexivity].
    unfold edit_phone, find_phone. rewrite (find_phone_in_none _ _ Hno).
    reflexivity.
  - intros n o w r p -> Hf Hin Hp Hbad. cbn [Handlers.unpack3]. rewrite Hf.
    rewrite (on_record_unchanged n r (edit_phone o w) book
               (Raise (ValueError PHONE_ERROR)) r Hf);
      [reflexivity | | reflexivity].
    unfold edit_phone, find_phone.
    destruct (find_phone_in_some _ _ _ Hin Hp) as [q ->].
    unfold bind, add_phone, lift. rewrite (Phone_invalid _ Hbad). reflexivity.
  - intros Hlen.
    destruct args as [|a [|b [|c [|d l]]]]; try (eexists; reflexivity).
    contradiction Hlen. reflexivity.
  - destruct args as [|a [|b [|c [|d l]]]]; try reflexivity.
    cbn [Handlers.unpack3].
    destruct (find a book) as [r|] eqn:Hf; [|reflexivity].
    destruct (edit_phone b c r) as [[ok|e] r'] eqn:He.
    + unfold Handlers.on_record. rewrite He. cbn.
      intros H. contradiction H. reflexivity.
    + pose proof (edit_phone_raises_unchanged _ _ _ _ _ He) as Hr.
      rewrite (on_record_unchanged a r (edit_phone b c) book (Raise e) r' Hf He Hr).
      cbn [Handlers.of_result]. destruct e; reflexivity.
Qed.

Lemma change_contact_failures_witness :
  Handlers.change_contact ["Bob"; "1112223333"; "4445556666"] ann_book
  = (Handlers.NOT_FOUND, ann_book)
  /\ Handlers.change_contact ["Ann"; "9999999999"; "4445556666"] ann_book
     = ("ValueError: Old number 9999999999 not found", ann_book)
  /\ Handlers.change_contact ["Ann"; "1112223333"; "bad"] ann_book
     = (("ValueError: " ++ PHONE_ERROR)%string, ann_book)
  /\ (exists msg, Handlers.change_contact ["Ann"; "1112223333"] ann_book
                  = (("ValueError: " ++ msg)%string, ann_book)).
Proof.
  split; [|split; [|split]].
  - apply (proj1 (change_contact_failures _ ann_book)
                 "Bob" "1112223333" "4445556666"); reflexivity.
  - apply (proj1 (proj2 (change_contact_failures _ ann_book))
                 "Ann" "9999999999" "4445556666" one_phone);
      [reflexivity | reflexivity |].
    intros q [<- | []]. discriminate.
  - apply (proj1 (proj2 (proj2 (change_contact_failures _ ann_book)))
                 "Ann" "1112223333" "bad" one_phone (mk_Field "1112223333"));
      [reflexivity | reflexivity | left; reflexivity | reflexivity |].
    left. reflexivity.
  - apply (proj1 (proj2 (proj2 (proj2 (change_contact_failures _ ann_book))))).
    discriminate.
Defined.

Lemma Birthday_DDMMYYYY y m d :
  valid_date y m d = true ->
  Birthday (DDMMYYYY d m y) = Ok (mk_Field (mk_datetime y m d 0 0 0 0)).
Proof.
  intros V. unfold Birthday. rewrite (strptime_DDMMYYYY y m d V). reflexivity.
Qed.

(** X18. For a contact of the book and the DD.MM.YYYY text of a calendar
    date, the handler [add_birthday] answers that the birthday was added and
    changes nothing but the birthday of that contact. [show_birthday] then
    answers with the [strftime] text of the date, which is the text that was
    typed when the year is 1000 or later; an earlier year comes back in
    fewer digits, 01.01.0005 as 01.01.5. *)
Theorem add_birthday_show_birthday (n : string) (y m d : Z)
        (book : AddressBook) (r : record) :
  find n book = Some r ->
  valid_date y m d = true ->
  let r' := set_birthday (mk_Field (mk_datetime y m d 0 0 0 0)) r in
  let book' := dict_set n r' book in
  Handlers.add_birthday [n; DDMMYYYY d m y] book
  = (("Birthday " ++ DDMMYYYY d m y ++ " added to contact " ++ n ++ ".")%string,
     book')
  /\ phones r' = phones r /\ name r' = name r
  /\ (forall n', n' <> n -> find n' book' = find n' book)
  /\ Handlers.show_birthday [n] book'
     = (("Birthday of " ++ n ++ ": "
         ++ Datetime.strftime_dmY (mk_datetime y m d 0 0 0 0))%string, book')
  /\ (1000 <= y ->
      Handlers.show_birthday [n] book'
      = (("Birthday of " ++ n ++ ": " ++ DDMMYYYY d m y)%string, book'))
  /\ (y = 5 -> m = 1 -> d = 1 ->
      DDMMYYYY d m y = "01.01.0005"
      /\ Handlers.show_birthday [n] book'
         = (("Birthday of " ++ n ++ ": 01.01.5")%string, book')).
Proof.
  intros Hf V r' book'.
  assert (Hshow : Handlers.show_birthday [n] book'
                  = (("Birthday of " ++ n ++ ": "
                      ++ Datetime.strftime_dmY (mk_datetime y m d 0 0 0 0))%string,
                     book')).
  { unfold Handlers.show_birthday, Handlers.input_error,
      Handlers.show_birthday_body, find, book'.
    rewrite dict_get_set_same. reflexivity. }
  assert (Hy : 1 <= y <= 9999).
  { unfold valid_date, MINYEAR, MAXYEAR in V.
    rewrite !andb_true_iff, !Z.leb_le in V. lia. }
  split; [|split; [reflexivity|split; [reflexivity|split; [|split; [exact Hshow|split]]]]].
  - unfold Handlers.add_birthday, Handlers.input_error,
      Handlers.add_birthday_body, unpack2, ret, Handlers.on_record.
    rewrite Hf. unfold add_birthday, bind, lift, modify.
    rewrite (Birthday_DDMMYYYY y m d V). reflexivity.
  - intros n' Hn'. apply dict_get_set_other. exact Hn'.
  - intros H. rewrite Hshow.
    rewrite (strftime_DDMMYYYY y m d 0 0 0 0) by lia. reflexivity.
  - intros Ey Em Ed. rewrite Hshow. subst y m d. split; reflexivity.
Qed.

Lemma add_birthday_show_birthday_witness :
  (let r' := set_birthday (mk_Field (mk_datetime 1990 6 12 0 0 0 0)) one_phone in
   let book' := dict_set "Ann" r' ann_book in
   Handlers.add_birthday ["Ann"; "12.06.1990"] ann_book
   = ("Birthday 12.06.1990 added to contact Ann.", book')
   /\ Handlers.show_birthday ["Ann"] book'
      = ("Birthday of Ann: 12.06.1990", book'))
  /\ (let r' := set_birthday (mk_Field (mk_datetime 5 1 1 0 0 0 0)) one_phone in
      let book' := dict_set "Ann" r' ann_book in
      Handlers.add_birthday ["Ann"; "01.01.0005"] ann_book
      = ("Birthday 01.01.0005 added to contact Ann.", book')
      /\ Handlers.show_birthday ["Ann"] book'
         = ("Birthday of Ann: 01.01.5", book')).
Proof.
  split.
  - pose proof (add_birthday_show_birthday "Ann" 1990 6 12 ann_book one_phone
                  eq_refl eq_refl) as (Ha & _ & _ & _ & _ & Hs & _).
    split; [exact Ha | apply Hs; lia].
  - pose proof (add_birthday_show_birthday "Ann" 5 1 1 ann_book one_phone
                  eq_refl eq_refl) as (Ha & _ & _ & _ & _ & _ & Hs).
    split; [exact Ha | exact (proj2 (Hs eq_refl eq_refl eq_refl))].
Defined.

(** X19. The handler [add_birthday] answers with the text of a
    [ValueError], and leaves the book as it was, for a name that is not in
    the book, for a text [Birthday] refuses and for other than two arguments;
    [show_birthday] answers that no birthday was found for a name that is not
    in the book and for a contact without a birthday, and asks for the
    arguments when it gets none. *)
Theorem birthday_handlers_failures (book : AddressBook) :
  (forall n b, find n book = None ->
               Handlers.add_birthday [n; b] book
               = (("ValueError: Contact " ++ n ++ " not found.")%string, book))
  /\ (forall n b r e,
         find n book = Some r -> Birthday b = Raise e ->
         Handlers.add_birthday [n; b] book
         = (("ValueError: " ++ BIRTHDAY_ERROR)%string, book))
  /\ (forall args, List.length args <> 2%nat ->
                   exists msg, Handlers.add_birthday args book
                               = (("ValueError: " ++ msg)%string, book))
  /\ (forall n rest,
         (find n book = None
          \/ exists r, find n book = Some r /\ birthday r = None) ->
         Handlers.show_birthday (n :: rest) book
         = (("ValueError: No birthday found for contact " ++ n ++ ".")%string,
            book))
  /\ Handlers.show_birthday [] book = (Handlers.WRONG_ARGS, book).
Proof.
  split; [|split; [|split; [|split]]].
  - intros n b Hf. unfold Handlers.add_birthday, Handlers.input_error,
      Handlers.add_birthday_body, unpack2, ret. rewrite Hf. reflexivity.
  - intros n b r e Hf Hb. unfold Handlers.add_birthday, Handlers.input_error,
      Handlers.add_birthday_body, unpack2, ret. rewrite Hf.
    rewrite (on_record_unchanged n r (add_birthday b) book
               (Raise (ValueError BIRTHDAY_ERROR)) r Hf);
      [reflexivity | | reflexivity].
    unfold add_birthday, bind, lift. rewrite Hb, (Birthday_raises _ _ Hb).
    reflexivity.
  - intros args Hlen. unfold Handlers.add_birthday, Handlers.input_error,
      Handlers.add_birthday_body, unpack2.
    destruct args as [|a [|b [|c l]]]; try (eexists; reflexivity).
    contradiction Hlen. reflexivity.
  - intros n rest H. unfold Handlers.show_birthday, Handlers.input_error,
      Handlers.show_birthday_body.
    destruct H as [-> | (r & -> & Hb)]; [reflexivity|].
    destruct r as [nm ph bd]. cbn in Hb. subst bd. reflexivity.
  - reflexivity.
Qed.

Lemma birthday_handlers_failures_witness :
  Handlers.add_birthday ["Bob"; "12.06.1990"] ann_book
  = ("ValueError: Contact Bob not found.", ann_book)
  /\ Handlers.add_birthday ["Ann"; "31.02.2020"] ann_book
     = (("ValueError: " ++ BIRTHDAY_ERROR)%string, ann_book)
  /\ Handlers.show_birthday ["Ann"] ann_book
     = ("ValueError: No birthday found for contact Ann.", ann_book).
Proof.
  split; [|split].
  - apply (proj1 (birthday_handlers_failures ann_book)). reflexivity.
  - apply (proj1 (proj2 (birthday_handlers_failures ann_book))
                 "Ann" "31.02.2020" one_phone (ValueError BIRTHDAY_ERROR));
      reflexivity.
  - apply (proj1 (proj2 (proj2 (proj2 (birthday_handlers_failures ann_book))))).
    right. exists one_phone. split; reflexivity.
Defined.

Lemma join_cons sep x l :
  l <> [] -> join sep (x :: l) = (x ++ sep ++ join sep l)%string.
Proof. destruct l; [contradiction | reflexivity]. Qed.

(** X20. [show_all_phones] leaves the book as it is and answers [No
    contacts available.] exactly for the empty book; for any other book its
    text is that of [AddressBook.__str__], which starts with the text of the
    first record and, when a record of a new name is added, grows by a line
    with the text of that record. *)
Theorem show_all_phones_text (book : AddressBook) :
  snd (Handlers.show_all_phones book) = book
  /\ (fst (Handlers.show_all_phones book) = "No contacts available."
      <-> book = [])
  /\ (book <> [] ->
      fst (Handlers.show_all_phones book) = AddressBook_str book)
  /\ (forall r,
         book <> [] -> ~ In (value (name r)) (map fst book) ->
         AddressBook_str (snd (add_record r book))
         = (AddressBook_str book ++ LF ++ Record_str r)%string).
Proof.
  unfold Handlers.show_all_phones, Handlers.input_error,
    Handlers.show_all_phones_body.
  destruct book as [|[k r0] book].
  - repeat split; try reflexivity; intros; contradiction.
  - split; [reflexivity|]. split; [|split].
    + cbn [fst]. split; [|discriminate].
      cbn [dict_values map snd].
      destruct (map Record_str (map snd book)); cbn; discriminate.
    + reflexivity.
    + intros r _ Hn. unfold add_record, modify. cbn [snd].
      rewrite (dict_set_new _ r _ Hn). unfold AddressBook_str.
      change (((k, r0) :: book) ++ [(value (name r), r)])
        with ((k, r0) :: (book ++ [(value (name r), r)])).
      cbv iota. unfold dict_values.
      change (map snd ((k, r0) :: book ++ [(value (name r), r)]))
        with (map snd (((k, r0) :: book) ++ [(value (name r), r)])).
      rewrite !map_app. cbn [map snd]. apply join_snoc. discriminate.
Qed.

Lemma show_all_phones_text_witness :
  fst (Handlers.show_all_phones ann_book) = AddressBook_str ann_book
  /\ AddressBook_str (snd (add_record (Record_ "Bob") ann_book))
     = (AddressBook_str ann_book ++ LF ++ Record_str (Record_ "Bob"))%string.
Proof.
  split.
  - apply (proj1 (proj2 (proj2 (show_all_phones_text ann_book)))). discriminate.
  - apply (proj2 (proj2 (proj2 (show_all_phones_text ann_book)))).
    + discriminate.
    + intros [H | []]. discriminate.
Defined.

(** ** Splitting a line *)

Lemma is_word_inv w :
  Text.is_word w = true ->
  exists c w', w = String c w' /\ Text.is_space c = false /\ no_blank w' = true.
Proof.
  unfold Text.is_word. destruct w as [|c w']; [discriminate|].
  cbn [Str.all_chars]. rewrite !andb_true_iff, negb_true_iff.
  intros [_ [Hc Hw]]. exists c, w'. split; [reflexivity|]. split; [apply negb_true_iff; exact Hc | exact Hw].
Qed.

Lemma lstrip_blank s : blank s = true -> Text.lstrip s = EmptyString.
Proof.
  unfold blank. induction s as [|c s IH]; cbn; [reflexivity|].
  rewrite andb_true_iff. intros [-> Hs]. exact (IH Hs).
Qed.

Lemma lstrip_blank_app pre s :
  blank pre = true -> Text.lstrip (pre ++ s)%string = Text.lstrip s.
Proof.
  unfold blank. induction pre as [|c pre IH]; cbn; [reflexivity|].
  rewrite andb_true_iff. intros [-> Hs]. exact (IH Hs).
Qed.

Lemma span_word_app w s :
  no_blank w = true ->
  (s = EmptyString \/ exists c s', s = String c s' /\ Text.is_space c = true) ->
  Text.span_word (w ++ s)%string = (w, s).
Proof.
  unfold no_blank. intros Hw Hs. induction w as [|a w IH]; cbn.
  - destruct Hs as [-> | (c & s' & -> & Hc)]; cbn; [reflexivity|].
    rewrite Hc. reflexivity.
  - cbn in Hw. apply andb_true_iff in Hw. destruct Hw as [Ha Hw].
    apply negb_true_iff in Ha. rewrite Ha, (IH Hw). reflexivity.
Qed.

Lemma split_blank s : blank s = true -> Text.split s = [].
Proof.
  unfold blank. induction s as [|c s IH]; cbn; [reflexivity|].
  rewrite andb_true_iff. intros [-> Hs]. exact (IH Hs).
Qed.

Lemma split_word_then c w s sp :
  Text.is_space c = false -> no_blank w = true -> Text.is_space sp = true ->
  Text.split (String c w ++ String sp s)%string = String c w :: Text.split s.
Proof.
  intros Hc Hw Hsp. revert c Hc. induction w as [|a w IH]; intros c Hc.
  - cbn. rewrite Hc, Hsp. reflexivity.
  - unfold no_blank in Hw. cbn in Hw. apply andb_true_iff in Hw.
    destruct Hw as [Ha Hw]. apply negb_true_iff in Ha.
    change (Text.split (String c (String a w) ++ String sp s)%string)
      with (if Text.is_space c then Text.split (String a w ++ String sp s)%string
            else if Text.is_space a
                 then String c EmptyString
                      :: Text.split (String a w ++ String sp s)%string
                 else match Text.split (String a w ++ String sp s)%string with
                      | x :: ws => String c x :: ws
                      | [] => [String c EmptyString]
                      end).
    rewrite Hc, Ha, (IH Hw a Ha). reflexivity.
Qed.

Lemma split_word c w :
  Text.is_space c = false -> no_blank w = true ->
  Text.split (String c w) = [String c w].
Proof.
  intros Hc Hw. revert c Hc. induction w as [|a w IH]; intros c Hc.
  - cbn. rewrite Hc. reflexivity.
  - unfold no_blank in Hw. cbn in Hw. apply andb_true_iff in Hw.
    destruct Hw as [Ha Hw]. apply negb_true_iff in Ha.
    change (Text.split (String c (String a w)))
      with (if Text.is_space c then Text.split (String a w)
            else if Text.is_space a
                 then String c EmptyString :: Text.split (String a w)
                 else match Text.split (String a w) with
                      | x :: ws => String c x :: ws
                      | [] => [String c EmptyString]
                      end).
    rewrite Hc, Ha, (IH Hw a Ha). reflexivity.
Qed.

(** [split] takes apart what [join] with a space puts together. *)
Lemma split_join ws :
  Forall (fun w => Text.is_word w = true) ws ->
  Text.split (join SPACE ws) = ws.
Proof.
  induction ws as [|w ws IH]; intros H; [reflexivity|].
  inversion H as [|? ? Hw Hws]; subst.
  destruct (is_word_inv w Hw) as (c & w' & -> & Hc & Hw').
  destruct ws as [|w2 ws].
  - cbn [join]. apply split_word; assumption.
  - change (join SPACE (String c w' :: w2 :: ws))
      with (String c w' ++ SPACE ++ join SPACE (w2 :: ws))%string.
    unfold SPACE at 1.
    change (String (ascii_of_nat 32) EmptyString ++ join SPACE (w2 :: ws))%string
      with (String (ascii_of_nat 32) (join SPACE (w2 :: ws))).
    rewrite split_word_then by (assumption || reflexivity).
    rewrite (IH Hws). reflexivity.
Qed.

Lemma join_words_starts ws w :
  Forall (fun w => Text.is_word w = true) (w :: ws) ->
  exists c s, join SPACE (w :: ws) = String c s /\ Text.is_space c = false.
Proof.
  intros H. inversion H as [|? ? Hw Hws]; subst.
  destruct (is_word_inv w Hw) as (c & w' & -> & Hc & Hw').
  destruct ws; cbn; eexists; eexists; split; try reflexivity; exact Hc.
Qed.

Lemma split1_cons c s :
  Text.is_space c = false ->
  Text.split1 (String c s)
  = let '(w, r) := Text.span_word (String c s) in
    match Text.lstrip r with
    | EmptyString => [w]
    | r' => [w; r']
    end.
Proof.
  intros Hc. unfold Text.split1. cbn [Text.lstrip]. rewrite Hc. reflexivity.
Qed.

Lemma span_word_word c w s :
  Text.is_space c = false -> no_blank w = true ->
  (s = EmptyString \/ exists a s', s = String a s' /\ Text.is_space a = true) ->
  Text.span_word (String c (w ++ s)) = (String c w, s).
Proof.
  intros Hc Hw Hs. cbn [Text.span_word]. rewrite Hc, (span_word_app w s Hw Hs).
  reflexivity.
Qed.

(** A command word and arguments, joined by spaces, as [split(maxsplit=1)]
    sees them. *)
Lemma split1_command cmd ws w :
  Text.is_word cmd = true ->
  Forall (fun w => Text.is_word w = true) (w :: ws) ->
  Text.split1 (cmd ++ SPACE ++ join SPACE (w :: ws))%string
  = [cmd; join SPACE (w :: ws)].
Proof.
  intros Hcmd Hws.
  destruct (is_word_inv cmd Hcmd) as (c & cmd' & -> & Hc & Hcmd').
  destruct (join_words_starts ws w Hws) as (a & s & Hj & Ha).
  rewrite Hj.
  change (String c cmd' ++ SPACE ++ String a s)%string
    with (String c (cmd' ++ String (ascii_of_nat 32) (String a s))).
  rewrite (split1_cons _ _ Hc).
  rewrite (span_word_word c cmd' _ Hc Hcmd')
    by (right; eexists; eexists; split; reflexivity).
  cbn [Text.lstrip]. change (Text.is_space (ascii_of_nat 32)) with true.
  cbv iota. rewrite Ha. reflexivity.
Qed.

(** A command word alone, with blanks around it. *)
Lemma split1_alone pre cmd post :
  blank pre = true -> Text.is_word cmd = true -> blank post = true ->
  Text.split1 (pre ++ cmd ++ post)%string = [cmd].
Proof.
  intros Hpre Hcmd Hpost.
  destruct (is_word_inv cmd Hcmd) as (c & cmd' & -> & Hc & Hcmd').
  assert (Hl : Text.split1 (pre ++ String c cmd' ++ post)%string
               = Text.split1 (String c cmd' ++ post)%string).
  { unfold Text.split1. rewrite (lstrip_blank_app pre _ Hpre).
    cbn [String.append Text.lstrip]. rewrite Hc. reflexivity. }
  rewrite Hl. cbn [String.append]. rewrite (split1_cons _ _ Hc).
  rewrite (span_word_word c cmd' post Hc Hcmd').
  - rewrite (lstrip_blank post Hpost). reflexivity.
  - destruct post as [|a post']; [left; reflexivity|].
    right. exists a, post'. split; [reflexivity|].
    unfold blank in Hpost. cbn in Hpost. apply andb_true_iff in Hpost. tauto.
Qed.

(** ** The loop of [main] *)

(** X21. A line that is empty or has blanks only makes the unpacking of the
    command raise outside every handler: the exception leaves [main], and
    the run ends there without another line printed. *)
Theorem blank_line_leaves_main (now : datetime) (s : string)
        (book : AddressBook) (rest : list (datetime * string)) :
  blank s = true ->
  Handlers.main_turn now s book = Handlers.Uncaught NO_COMMAND
  /\ Handlers.main_loop ((now, s) :: rest) book = ([], Handlers.Crashed NO_COMMAND).
Proof.
  intros Hs.
  assert (E : Handlers.main_turn now s book = Handlers.Uncaught NO_COMMAND).
  { unfold Handlers.main_turn, Text.split1. rewrite (lstrip_blank s Hs).
    reflexivity. }
  split; [exact E|]. cbn [Handlers.main_loop]. rewrite E. reflexivity.
Qed.

Lemma blank_line_leaves_main_witness :
  Handlers.main_turn monday_morning "   " ann_book = Handlers.Uncaught NO_COMMAND
  /\ Handlers.main_loop [(monday_morning, "   "); (monday_morning, "all")] ann_book
     = ([], Handlers.Crashed NO_COMMAND).
Proof.
  apply (blank_line_leaves_main monday_morning "   " ann_book
           [(monday_morning, "all")]).
  reflexivity.
Defined.

(** X22. A command that takes arguments, typed without any, makes
    [args[0]] raise [IndexError] outside the handler: the exception leaves
    [main] instead of the decorator's text being printed. *)
Theorem command_without_arguments (now : datetime) (pre cmd post : string)
        (book : AddressBook) :
  In cmd COMMANDS_WITH_ARGS -> blank pre = true -> blank post = true ->
  Handlers.main_turn now (pre ++ cmd ++ post)%string book
  = Handlers.Uncaught NO_ARGS.
Proof.
  intros Hcmd Hpre Hpost. unfold Handlers.main_turn.
  destruct Hcmd as [<- | [<- | [<- | [<- | [<- | []]]]]];
    (rewrite split1_alone by (assumption || reflexivity)); reflexivity.
Qed.

Lemma command_without_arguments_witness :
  Handlers.main_turn monday_morning (" " ++ "phone" ++ "  ")%string ann_book
  = Handlers.Uncaught NO_ARGS.
Proof.
  apply (command_without_arguments monday_morning " " "phone" "  " ann_book).
  - right. right. left. reflexivity.
  - reflexivity.
  - reflexivity.
Defined.

(** X23. A command with arguments, typed as words with one space between
    them, reaches its handler with exactly those words as the arguments, and
    the turn prints what the handler answers. *)
Theorem command_reaches_handler (now : datetime) (w : string)
        (ws : list string) (book : AddressBook) :
  Forall (fun x => Text.is_word x = true) (w :: ws) ->
  Handlers.main_turn now (command_line "add" (w :: ws)) book
  = printed (add_contact (w :: ws) book)
  /\ Handlers.main_turn now (command_line "change" (w :: ws)) book
     = printed (Handlers.change_contact (w :: ws) book)
  /\ Handlers.main_turn now (command_line "phone" (w :: ws)) book
     = printed (Handlers.show_phone (w :: ws) book)
  /\ Handlers.main_turn now (command_line "add-birthday" (w :: ws)) book
     = printed (Handlers.add_birthday (w :: ws) book)
  /\ Handlers.main_turn now (command_line "show-birthday" (w :: ws)) book
     = printed (Handlers.show_birthday (w :: ws) book).
Proof.
  intros Hws. unfold command_line, Handlers.main_turn.
  repeat split;
    (rewrite split1_command by (assumption || reflexivity));
    cbn [String.eqb Ascii.eqb Bool.eqb orb andb Handlers.with_args];
    rewrite (split_join (w :: ws) Hws); reflexivity.
Qed.

Lemma command_reaches_handler_witness :
  Handlers.main_turn monday_morning
                     (command_line "add" ["Bob"; "4445556666"]) ann_book
  = printed (add_contact ["Bob"; "4445556666"] ann_book)
  /\ command_line "add" ["Bob"; "4445556666"] = "add Bob 4445556666".
Proof.
  split; [|reflexivity].
  apply (command_reaches_handler monday_morning "Bob" ["4445556666"] ann_book).
  repeat constructor.
Defined.

Lemma add_contact_outcome args book :
  snd (add_contact args book) = book
  \/ exists n phone,
      ~ In n (map fst book)
      /\ add_contact args book
         = ("Contact added.",
            book ++ [(n, mk_record (Name n) [mk_Field phone] None)]).
Proof.
  unfold add_contact, input_error, add_contact_body, unpack2.
  destruct args as [|a [|b [|c l]]]; try (left; reflexivity).
  unfold bind, ret, gets.
  destruct (dict_contains a book) eqn:Ec; [left; reflexivity|].
  assert (Hn : ~ In a (map fst book)).
  { intros Hin. apply dict_contains_in in Hin. congruence. }
  unfold add_phone, bind, lift, modify, Phone.
  destruct (negb (Str.isdigit b) || negb (Str.len b =? 10));
    [left; reflexivity|].
  right. exists a, b. split; [exact Hn|].
  unfold add_record, modify. cbn [phones set_phones name value Record_ Name].
  rewrite (dict_set_new a _ book Hn). reflexivity.
Qed.

Lemma edit_phone_name o w r res r' :
  edit_phone o w r = (res, r') -> name r' = name r.
Proof.
  destruct res as [b|e]; intros H.
  - destruct (edit_phone_returns _ _ _ _ _ H) as (l1 & p & l2 & _ & _ & _ & -> & _).
    reflexivity.
  - rewrite (edit_phone_raises_unchanged _ _ _ _ _ H). reflexivity.
Qed.

Lemma add_birthday_name b r res r' :
  add_birthday b r = (res, r') -> name r' = name r.
Proof.
  unfold add_birthday, bind, lift, modify.
  destruct (Birthday b); intros H; inversion H; reflexivity.
Qed.

Lemma add_birthday_raises_unchanged b r e r' :
  add_birthday b r = (Raise e, r') -> r' = r.
Proof.
  unfold add_birthday, bind, lift, modify.
  destruct (Birthday b); intros H; inversion H; reflexivity.
Qed.

Lemma change_contact_outcome args book :
  snd (Handlers.change_contact args book) = book
  \/ exists n r r',
      find n book = Some r /\ name r' = name r
      /\ Handlers.change_contact args book
         = ("Contact updated.", dict_set n r' book).
Proof.
  unfold Handlers.change_contact, Handlers.input_error,
    Handlers.change_contact_body.
  destruct args as [|a [|b [|c [|d l]]]]; try (left; reflexivity).
  cbn [Handlers.unpack3].
  destruct (find a book) as [r|] eqn:Hf; [|left; reflexivity].
  destruct (edit_phone b c r) as [[ok|e] r'] eqn:He.
  - right. exists a, r, r'. split; [exact Hf|].
    split; [exact (edit_phone_name _ _ _ _ _ He)|].
    unfold Handlers.on_record. rewrite He. reflexivity.
  - left. pose proof (edit_phone_raises_unchanged _ _ _ _ _ He) as Hr.
    rewrite (on_record_unchanged a r (edit_phone b c) book (Raise e) r' Hf He Hr).
    cbn [Handlers.of_result]. destruct e; reflexivity.
Qed.

Lemma add_birthday_outcome args book :
  snd (Handlers.add_birthday args book) = book
  \/ exists n b r r',
      find n book = Some r /\ name r' = name r
      /\ Handlers.add_birthday args book
         = (("Birthday " ++ b ++ " added to contact " ++ n ++ ".")%string,
            dict_set n r' book).
Proof.
  unfold Handlers.add_birthday, Handlers.input_error,
    Handlers.add_birthday_body, unpack2.
  destruct args as [|a [|b [|c l]]]; try (left; reflexivity).
  unfold ret.
  destruct (find a book) as [r|] eqn:Hf; [|left; reflexivity].
  destruct (add_birthday b r) as [[ok|e] r'] eqn:He.
  - right. exists a, b, r, r'. split; [exact Hf|].
    split; [exact (add_birthday_name _ _ _ _ He)|].
    unfold Handlers.on_record. rewrite He. reflexivity.
  - left. pose proof (add_birthday_raises_unchanged _ _ _ _ He) as Hr.
    rewrite (on_record_unchanged a r (add_birthday b) book (Raise e) r' Hf He Hr).
    cbn [Handlers.of_result]. destruct e; reflexivity.
Qed.

Lemma show_phone_keeps args book : snd (Handlers.show_phone args book) = book.
Proof.
  unfold Handlers.show_phone, Handlers.input_error, Handlers.show_phone_body.
  destruct args as [|a l]; [reflexivity|]. destruct (find a book); reflexivity.
Qed.

Lemma show_birthday_keeps args book :
  snd (Handlers.show_birthday args book) = book.
Proof.
  unfold Handlers.show_birthday, Handlers.input_error,
    Handlers.show_birthday_body.
  destruct args as [|a l]; [reflexivity|].
  destruct (find a book) as [[nm ph [b|]]|]; reflexivity.
Qed.

Lemma show_all_phones_keeps book : snd (Handlers.show_all_phones book) = book.
Proof.
  unfold Handlers.show_all_phones, Handlers.input_error,
    Handlers.show_all_phones_body.
  destruct book; reflexivity.
Qed.

Lemma show_upcoming_birthdays_keeps now book :
  snd (show_upcoming_birthdays now book) = book.
Proof.
  unfold show_upcoming_birthdays, input_error.
  destruct (get_upcoming_birthdays now book) as [[|x l]|[m|m|m]]; reflexivity.
Qed.

(** What a turn that prints has done to the book. *)
Lemma main_turn_outcome now s book text book' :
  Handlers.main_turn now s book = Handlers.Printed text book' ->
  book' = book \/ (SUCCESS text /\ book_change book book').
Proof.
  unfold Handlers.main_turn.
  destruct (Text.split1 s) as [|command args]; [discriminate|].
  destruct (String.eqb command "close" || String.eqb command "exit");
    [discriminate|].
  destruct (String.eqb command "hello");
    [intros H; inversion H; left; reflexivity|].
  destruct (String.eqb command "add").
  { unfold Handlers.with_args. destruct args as [|a l]; [discriminate|].
    destruct (add_contact_outcome (Text.split a) book) as [E | (n & p & Hn & E)].
    - destruct (add_contact (Text.split a) book) as [t b]. cbn in E. subst b.
      intros H. inversion H. left. reflexivity.
    - rewrite E. intros H. inversion H; subst. right.
      split; [left; reflexivity | apply change_new; exact Hn]. }
  destruct (String.eqb command "change").
  { unfold Handlers.with_args. destruct args as [|a l]; [discriminate|].
    destruct (change_contact_outcome (Text.split a) book)
      as [E | (n & r & r' & Hf & Hname & E)].
    - destruct (Handlers.change_contact (Text.split a) book) as [t b].
      cbn in E. subst b. intros H. inversion H. left. reflexivity.
    - rewrite E. intros H. inversion H; subst. right.
      split; [right; left; reflexivity | exact (change_record _ n r r' Hf Hname)]. }
  destruct (String.eqb command "phone").
  { unfold Handlers.with_args. destruct args as [|a l]; [discriminate|].
    pose proof (show_phone_keeps (Text.split a) book) as E.
    destruct (Handlers.show_phone (Text.split a) book) as [t b].
    cbn in E. subst b. intros H. inversion H. left. reflexivity. }
  destruct (String.eqb command "all").
  { pose proof (show_all_phones_keeps book) as E.
    destruct (Handlers.show_all_phones book) as [t b].
    cbn in E. subst b. intros H. inversion H. left. reflexivity. }
  destruct (String.eqb command "add-birthday").
  { unfold Handlers.with_args. destruct args as [|a l]; [discriminate|].
    destruct (add_birthday_outcome (Text.split a) book)
      as [E | (n & b0 & r & r' & Hf & Hname & E)].
    - destruct (Handlers.add_birthday (Text.split a) book) as [t b].
      cbn in E. subst b. intros H. inversion H. left. reflexivity.
    - rewrite E. intros H. inversion H; subst. right.
      split; [right; right; exists b0, n; reflexivity
             | exact (change_record _ n r r' Hf Hname)]. }
  destruct (String.eqb command "show-birthday").
  { unfold Handlers.with_args. destruct args as [|a l]; [discriminate|].
    pose proof (show_birthday_keeps (Text.split a) book) as E.
    destruct (Handlers.show_birthday (Text.split a) book) as [t b].
    cbn in E. subst b. intros H. inversion H. left. reflexivity. }
  destruct (String.eqb command "birthdays").
  { pose proof (show_upcoming_birthdays_keeps now book) as E.
    destruct (show_upcoming_birthdays now book) as [t b].
    cbn in E. subst b. intros H. inversion H. left. reflexivity. }
  intros H. inversion H. left. reflexivity.
Qed.

Lemma dict_get_in {V} k (v : V) d : dict_get k d = Some v -> In (k, v) d.
Proof.
  induction d as [|[k0 v0] d IH]; cbn; [discriminate|].
  destruct (String.eqb_spec k0 k) as [E | N].
  - intros H. inversion H; subst. left. reflexivity.
  - intros H. right. exact (IH H).
Qed.

Lemma dict_set_in {V} k (v : V) d k0 v0 :
  In (k0, v0) (dict_set k v d) -> (k0, v0) = (k, v) \/ In (k0, v0) d.
Proof.
  induction d as [|[k1 v1] d IH]; cbn.
  - intros [H | []]. left. symmetry. exact H.
  - destruct (String.eqb_spec k1 k) as [E | N]; cbn.
    + intros [H | H]; [left; rewrite <- H, E; reflexivity | right; right; exact H].
    + intros [H | H]; [right; left; exact H|].
      destruct (IH H); [left | right; right]; assumption.
Qed.

Lemma book_change_well_keyed book book' :
  well_keyed book -> book_change book book' -> well_keyed book'.
Proof.
  intros [Hnd Hk] Hc. destruct Hc as [|n phone Hn|n r r' Hf Hname].
  - split; assumption.
  - split.
    + rewrite map_app. cbn [map fst]. apply NoDup_app.
      * exact Hnd.
      * constructor; [intros [] | constructor].
      * intros x Hx [<- | []]. contradiction.
    + intros k r Hin. apply in_app_or in Hin.
      destruct Hin as [Hin | [H | []]]; [exact (Hk k r Hin)|].
      inversion H. reflexivity.
  - split.
    + apply dict_set_keys. exact Hnd.
    + intros k x Hin. destruct (dict_set_in _ _ _ _ _ Hin) as [H | H].
      * inversion H; subst. rewrite Hname.
        apply Hk. apply dict_get_in. exact Hf.
      * exact (Hk k x H).
Qed.

Lemma main_loop_well_keyed inputs :
  forall book out book',
    well_keyed book ->
    Handlers.main_loop inputs book = (out, Handlers.Waiting book') ->
    well_keyed book'.
Proof.
  induction inputs as [|[now s] inputs IH]; intros book out book' Hwk;
    cbn [Handlers.main_loop].
  - intros H. inversion H; subst. exact Hwk.
  - destruct (Handlers.main_turn now s book) as [|text book1|e] eqn:Et;
      [discriminate | | discriminate].
    destruct (Handlers.main_loop inputs book1) as [out1 st1] eqn:El.
    intros H. inversion H; subst.
    apply (IH book1 out1 book'); [|exact El].
    destruct (main_turn_outcome _ _ _ _ _ Et) as [-> | [_ Hc]];
      [exact Hwk | exact (book_change_well_keyed _ _ Hwk Hc)].
Qed.

(** X24. Whatever lines are typed, whenever [main] waits for the next line
    the keys of its book are distinct and every record is at the key that is
    its name. *)
Theorem main_keeps_book_well_keyed (inputs : list (datetime * string))
        (out : list string) (book : AddressBook) :
  Handlers.main inputs = (out, Handlers.Waiting book) -> well_keyed book.
Proof.
  unfold Handlers.main.
  destruct (Handlers.main_loop inputs []) as [out1 st] eqn:E.
  intros H. inversion H; subst.
  apply (main_loop_well_keyed inputs [] out1 book); [|exact E].
  split; [constructor | intros k r []].
Qed.

Lemma main_keeps_book_well_keyed_witness :
  well_keyed
    [("Ann", mk_record (Name "Ann") [mk_Field "1112223333"]
                       (Some (mk_Field (mk_datetime 1990 6 12 0 0 0 0))));
     ("Bob", mk_record (Name "Bob") [mk_Field "7778889999"] None)].
Proof.
  apply (main_keeps_book_well_keyed session
           ["Welcome to the assistant bot!"; "Contact added."; "Contact added.";
            "Birthday 12.06.1990 added to contact Ann."; "Contact updated.";
            "ValueError: Contact with name Ann already exists."]).
  reflexivity.
Defined.

(** X25. A turn changes the book only when it prints that a contact was
    added or updated or that a birthday was added: after every other text
    the book is as it was. *)
Theorem only_success_changes_book (now : datetime) (s text : string)
        (book book' : AddressBook) :
  Handlers.main_turn now s book = Handlers.Printed text book' ->
  book' = book \/ SUCCESS text.
Proof.
  intros H. destruct (main_turn_outcome _ _ _ _ _ H) as [E | [Hs _]];
    [left; exact E | right; exact Hs].
Qed.

Lemma only_success_changes_book_witness :
  ann_book = ann_book \/ SUCCESS "ValueError: Contact with name Ann already exists.".
Proof.
  apply (only_success_changes_book monday_morning "add Ann 0000000000"
           "ValueError: Contact with name Ann already exists." ann_book ann_book).
  reflexivity.
Defined.

Lemma main_loop_transcript inputs :
  forall book out st,
    Handlers.main_loop inputs book = (out, st) ->
    match st with
    | Handlers.Waiting _ => List.length out = List.length inputs
    | Handlers.Ended =>
        exists pre now s post l bk,
          inputs = pre ++ (now, s) :: post
          /\ Handlers.main_loop pre book = (l, Handlers.Waiting bk)
          /\ Handlers.main_turn now s bk = Handlers.Stop
          /\ out = l ++ ["Good bye!"]
          /\ forall post',
              Handlers.main_loop (pre ++ (now, s) :: post') book
              = (out, Handlers.Ended)
    | Handlers.Crashed e =>
        exists pre now s post bk,
          inputs = pre ++ (now, s) :: post
          /\ Handlers.main_loop pre book = (out, Handlers.Waiting bk)
          /\ Handlers.main_turn now s bk = Handlers.Uncaught e
          /\ forall post',
              Handlers.main_loop (pre ++ (now, s) :: post') book
              = (out, Handlers.Crashed e)
    end.
Proof.
  induction inputs as [|[now s] inputs IH]; intros book out st;
    cbn [Handlers.main_loop].
  - intros H. inversion H. reflexivity.
  - destruct (Handlers.main_turn now s book) as [|text book1|e] eqn:Et.
    + intros H. inversion H; subst.
      exists [], now, s, inputs, [], book.
      repeat split; try reflexivity; try assumption.
      intros post'. cbn [List.app Handlers.main_loop]. rewrite Et. reflexivity.
    + destruct (Handlers.main_loop inputs book1) as [out1 st1] eqn:El.
      intros H. inversion H; subst. specialize (IH _ _ _ El).
      destruct st as [|bk|e].
      * destruct IH as (pre & now' & s' & post & l & bk & -> & Hpre & Hturn
                        & -> & Hpost).
        exists ((now, s) :: pre), now', s', post, (text :: l), bk.
        split; [reflexivity|]. split.
        { cbn [Handlers.main_loop]. rewrite Et, Hpre. reflexivity. }
        split; [exact Hturn|]. split; [reflexivity|].
        intros post'. cbn [List.app Handlers.main_loop].
        rewrite Et, (Hpost post'). reflexivity.
      * cbn [List.length]. rewrite IH. reflexivity.
      * destruct IH as (pre & now' & s' & post & bk & -> & Hpre & Hturn & Hpost).
        exists ((now, s) :: pre), now', s', post, bk.
        split; [reflexivity|]. split.
        { cbn [Handlers.main_loop]. rewrite Et, Hpre. reflexivity. }
        split; [exact Hturn|].
        intros post'. cbn [List.app Handlers.main_loop].
        rewrite Et, (Hpost post'). reflexivity.
    + intros H. inversion H; subst.
      exists [], now, s, inputs, book.
      repeat split; try reflexivity; try assumption.
      intros post'. cbn [List.app Handlers.main_loop]. rewrite Et. reflexivity.
Qed.

Lemma main_loop_waiting inputs :
  forall book out bk,
    Handlers.main_loop inputs book = (out, Handlers.Waiting bk) ->
    List.length out = List.length inputs.
Proof. intros book out bk H. exact (main_loop_transcript _ _ _ _ H). Qed.

(** X26. [main] prints the greeting first and then calls [print] once for
    every line it reads, with a text that may hold several lines. When it
    waits for more, it has printed the greeting and one text for each line
    typed. When it has ended, the lines typed are some lines, each answered
    by one text, then a line on which the turn stops, answered by the
    farewell, and then lines that have no part in the run: with any other
    lines in their place the run is the same. When an exception left it,
    the lines typed are some lines, each answered by one text, then the line
    whose turn raised, which has no answer, and then lines that have no
    part in the run. *)
Theorem main_transcript (inputs : list (datetime * string))
        (out : list string) (st : Handlers.standing) :
  Handlers.main inputs = (out, st) ->
  hd_error out = Some "Welcome to the assistant bot!"
  /\ match st with
     | Handlers.Waiting _ => List.length out = S (List.length inputs)
     | Handlers.Ended =>
         exists pre now s post l bk,
           inputs = pre ++ (now, s) :: post
           /\ Handlers.main pre = (l, Handlers.Waiting bk)
           /\ List.length l = S (List.length pre)
           /\ Handlers.main_turn now s bk = Handlers.Stop
           /\ out = l ++ ["Good bye!"]
           /\ forall post',
               Handlers.main (pre ++ (now, s) :: post') = (out, Handlers.Ended)
     | Handlers.Crashed e =>
         exists pre now s post bk,
           inputs = pre ++ (now, s) :: post
           /\ Handlers.main pre = (out, Handlers.Waiting bk)
           /\ List.length out = S (List.length pre)
           /\ Handlers.main_turn now s bk = Handlers.Uncaught e
           /\ forall post',
               Handlers.main (pre ++ (now, s) :: post')
               = (out, Handlers.Crashed e)
     end.
Proof.
  unfold Handlers.main.
  destruct (Handlers.main_loop inputs []) as [out1 st1] eqn:E.
  intros H. inversion H; subst. split; [reflexivity|].
  pose proof (main_loop_transcript _ _ _ _ E) as Ht.
  destruct st as [|bk|e].
  - destruct Ht as (pre & now & s & post & l & bk & -> & Hpre & Hturn & ->
                    & Hpost).
    exists pre, now, s, post, ("Welcome to the assistant bot!" :: l), bk.
    split; [reflexivity|]. split; [rewrite Hpre; reflexivity|].
    split; [cbn [List.length]; rewrite (main_loop_waiting _ _ _ _ Hpre);
            reflexivity|].
    split; [exact Hturn|]. split; [reflexivity|].
    intros post'. rewrite (Hpost post'). reflexivity.
  - cbn [List.length]. rewrite Ht. reflexivity.
  - destruct Ht as (pre & now & s & post & bk & -> & Hpre & Hturn & Hpost).
    exists pre, now, s, post, bk.
    split; [reflexivity|]. split; [rewrite Hpre; reflexivity|].
    split; [cbn [List.length]; rewrite (main_loop_waiting _ _ _ _ Hpre);
            reflexivity|].
    split; [exact Hturn|].
    intros post'. rewrite (Hpost post'). reflexivity.
Qed.

Lemma main_transcript_witness :
  (exists pre now s post l bk,
      [(monday_morning, "hello"); (monday_morning, "exit");
       (monday_morning, "all")]
      = pre ++ (now, s) :: post
      /\ Handlers.main pre = (l, Handlers.Waiting bk)
      /\ List.length l = S (List.length pre)
      /\ Handlers.main_turn now s bk = Handlers.Stop
      /\ ["Welcome to the assistant bot!"; "How can I help you?"; "Good bye!"]
         = l ++ ["Good bye!"]
      /\ forall post',
          Handlers.main (pre ++ (now, s) :: post')
          = (["Welcome to the assistant bot!"; "How can I help you?";
              "Good bye!"], Handlers.Ended))
  /\ (exists pre now s post bk,
         [(monday_morning, "hello"); (monday_morning, "add");
          (monday_morning, "all")]
         = pre ++ (now, s) :: post
         /\ Handlers.main pre
            = (["Welcome to the assistant bot!"; "How can I help you?"],
               Handlers.Waiting bk)
         /\ List.length ["Welcome to the assistant bot!"; "How can I help you?"]
            = S (List.length pre)
         /\ Handlers.main_turn now s bk
            = Handlers.Uncaught (Handlers.IndexError "list index out of range")
         /\ forall post',
             Handlers.main (pre ++ (now, s) :: post')
             = (["Welcome to the assistant bot!"; "How can I help you?"],
                Handlers.Crashed
                  (Handlers.IndexError "list index out of range"))).
Proof.
  split.
  - exact (proj2 (main_transcript
                    [(monday_morning, "hello"); (monday_morning, "exit");
                     (monday_morning, "all")]
                    ["Welcome to the assistant bot!"; "How can I help you?";
                     "Good bye!"]
                    Handlers.Ended eq_refl)).
  - exact (proj2 (main_transcript
                    [(monday_morning, "hello"); (monday_morning, "add");
                     (monday_morning, "all")]
                    ["Welcome to the assistant bot!"; "How can I help you?"]
                    (Handlers.Crashed
                       (Handlers.IndexError "list index out of range"))
                    eq_refl)).
Defined.

(** ** [parse_input] *)

Lemma lstrip_word c w :
  Text.is_space c = false -> Text.lstrip (String c w) = String c w.
Proof. intros Hc. cbn. rewrite Hc. reflexivity. Qed.

Lemma rstrip_no_blank c w :
  Text.is_space c = false -> no_blank w = true ->
  Text.rstrip (String c w) = String c w.
Proof.
  intros Hc Hw. revert c Hc. induction w as [|a w IH]; intros c Hc.
  - cbn. rewrite Hc. reflexivity.
  - unfold no_blank in Hw. cbn in Hw. apply andb_true_iff in Hw.
    destruct Hw as [Ha Hw]. apply negb_true_iff in Ha.
    change (Text.rstrip (String c (String a w)))
      with (match Text.rstrip (String a w) with
            | EmptyString =>
                if Text.is_space c then EmptyString else String c EmptyString
            | t => String c t
            end).
    rewrite (IH Hw a Ha). reflexivity.
Qed.

Lemma strip_word w : Text.is_word w = true -> Text.strip w = w.
Proof.
  intros Hw. destruct (is_word_inv w Hw) as (c & w' & -> & Hc & Hw').
  unfold Text.strip. rewrite (rstrip_no_blank c w' Hc Hw').
  apply lstrip_word. exact Hc.
Qed.

(** X27. [parse_input] gives, for words typed with one space between
    them, the first word in small letters as the command and the other words
    as they are; for a line of blanks it gives the text of the [ValueError]
    of the unpacking, not a command. *)
Theorem parse_input_words (s : string) (w : string) (ws : list string) :
  (Forall (fun x => Text.is_word x = true) (w :: ws) ->
   Handlers.parse_input (join SPACE (w :: ws)) = inl (Text.lower w, ws))
  /\ (blank s = true ->
      Handlers.parse_input s
      = inr "ValueError: not enough values to unpack (expected at least 1, got 0)").
Proof.
  unfold Handlers.parse_input. split.
  - intros H. rewrite (split_join _ H). inversion H; subst.
    rewrite strip_word by assumption. reflexivity.
  - intros H. rewrite (split_blank s H). reflexivity.
Qed.

Lemma parse_input_words_witness :
  Handlers.parse_input (join SPACE ["ADD"; "Ann"; "1112223333"])
  = inl ("add", ["Ann"; "1112223333"])
  /\ Handlers.parse_input "  "
     = inr "ValueError: not enough values to unpack (expected at least 1, got 0)".
Proof.
  split.
  - apply (proj1 (parse_input_words EmptyString "ADD" ["Ann"; "1112223333"])).
    repeat constructor.
  - apply (proj2 (parse_input_words "  " EmptyString [])). reflexivity.
Defined.
